(** * SCPI instrument drivers over a TCP socket

    A shallow embedding of the drivers of the repository
    ([scpi_project/scpi_module_34465a.py], [scpi_project/scpi_module_DMM6500.py]
    and the older [scpiProject/scpi_module_34465a.py]) and the properties of
    their protocol engine: connection retry, command framing, checked command
    sequences, definite-length blocks, and the two acquisition strategies.

    Python values are modelled as follows.
    - [bytes] and [str] are lists of 8-bit characters.  A [str] holds code
      points below 256; [encode] and [decode] are UTF-8 on that range.  Text
      beyond U+00FF is not represented: [decode] stops at such a sequence as it
      does at a malformed one, and [utf8_ok] tells the two apart, so that
      UnicodeDecodeError is stated of the program only where [utf8_ok] fails.
    - Python integers are [Z]; floats are binary64 primitive floats.
    - Exceptions are values of [exn]; a computation returns [Ok], [Raise] or,
      when a loop is cut by its fuel, [Diverge].
    - The socket, the clock, the console and the file system form a [World]:
      the outcomes of future socket calls are scripted in it, and what the
      program did is recorded in its [trace], [console] and [files]. *)

From Stdlib Require Import Ascii String DecimalString Floats.
From Stdlib Require Import List ZArith Lia Bool.
Import ListNotations.
Open Scope Z_scope.

(** ** Python text *)

Module Py.

Abbreviation str := (list ascii) (only parsing).
Abbreviation bytes := (list ascii) (only parsing).

Definition txt (s : string) : list ascii := list_ascii_of_string s.
Arguments txt : simpl never.

Definition code (c : ascii) : Z := Z.of_nat (nat_of_ascii c).
Definition chr (n : Z) : ascii := ascii_of_nat (Z.to_nat n).

Definition nl : ascii := "010"%char.

Definition len {A} (s : list A) : Z := Z.of_nat (length s).

(** [s[i]] on a sequence: Python counts a negative index from the end and
    raises IndexError outside the sequence ([None] here). *)
Definition py_index {A} (s : list A) (i : Z) : option A :=
  let n := len s in
  let j := if i <? 0 then i + n else i in
  if (0 <=? j) && (j <? n) then nth_error s (Z.to_nat j) else None.

(** A slice bound, as Python clamps it. *)
Definition clamp (n i : Z) : Z :=
  if i <? 0 then Z.max 0 (i + n) else Z.min i n.

(** [s[lo:hi]]; an omitted bound is [None].  Slicing never raises. *)
Definition py_slice {A} (s : list A) (lo hi : option Z) : list A :=
  let n := len s in
  let a := match lo with Some i => clamp n i | None => 0 end in
  let b := match hi with Some j => clamp n j | None => n end in
  firstn (Z.to_nat (b - a)) (skipn (Z.to_nat a) s).

Fixpoint eqs (a b : list ascii) : bool :=
  match a, b with
  | [], [] => true
  | x :: a', y :: b' => Ascii.eqb x y && eqs a' b'
  | _, _ => false
  end.

Fixpoint starts_with (p s : list ascii) : bool :=
  match p, s with
  | [], _ => true
  | x :: p', y :: s' => Ascii.eqb x y && starts_with p' s'
  | _ :: _, [] => false
  end.

Definition endswith (s suffix : list ascii) : bool :=
  starts_with (rev suffix) (rev s).

(** [p in s] on text. *)
Fixpoint contains (p s : list ascii) : bool :=
  starts_with p s ||
  match s with
  | [] => false
  | _ :: s' => contains p s'
  end.

(** [s.split(sep)] for a one-character separator. *)
Fixpoint split (sep : ascii) (s : str) : list str :=
  match s with
  | [] => [[]]
  | c :: r =>
      if Ascii.eqb c sep then [] :: split sep r
      else match split sep r with
           | w :: ws => (c :: w) :: ws
           | [] => [[c]]
           end
  end.

Fixpoint join (sep : ascii) (l : list str) : str :=
  match l with
  | [] => []
  | [w] => w
  | w :: ws => w ++ sep :: join sep ws
  end.

(** White space: the six ASCII blanks for [bytes]; for [str] also the
    separators U+001C..U+001F, U+0085 and U+00A0. *)
Definition bytes_space (c : ascii) : bool :=
  let n := code c in ((9 <=? n) && (n <=? 13)) || (n =? 32).

Definition str_space (c : ascii) : bool :=
  let n := code c in
  bytes_space c || ((28 <=? n) && (n <=? 31)) || (n =? 133) || (n =? 160).

Fixpoint lstrip_with (sp : ascii -> bool) (s : list ascii) : list ascii :=
  match s with
  | [] => []
  | c :: r => if sp c then lstrip_with sp r else s
  end.

Definition rstrip_with (sp : ascii -> bool) (s : list ascii) : list ascii :=
  rev (lstrip_with sp (rev s)).

Definition strip_with (sp : ascii -> bool) (s : list ascii) : list ascii :=
  rstrip_with sp (lstrip_with sp s).

(** [s.strip()] on a [str]. *)
Definition strip (s : str) : str := strip_with str_space s.

Definition is_digit (c : ascii) : bool :=
  let n := code c in (48 <=? n) && (n <=? 57).

Definition digit_val (c : ascii) : Z := code c - 48.

(** The digits of a decimal literal: at least one digit, and an underscore
    only between two digits. *)
Fixpoint int_digits (acc : Z) (after_digit : bool) (s : list ascii) : option Z :=
  match s with
  | [] => if after_digit then Some acc else None
  | c :: r =>
      if is_digit c then int_digits (10 * acc + digit_val c) true r
      else if Ascii.eqb c "_" && after_digit then int_digits acc false r
      else None
  end.

(** [int(s)] in base 10: surrounding white space is dropped, one sign is
    allowed; [None] is ValueError. *)
Definition int_with (sp : ascii -> bool) (s : list ascii) : option Z :=
  match strip_with sp s with
  | "+"%char :: r => int_digits 0 false r
  | "-"%char :: r => option_map Z.opp (int_digits 0 false r)
  | t => int_digits 0 false t
  end.

Definition int_of_bytes (b : bytes) : option Z := int_with bytes_space b.
Definition int_of_str (s : str) : option Z := int_with str_space s.

(** [s.encode()]: UTF-8. *)
Definition encode_char (c : ascii) : bytes :=
  let n := code c in
  if n <? 128 then [c] else [chr (192 + n / 64); chr (128 + n mod 64)].

Definition encode (s : str) : bytes := flat_map encode_char s.

(** [b.decode()]: UTF-8, strict; [None] is UnicodeDecodeError. *)
Fixpoint decode (b : bytes) : option str :=
  match b with
  | [] => Some []
  | c :: r =>
      let n := code c in
      if n <? 128 then option_map (cons c) (decode r)
      else match r with
           | c2 :: r' =>
               let m := code c2 in
               if ((n =? 194) || (n =? 195)) && (128 <=? m) && (m <? 192)
               then option_map (cons (chr ((n - 192) * 64 + (m - 128)))) (decode r')
               else None
           | [] => None
           end
  end.

(** ["{}".format(n)] for an integer. *)
Definition str_of_Z (z : Z) : str :=
  txt (NilZero.string_of_int (Z.to_int z)).

(** ["{}".format(b)] for a boolean. *)
Definition str_of_bool (b : bool) : str :=
  if b then txt "True" else txt "False".

(** ["{:w}".format(s)]: a [str] is padded on the right to width [w]. *)
Definition ljust (w : nat) (s : str) : str :=
  s ++ repeat " "%char (w - length s).

(** [int(x)] for a float truncates towards zero; it fails on an infinity
    (OverflowError) and on a NaN (ValueError). *)
Definition trunc_float (x : float) : option Z :=
  match Prim2SF x with
  | S754_zero _ => Some 0
  | S754_finite s m e =>
      let mag := if 0 <=? e then Z.pos m * 2 ^ e else Z.pos m / 2 ^ (- e) in
      Some (if s then - mag else mag)
  | S754_infinity _ => None
  | S754_nan => None
  end.

End Py.

Import Py.

(** ** Exceptions, results and the state monad *)

Inductive exn :=
| CommandError (msg : str)
| AttributeError
| IndexError
| ValueError
| UnicodeDecodeError
| SocketTimeout
| SocketError (err : str)
| UnboundLocalError
| ZeroDivisionError
| OverflowError
| EOFError
| SystemExit (status : Z).

Inductive result (A : Type) :=
| Ok (a : A)
| Raise (e : exn)
| Diverge.

Arguments Ok {A} a.
Arguments Raise {A} e.
Arguments Diverge {A}.

(** A computation over a state [S]: it always leaves a state, also when it
    raises. *)
Definition M (S A : Type) : Type := S -> S * result A.

Definition ret {S A} (a : A) : M S A := fun s => (s, Ok a).

Definition raise {S A} (e : exn) : M S A := fun s => (s, Raise e).

Definition diverge {S A} : M S A := fun s => (s, Diverge).

Definition bind {S A B} (m : M S A) (k : A -> M S B) : M S B :=
  fun s =>
    match m s with
    | (s', Ok a) => k a s'
    | (s', Raise e) => (s', Raise e)
    | (s', Diverge) => (s', Diverge)
    end.

Declare Scope monad_scope.
Delimit Scope monad_scope with monad.
Notation "x <- m ;; k" := (bind m (fun x => k))
  (at level 61, m at next level, right associativity) : monad_scope.
Notation "' pat <- m ;; k" := (bind m (fun x => match x with pat => k end))
  (at level 61, pat pattern, m at next level, right associativity) : monad_scope.
Notation "m ;; k" := (bind m (fun _ => k))
  (at level 61, right associativity) : monad_scope.
Open Scope monad_scope.

(** [try: m  except <the exceptions h accepts>: h e]. *)
Definition try_except {S A} (m : M S A) (h : exn -> option (M S A)) : M S A :=
  fun s =>
    match m s with
    | (s', Raise e) =>
        match h e with
        | Some k => k s'
        | None => (s', Raise e)
        end
    | r => r
    end.

Definition of_option {S A} (e : exn) (o : option A) : M S A :=
  match o with
  | Some a => ret a
  | None => raise e
  end.

Definition of_result {S A} (r : result A) : M S A := fun s => (s, r).

(** [except socket.error as err]: socket.timeout is a socket.error; the
    handler sees the text of the error. *)
Definition socket_error (e : exn) : option str :=
  match e with
  | SocketError err => Some err
  | SocketTimeout => Some (txt "timed out")
  | _ => None
  end.

(** ** The world outside the program *)

Inductive conn_outcome := ConnOk | ConnError (err : str).
Inductive send_outcome := SendOk | SendError (err : str).
Inductive recv_outcome := RecvData (data : bytes) | RecvTimeout | RecvError (err : str).

(** What the program did to a socket or to the clock. *)
Inductive event :=
| EvConnect (fd : nat) (host : str) (port : Z) (timeout : Z) (r : conn_outcome)
| EvSend (fd : nat) (data : bytes) (r : send_outcome)
| EvRecv (fd : nat) (bufsize : Z) (r : recv_outcome)
| EvClose (fd : nat)
| EvSleep (secs : Z).

Inductive level := DEBUG | INFO | ERROR.

(** A line written by [print] or by the module's logger. *)
Inductive out :=
| Print (s : str)
| PrintRepr (b : bytes)   (* [print(b)] of a bytes object: its repr, not spelled out *)
| Log (lvl : level) (s : str).

Record World := mkWorld {
  connects : list conn_outcome;  (* outcome of each coming sock.connect; it succeeds once the list is used up *)
  sends : list send_outcome;     (* outcome of each coming sock.send; it succeeds once the list is used up *)
  inbound : list recv_outcome;   (* what the coming sock.recv calls meet; a timeout once the list is used up *)
  stdin : list str;              (* lines typed by the user *)
  files : list (str * list ascii); (* the regular files, by name *)
  next_fd : nat;                 (* the next socket handle *)
  trace : list event;            (* oldest first *)
  console : list out             (* oldest first *)
}.

(** Updates of the world. *)
Definition add_event (e : event) (w : World) : World :=
  mkWorld (connects w) (sends w) (inbound w) (stdin w) (files w)
          (next_fd w) (trace w ++ [e]) (console w).

Definition add_out (o : out) (w : World) : World :=
  mkWorld (connects w) (sends w) (inbound w) (stdin w) (files w)
          (next_fd w) (trace w) (console w ++ [o]).

Definition set_connects (l : list conn_outcome) (w : World) : World :=
  mkWorld l (sends w) (inbound w) (stdin w) (files w)
          (next_fd w) (trace w) (console w).

Definition set_sends (l : list send_outcome) (w : World) : World :=
  mkWorld (connects w) l (inbound w) (stdin w) (files w)
          (next_fd w) (trace w) (console w).

Definition set_inbound (l : list recv_outcome) (w : World) : World :=
  mkWorld (connects w) (sends w) l (stdin w) (files w)
          (next_fd w) (trace w) (console w).

Definition set_stdin (l : list str) (w : World) : World :=
  mkWorld (connects w) (sends w) (inbound w) l (files w)
          (next_fd w) (trace w) (console w).

Definition set_files (fs : list (str * list ascii)) (w : World) : World :=
  mkWorld (connects w) (sends w) (inbound w) (stdin w) fs
          (next_fd w) (trace w) (console w).

Definition set_next_fd (n : nat) (w : World) : World :=
  mkWorld (connects w) (sends w) (inbound w) (stdin w) (files w)
          n (trace w) (console w).

Definition emit (e : event) : M World unit :=
  fun w => (add_event e w, Ok tt).

Definition say (o : out) : M World unit :=
  fun w => (add_out o w, Ok tt).

Definition print (s : str) : M World unit := say (Print s).
Definition logger (lvl : level) (s : str) : M World unit := say (Log lvl s).

(** [time.sleep(secs)]. *)
Definition sleep (secs : Z) : M World unit := emit (EvSleep secs).

(** [socket.socket(AF_INET, SOCK_STREAM)]: a fresh handle. *)
Definition new_socket : M World nat :=
  fun w => (set_next_fd (S (next_fd w)) w, Ok (next_fd w)).

(** The outcome of the coming [sock.connect] and of the coming [sock.send]. *)
Definition next_connect (w : World) : conn_outcome := hd ConnOk (connects w).
Definition next_send (w : World) : send_outcome := hd SendOk (sends w).

(** What the coming [sock.recv(bufsize)] meets: at most [bufsize] bytes of
    the next arrival. *)
Definition next_recv (bufsize : Z) (w : World) : recv_outcome :=
  match hd RecvTimeout (inbound w) with
  | RecvData d => RecvData (firstn (Z.to_nat bufsize) d)
  | o => o
  end.

(** What is left to arrive after it: the bytes that did not fit stay. *)
Definition after_recv (bufsize : Z) (w : World) : list recv_outcome :=
  match inbound w with
  | RecvData d :: q =>
      if (length d <=? Z.to_nat bufsize)%nat then q
      else RecvData (skipn (Z.to_nat bufsize) d) :: q
  | _ :: q => q
  | [] => []
  end.

(** [sock.connect((host, port))] on a socket with the given timeout. *)
Definition sock_connect (fd : nat) (host : str) (port timeout : Z) : M World unit :=
  fun w =>
    let o := next_connect w in
    (add_event (EvConnect fd host port timeout o) (set_connects (tl (connects w)) w),
     match o with
     | ConnOk => Ok tt
     | ConnError err => Raise (SocketError err)
     end).

(** [sock.send(data)]. *)
Definition sock_send (fd : nat) (data : bytes) : M World unit :=
  fun w =>
    let o := next_send w in
    (add_event (EvSend fd data o) (set_sends (tl (sends w)) w),
     match o with
     | SendOk => Ok tt
     | SendError err => Raise (SocketError err)
     end).

(** [sock.recv(bufsize)]. *)
Definition sock_recv (fd : nat) (bufsize : Z) : M World bytes :=
  fun w =>
    let o := next_recv bufsize w in
    (add_event (EvRecv fd bufsize o) (set_inbound (after_recv bufsize w) w),
     match o with
     | RecvData d => Ok d
     | RecvTimeout => Raise SocketTimeout
     | RecvError err => Raise (SocketError err)
     end).

(** [sock.close()]. *)
Definition sock_close (fd : nat) : M World unit := emit (EvClose fd).

Fixpoint fs_lookup (name : str) (fs : list (str * list ascii)) : option (list ascii) :=
  match fs with
  | [] => None
  | (n, c) :: fs' => if eqs n name then Some c else fs_lookup name fs'
  end.

Fixpoint fs_store (name : str) (content : list ascii) (fs : list (str * list ascii))
  : list (str * list ascii) :=
  match fs with
  | [] => [(name, content)]
  | (n, c) :: fs' =>
      if eqs n name then (n, content) :: fs' else (n, c) :: fs_store name content fs'
  end.

(** The file system after [text] is appended to the file [name]; the file is
    made when it is missing. *)
Definition fs_append (name : str) (text : list ascii) (fs : list (str * list ascii))
  : list (str * list ascii) :=
  fs_store name (match fs_lookup name fs with Some c => c | None => [] end ++ text) fs.

(** [os.path.isfile(name)]. *)
Definition isfile (name : str) : M World bool :=
  fun w => (w, Ok (match fs_lookup name (files w) with Some _ => true | None => false end)).

(** [open(name, 'a')] and one write of [text]. *)
Definition file_append (name : str) (text : list ascii) : M World unit :=
  fun w => (set_files (fs_append name text (files w)) w, Ok tt).

(** [open(name, 'wb')] and one write of [data]. *)
Definition file_write (name : str) (data : bytes) : M World unit :=
  fun w => (set_files (fs_store name data (files w)) w, Ok tt).

(** [input(prompt)]. *)
Definition input (prompt : str) : M World str :=
  fun w =>
    match stdin w with
    | [] => (add_out (Print prompt) w, Raise EOFError)
    | l :: ls => (add_out (Print prompt) (set_stdin ls w), Ok l)
    end.

(** ** A device object and the session that uses it *)

(** The attributes of a [ScpiDevice]; [sock] is the handle of its socket. *)
Record ScpiDevice := mkDevice {
  host : str;
  port : Z;
  buffersize : Z;
  socket_timeout : Z;
  sock : option nat;
  error : option str
}.

(** A method runs on its object and on the world. *)
Record Session := mkSession {
  dev : ScpiDevice;
  world : World
}.

Definition io {A} (m : M World A) : M Session A :=
  fun s => let (w, r) := m (world s) in (mkSession (dev s) w, r).

(** A function of the world that works on the object [d]. *)
Definition on_device {A} (d : ScpiDevice) (m : M Session A) : M World A :=
  fun w => let (s, r) := m (mkSession d w) in (world s, r).

Definition self : M Session ScpiDevice := fun s => (s, Ok (dev s)).

Definition with_sock (fd : option nat) (d : ScpiDevice) : ScpiDevice :=
  mkDevice (host d) (port d) (buffersize d) (socket_timeout d) fd (error d).

Definition with_error (e : option str) (d : ScpiDevice) : ScpiDevice :=
  mkDevice (host d) (port d) (buffersize d) (socket_timeout d) (sock d) e.

(** [self.sock = fd] and [self.error = e]. *)
Definition set_sock (fd : option nat) : M Session unit :=
  fun s => (mkSession (with_sock fd (dev s)) (world s), Ok tt).

Definition set_error (e : option str) : M Session unit :=
  fun s => (mkSession (with_error e (dev s)) (world s), Ok tt).

(** [self.sock.<method>]: an attribute of [None] is an AttributeError. *)
Definition the_sock : M Session nat :=
  d <- self ;; of_option AttributeError (sock d).

(** [x.decode()] where [x] is the value part of a reply, [None] when the
    reply failed. *)
Definition decode_reply {S} (v : option bytes) : M S str :=
  match v with
  | None => raise AttributeError
  | Some b => of_option UnicodeDecodeError (decode b)
  end.

Fixpoint for_each {S A} (l : list A) (body : A -> M S unit) : M S unit :=
  match l with
  | [] => ret tt
  | x :: r => body x ;; for_each r body
  end.

(** The settings of a measurement (the [settings] dictionary). *)
Record Settings := mkSettings {
  ip_addr : str;
  settings_port : Z;
  curr_range : str;
  volt_range : str;
  duration : float;
  aperture : float;
  sample_rate : float;
  filename : str
}.

Definition dq : ascii := "034"%char.

(** ** scpi_project/scpi_module_34465a.py *)

Module M34465a.

(** [ScpiDevice._socket_connect] *)
Definition _socket_connect : M Session bool :=
  fd <- io new_socket ;;
  set_sock (Some fd) ;;
  d <- self ;;
  try_except
    (io (sock_connect fd (host d) (port d) (socket_timeout d)) ;;
     ret true)
    (fun e =>
       match socket_error e with
       | Some err =>
           Some (let msg := txt "ERROR: Socket connection error. " ++ err in
                 set_error (Some msg) ;;
                 io (print msg) ;;
                 ret false)
       | None => None
       end).

(** [ScpiDevice.connect] *)
Definition connect : M Session bool :=
  io (print (nl :: txt "Attempting to connect to meter...")) ;;
  conn <- _socket_connect ;;
  let attempts := 1 in
  let max_attempts := 5 in
  if negb conn && (attempts <? max_attempts) then
    io (print (txt "Attempt " ++ str_of_Z attempts ++ txt " of " ++ str_of_Z max_attempts
               ++ txt ". Connection to socket failed. Will retry in 30s...")) ;;
    io (sleep 30) ;;
    let attempts := attempts + 1 in
    conn <- _socket_connect ;;
    ret conn
  else ret conn.

(** [ScpiDevice.write] *)
Definition write (payload : str) : M Session bool :=
  let payload := encode (payload ++ [nl]) in
  try_except
    (fd <- the_sock ;;
     io (sock_send fd payload) ;;
     set_error None ;;
     ret true)
    (fun e =>
       match socket_error e with
       | Some err =>
           Some (set_error (Some (txt "ERROR: Socket send error. " ++ err)) ;;
                 ret false)
       | None => None
       end).

(** [ScpiDevice._read] *)
Definition _read : M Session (bool * option bytes) :=
  try_except
    (fd <- the_sock ;;
     d <- self ;;
     resp_value <- io (sock_recv fd (buffersize d)) ;;
     set_error None ;;
     ret (true, Some resp_value))
    (fun e =>
       match socket_error e with
       | Some err =>
           Some (set_error (Some (txt "ERROR: socket recieve error. " ++ err)) ;;
                 ret (false, None))
       | None => None
       end).

(** [ScpiDevice.get] *)
Definition get (payload : str) : M Session (bool * option bytes) :=
  ok <- write payload ;;
  if negb ok then ret (false, None)
  else _read.

(** [ScpiDevice.close] *)
Definition close : M Session unit :=
  fd <- the_sock ;; io (sock_close fd).

(** [ScpiDevice.__init__]: the attributes are set and the device connects. *)
Definition ScpiDevice_init (host : str) (port : Z) : M World ScpiDevice :=
  on_device (mkDevice host port 256 10 None None)
    (connect ;;
     self).

(** [Multimeter34465a.__init__]: the base class connects, and the subclass
    connects once more. *)
Definition Multimeter34465a (host : str) (port : Z) : M World ScpiDevice :=
  d <- ScpiDevice_init host port ;;
  on_device d
    (connect ;;
     self).

Definition get_idn : M Session (bool * option bytes) := get (txt "*IDN?").

Definition get_std_op_reg : M Session (bool * option bytes) :=
  get (txt "STAT:OPER:COND?").

(** [Multimeter34465a.get_std_op_reg_bit]: [None] when the register could
    not be read. *)
Definition get_std_op_reg_bit (bit_number : Z) : M Session (option bool) :=
  bit_mask <- (if bit_number <? 0 then raise ValueError
               else ret (Z.shiftl 1 bit_number)) ;;
  try_except
    (reg <- get_std_op_reg ;;
     s <- decode_reply (snd reg) ;;
     line <- of_option IndexError (py_index (split nl s) 0) ;;
     bit_val <- of_option ValueError (int_of_str line) ;;
     ret (Some (negb (Z.land bit_val bit_mask =? 0))))
    (fun e =>
       match e with
       | AttributeError => Some (ret None)
       | _ => None
       end).

Definition reg_vals : list (Z * str) :=
  [ (0, txt "Calibrating");
    (4, txt "Measuring");
    (5, txt "Waiting for trigger");
    (8, txt "Configuration change");
    (9, txt "Memory threshold");
    (10, txt "Instrument locked");
    (13, txt "Global error") ].

(** [Multimeter34465a.show_op_reg] *)
Definition show_op_reg : M Session unit :=
  reg <- get_std_op_reg ;;
  s <- decode_reply (snd reg) ;;
  op_reg <- of_option ValueError (int_of_str s) ;;
  io (logger DEBUG (txt "Standard Operation Register: " ++ str_of_Z op_reg)) ;;
  for_each reg_vals (fun '(bit, name) =>
    let bit_status := negb (Z.land op_reg (Z.shiftl 1 bit) =? 0) in
    let message := txt "    " ++ ljust 20 name ++ txt " = " ++ str_of_bool bit_status in
    io (logger DEBUG message)).

(** [Multimeter34465a.get_error] *)
Definition get_error : M Session (bool * option bytes) :=
  get (txt "SYSTem:ERRor?").

(** The loop of [get_screen_dump]:
    [while len(buff) < file_size: buff = buff + self.sock.recv(256)]. *)
Fixpoint recv_rest (fuel : nat) (file_size : Z) (buff : bytes) : M Session bytes :=
  match fuel with
  | O => diverge
  | S fuel' =>
      if len buff <? file_size then
        fd <- the_sock ;;
        more <- io (sock_recv fd 256) ;;
        recv_rest fuel' file_size (buff ++ more)
      else ret buff
  end.

(** [Multimeter34465a.get_screen_dump] *)
Definition get_screen_dump (fuel : nat) (filename : str) : M Session bool :=
  ok <- write (txt "HCOPy:SDUMp:DATA?") ;;
  if ok then
    fd <- the_sock ;;
    buff <- io (sock_recv fd 256) ;;
    b1 <- of_option IndexError (py_index buff 1) ;;
    num_digits <- of_option ValueError (int_of_str [chr (code b1)]) ;;
    file_size <- of_option ValueError
                   (int_of_bytes (py_slice buff (Some 2) (Some (num_digits + 2)))) ;;
    let buff := py_slice buff (Some (2 + num_digits)) None in
    buff <- recv_rest fuel file_size buff ;;
    io (file_write filename (py_slice buff (Some 0) (Some (-1)))) ;;
    ret true
  else ret false.

(** [Multimeter34465a.set_trigger] *)
Definition set_trigger : M Session bool := write (txt "*TRG").

(** [parse_block_header]: the slices never raise, so the handler of
    IndexError is kept only for the shape of the code. *)
Definition parse_block_header (block : bytes) : result (Z * Z * Z) :=
  match
    (match int_of_bytes (py_slice block (Some 1) (Some 2)) with
     | None => Raise ValueError
     | Some num_digits =>
         let data_start := num_digits + 2 in
         match int_of_bytes (py_slice block (Some 2) (Some data_start)) with
         | None => Raise ValueError
         | Some num_expected_bytes =>
             let num_actual_bytes :=
               if eqs (py_slice block (Some (-1)) None) [nl]
               then len (py_slice block (Some data_start) (Some (-1)))
               else len (py_slice block (Some data_start) None) in
             Ok (data_start, num_expected_bytes, num_actual_bytes)
         end
     end)
  with
  | Raise IndexError => Raise IndexError
  | r => r
  end.

(** The inner loop of [read_data]:
    [while not block.endswith(b'\n'): block = device.sock.recv(buff_len)]. *)
Fixpoint recv_block (fuel : nat) (buff_len : Z) (block : bytes) : M Session bytes :=
  match fuel with
  | O => diverge
  | S fuel' =>
      if negb (endswith block [nl]) then
        fd <- the_sock ;;
        block <- io (sock_recv fd buff_len) ;;
        recv_block fuel' buff_len block
      else ret block
  end.

Definition block_size : Z := 10000.
Definition buff_len : Z := block_size * 16 + 256.

(** One turn of the outer loop of [read_data], from the request to the
    new value of [data_count].  The progress bar is not modelled. *)
Definition read_chunk (fuel : nat) (filename : str) (data_count : Z) : M Session Z :=
  write (txt "R? " ++ str_of_Z buff_len) ;;
  block <- try_except
             (recv_block fuel buff_len [])
             (fun e =>
                match e with
                | SocketTimeout =>
                    Some (io (print (txt "Socket timeout waiting for block data.")) ;;
                          connect ;;
                          ret [])
                | _ => None
                end) ;;
  if eqs block [] then
    io (print (txt "No data received")) ;;
    ret data_count
  else
    ' (data_start, num_expected_bytes, num_actual_bytes) <-
        of_result (parse_block_header block) ;;
    (if negb (num_expected_bytes =? num_actual_bytes) then
       io (logger ERROR (txt "Byte count error. Expected " ++ str_of_Z num_actual_bytes
                         ++ txt " got " ++ str_of_Z num_actual_bytes))
     else ret tt) ;;
    if negb (num_expected_bytes =? 0) then
      s <- of_option UnicodeDecodeError (decode block) ;;
      let block_list := split "," (py_slice (strip s) (Some data_start) None) in
      let data_count := data_count + len block_list in
      io (file_append filename []) ;;
      for_each block_list (fun data_point =>
        io (file_append filename (data_point ++ [nl]))) ;;
      ret data_count
    else ret data_count.

(** The outer loop of [read_data]: [while data_count < expected_points]. *)
Fixpoint read_data_loop (fuel inner : nat) (filename : str) (expected_points data_count : Z)
  : M Session Z :=
  match fuel with
  | O => diverge
  | S fuel' =>
      if data_count <? expected_points then
        data_count <- read_chunk inner filename data_count ;;
        read_data_loop fuel' inner filename expected_points data_count
      else ret data_count
  end.

(** [read_data(device, filename, expected_points)]; the result is the final
    [data_count], which the Python function keeps to itself. *)
Definition read_data (fuel : nat) (filename : str) (expected_points : Z) : M Session Z :=
  let data_count := 0 in
  read_data_loop fuel fuel filename expected_points data_count.

(** [int(settings['duration'] / settings['sample_rate'])] *)
Definition num_samples (settings : Settings) : result Z :=
  if PrimFloat.is_zero (sample_rate settings) then Raise ZeroDivisionError
  else
    let q := PrimFloat.div (duration settings) (sample_rate settings) in
    match trunc_float q with
    | Some n => Ok n
    | None => if PrimFloat.is_nan q then Raise ValueError else Raise OverflowError
    end.

(** The loop of [read_data_with_fetch]:
    [while not block.endswith(b'\n'): block += device.sock.recv(100000)]. *)
Fixpoint recv_line (fuel : nat) (block : bytes) : M Session bytes :=
  match fuel with
  | O => diverge
  | S fuel' =>
      if negb (endswith block [nl]) then
        fd <- the_sock ;;
        more <- io (sock_recv fd 100000) ;;
        recv_line fuel' (block ++ more)
      else ret block
  end.

(** [read_data_with_fetch(device)] *)
Definition read_data_with_fetch (fuel : nat) : M Session (list str) :=
  io (print (txt "Downloading data from the meter...")) ;;
  write (txt "FETC?") ;;
  block <- recv_line fuel [] ;;
  s <- of_option UnicodeDecodeError (decode block) ;;
  let data := split "," (strip s) in
  io (print (txt "Download done.  Number of Samples = " ++ str_of_Z (len data))) ;;
  ret data.

(** [write_data_to_file(filename, data)] *)
Definition write_data_to_file (filename : str) (data : list str) : M World unit :=
  file_append filename [] ;;
  for_each data (fun data_point => file_append filename (data_point ++ [nl])) ;;
  print (txt "Data written to file " ++ filename).

(** [send_commands(meter, cmds)] *)
Definition send_commands (cmds : list str) : M Session unit :=
  for_each cmds (fun cmd =>
    write_state <- write cmd ;;
    (if negb write_state
     then raise (CommandError (txt "Device write error in send_commands()"))
     else ret tt) ;;
    reply <- get_error ;;
    s <- decode_reply (snd reply) ;;
    field <- of_option IndexError (py_index (split "," s) 1) ;;
    let error := strip field in
    if negb (eqs error (dq :: txt "No error" ++ [dq])) then
      let msg := txt "Command Error in send_commands: " ++ cmd ++ txt "," ++ error in
      raise (CommandError msg)
    else ret tt).

(** [file_exists(settings)] *)
Definition file_exists (settings : Settings) : M World bool :=
  found <- isfile (filename settings) ;;
  if found then
    print (txt "File " ++ filename settings ++ txt " already exists") ;;
    input (txt "Hit any key to continue..." ++ [nl]) ;;
    ret true
  else ret false.

Definition str_of_error (e : option str) : str :=
  match e with
  | Some s => s
  | None => txt "None"
  end.

(** [get_meter(settings)] *)
Definition get_meter (settings : Settings) : M World ScpiDevice :=
  meter <- Multimeter34465a (ip_addr settings) (settings_port settings) ;;
  match sock meter with
  | None =>
      print (txt "No socket. Exit. " ++ str_of_error (error meter)) ;;
      raise (SystemExit 1)
  | Some _ =>
      on_device meter
        (io (print (txt "Connected to:" ++ [nl])) ;;
         idn <- get_idn ;;
         s <- decode_reply (snd idn) ;;
         io (print (strip s)) ;;
         io (print (txt "IP: " ++ ip_addr settings ++ [nl])) ;;
         self)
  end.

(** [get_existing_data(settings)] *)
Definition get_existing_data (fuel : nat) (settings : Settings) : M World unit :=
  found <- file_exists settings ;;
  if found then ret tt
  else
    meter <- get_meter settings ;;
    on_device meter
      (data <- read_data_with_fetch fuel ;;
       num_samples <- of_result (num_samples settings) ;;
       (if negb (len data =? num_samples) then
          io (print (txt "Sample count error:  expected " ++ str_of_Z num_samples
                     ++ txt ", got " ++ str_of_Z (len data))) ;;
          io (print (txt "Data not saved to file"))
        else io (write_data_to_file (filename settings) data)) ;;
       close).

(** The polling loop of [trigger_and_fetch]:
    [while device.get_std_op_reg_bit(measuring_bit) in [True, None]:
         time.sleep(1)].
    The updates of the progress bar are not modelled. *)
Fixpoint wait_measuring (fuel : nat) (measuring_bit : Z) : M Session unit :=
  match fuel with
  | O => diverge
  | S fuel' =>
      bit <- get_std_op_reg_bit measuring_bit ;;
      match bit with
      | Some true | None =>
          io (sleep 1) ;;
          wait_measuring fuel' measuring_bit
      | Some false => ret tt
      end
  end.

(** What [trigger_and_fetch] does once the loop is over: [pbar.close()]
    (the name is unbound when there is no progress bar),
    [device.show_op_reg()] and [get_existing_data(settings)]. *)
Definition fetch_after_wait (fuel : nat) (settings : Settings) (progress : bool)
  : M Session unit :=
  (if progress then ret tt else raise UnboundLocalError) ;;
  show_op_reg ;;
  io (get_existing_data fuel settings).

(** [trigger_and_fetch(device, settings, progress)] *)
Definition trigger_and_fetch (fuel : nat) (settings : Settings) (progress : bool)
  : M Session unit :=
  num_samples <- of_result (num_samples settings) ;;
  if 2000000 <? num_samples then
    io (print (txt "Read_with_fetch only works with less than 2M samples. "
               ++ txt "Try using read_data instead."))
  else
    set_trigger ;;
    let measuring_bit := 4 in
    wait_measuring fuel measuring_bit ;;
    fetch_after_wait fuel settings progress.

(** [Multimeter34465a.reset] and [Multimeter34465a.clear_registers] *)
Definition reset : M Session bool := write (txt "*RST").

Definition clear_registers : M Session bool := write (txt "*CLS").

(** [calc_34465a_aperture(duration)]; [min_aperture] is the float that
    Python reads [0.000022] as. *)
Definition max_samples : float := 2000000%float.
Definition min_aperture : float := 0x1.711947cfa26a2p-16%float.

Definition calc_34465a_aperture (duration : float) : float :=
  let aperture := PrimFloat.div duration max_samples in
  if PrimFloat.ltb aperture min_aperture then min_aperture else aperture.

Definition HOST : str := txt "192.168.1.188".
Definition PORT : Z := 5025.

(** [load_settings(default=True)]: the default settings. *)
Definition default_settings : Settings :=
  let filename := txt "/tmp/junk.txt" in
  let duration := 30%float in
  let aperture := calc_34465a_aperture duration in
  let sample_rate := aperture in
  mkSettings HOST PORT (txt "100mA") (txt "100mV") duration aperture sample_rate filename.

(** The functions that write a float into a command or a message do it
    with ['{}'.format(x)], the repr of the float; they are given here for
    any such formatting [float_str]. *)
Section Formatting.

Variable float_str : float -> str.

(** [settings['duration'] / settings['sample_rate']] *)
Definition sample_ratio (settings : Settings) : M Session float :=
  if PrimFloat.is_zero (sample_rate settings) then raise ZeroDivisionError
  else ret (PrimFloat.div (duration settings) (sample_rate settings)).

(** [current_measure_setup(meter, settings)] *)
Definition current_measure_setup (settings : Settings) : M Session unit :=
  num_samples <- sample_ratio settings ;;
  let cmds := [ txt "SENS:FUNC:ON " ++ dq :: txt "CURR:DC" ++ [dq];
                txt "CONF:CURR:DC " ++ curr_range settings;
                txt "SENS:CURR:DC:ZERO:AUTO OFF";
                txt "SENS:CURR:DC:APER " ++ float_str (aperture settings);
                txt "SAMP:COUNT " ++ float_str num_samples;
                txt "TRIG:SOUR BUS";
                txt "SAMP:SOUR TIM";
                txt "SAMP:TIM " ++ float_str (sample_rate settings);
                txt "INIT" ] in
  send_commands cmds.

(** [voltage_measure_setup(meter, settings)] *)
Definition voltage_measure_setup (settings : Settings) : M Session unit :=
  num_samples <- sample_ratio settings ;;
  let cmds := [ txt "SENS:FUNC:ON " ++ dq :: txt "VOLT:DC" ++ [dq];
                txt "CONF:VOLT:DC " ++ volt_range settings;
                txt "SENS:VOLT:DC:ZERO:AUTO OFF";
                txt "SENS:VOLT:DC:APER " ++ float_str (aperture settings);
                txt "SAMP:COUNT " ++ float_str num_samples;
                txt "TRIG:SOUR BUS";
                txt "SAMP:SOUR TIM";
                txt "SAMP:TIM " ++ float_str (sample_rate settings);
                txt "INIT" ] in
  send_commands cmds.

(** The part of [start_measurement] that sets the meter up; [false] when
    the measurement is not recognised and the function has returned. *)
Definition measure_setup (measure : str) (settings : Settings) : M Session bool :=
  if eqs measure (txt "CURR") then
    current_measure_setup settings ;; ret true
  else if eqs measure (txt "VOLT") then
    voltage_measure_setup settings ;; ret true
  else
    io (print (txt "ERROR: measurement not recognised")) ;;
    close ;;
    ret false.

(** [start_measurement(measure, settings)] *)
Definition start_measurement (fuel : nat) (measure : str) (settings : Settings)
  : M World unit :=
  found <- file_exists settings ;;
  if found then ret tt
  else
    meter <- get_meter settings ;;
    on_device meter
      (io (print (txt "Running a new test.")) ;;
       io (print (txt "Resetting the multimeter...")) ;;
       reset ;;
       clear_registers ;;
       show_op_reg ;;
       go_on <- measure_setup measure settings ;;
       if go_on then
         num_samples <- of_result (num_samples settings) ;;
         io (print (txt "Waiting for measurement to complete:")) ;;
         io (print (txt "samples requested = " ++ str_of_Z num_samples)) ;;
         io (print (txt "test duration     = " ++ float_str (duration settings) ++ txt "s")) ;;
         io (print (txt "Triggering the measurement...")) ;;
         trigger_and_fetch fuel settings true ;;
         io (print (txt "Test complete...")) ;;
         close
       else ret tt).

End Formatting.

End M34465a.

(** ** scpi_project/scpi_module_DMM6500.py *)

Module DMM6500.

(** [ScpiDevice._socket_connect] *)
Definition _socket_connect : M Session bool :=
  fd <- io new_socket ;;
  set_sock (Some fd) ;;
  d <- self ;;
  try_except
    (io (sock_connect fd (host d) (port d) (socket_timeout d)) ;;
     ret true)
    (fun e =>
       match socket_error e with
       | Some err =>
           Some (let msg := txt "ERROR: Socket connection error. " ++ err in
                 set_error (Some msg) ;;
                 io (print msg) ;;
                 ret false)
       | None => None
       end).

(** [ScpiDevice.connect] *)
Definition connect : M Session bool :=
  io (print (nl :: txt "Attempting to connect to meter...")) ;;
  conn <- _socket_connect ;;
  let attempts := 1 in
  let max_attempts := 5 in
  if negb conn && (attempts <? max_attempts) then
    io (print (txt "Attempt " ++ str_of_Z attempts ++ txt " of " ++ str_of_Z max_attempts
               ++ txt ". Connection to socket failed. Will retry in 30s...")) ;;
    io (sleep 30) ;;
    let attempts := attempts + 1 in
    conn <- _socket_connect ;;
    ret conn
  else ret conn.

(** [ScpiDevice._write] *)
Definition _write (payload : str) : M Session bool :=
  let payload := encode (payload ++ [nl]) in
  try_except
    (fd <- the_sock ;;
     io (sock_send fd payload) ;;
     set_error None ;;
     ret true)
    (fun e =>
       match socket_error e with
       | Some err =>
           Some (set_error (Some (txt "ERROR: Socket send error: " ++ err)) ;;
                 ret false)
       | None => None
       end).

(** [ScpiDevice._read] *)
Definition _read : M Session (bool * option bytes) :=
  try_except
    (fd <- the_sock ;;
     d <- self ;;
     resp_value <- io (sock_recv fd (buffersize d)) ;;
     set_error None ;;
     ret (true, Some resp_value))
    (fun e =>
       match socket_error e with
       | Some err =>
           Some (let msg := txt "ERROR: socket receive error: " ++ err in
                 set_error (Some msg) ;;
                 io (logger DEBUG msg) ;;
                 ret (false, None))
       | None => None
       end).

(** [ScpiDevice.get] *)
Definition get (payload : str) : M Session (bool * option bytes) :=
  ok <- _write payload ;;
  if negb ok then ret (false, None)
  else _read.

(** [MultimeterDMM6500.get_error] *)
Definition get_error : M Session (bool * option bytes) :=
  get (txt ":SYSTem:ERRor:NEXT?").

Definition str_of_error (e : option str) : str :=
  match e with
  | Some s => s
  | None => txt "None"
  end.

(** [MultimeterDMM6500.send_commands]: the argument is one command
    ([inl]) or a list of commands ([inr]). *)
Definition send_commands (cmds : str + list str) : M Session unit :=
  let cmds := match cmds with inl cmd => [cmd] | inr l => l end in
  for_each cmds (fun cmd =>
    io (logger INFO (txt "Sending command: " ++ cmd)) ;;
    _write (txt ":SYSTem:CLEar") ;;
    write_state <- _write cmd ;;
    (if negb write_state
     then (d <- self ;; raise (CommandError (str_of_error (error d))))
     else ret tt) ;;
    reply <- get_error ;;
    s <- decode_reply (snd reply) ;;
    field <- of_option IndexError (py_index (split "," s) 1) ;;
    let error := strip field in
    if negb (contains (txt "No error") error) then
      let msg := txt "Command Error in send_commands: " ++ cmd ++ txt "," ++ error in
      raise (CommandError msg)
    else ret tt).

(** [MultimeterDMM6500.get_std_op_reg] *)
Definition get_std_op_reg : M Session (bool * option bytes) :=
  get (txt "STAT:OPER:COND?").

(** [MultimeterDMM6500.get_std_op_reg_bit]: [None] when the register could
    not be read. *)
Definition get_std_op_reg_bit (bit_number : Z) : M Session (option bool) :=
  bit_mask <- (if bit_number <? 0 then raise ValueError
               else ret (Z.shiftl 1 bit_number)) ;;
  try_except
    (reg <- get_std_op_reg ;;
     s <- decode_reply (snd reg) ;;
     line <- of_option IndexError (py_index (split nl s) 0) ;;
     bit_val <- of_option ValueError (int_of_str line) ;;
     ret (Some (negb (Z.land bit_val bit_mask =? 0))))
    (fun e =>
       match e with
       | AttributeError => Some (ret None)
       | _ => None
       end).

(** The ranges and the modes that [get_meas_curr] accepts. *)
Definition curr_ranges : list str :=
  [ txt "10e-6"; txt "100e-6"; txt "1e-3"; txt "10e-3"; txt "100e-3";
    txt "1"; txt "3"; txt "10" ].

Definition curr_modes : list str := [ txt "AC"; txt "DC" ].

(** [MultimeterDMM6500.get_meas_curr] *)
Definition get_meas_curr (m_ac_dc m_range : str) : M Session (bool * option bytes) :=
  (if negb (existsb (eqs m_range) curr_ranges) then raise ValueError else ret tt) ;;
  (if negb (existsb (eqs m_ac_dc) curr_modes) then raise ValueError else ret tt) ;;
  send_commands (inl (txt ":SENS:CURR:RANG " ++ m_range)) ;;
  get (txt "MEAS:CURR:" ++ m_ac_dc ++ txt "?").

End DMM6500.

(** ** scpiProject/scpi_module_34465a.py, the older driver *)

Module Old34465a.

(** [parse_block_header]: here the handler of IndexError prints the block
    and leaves the process. *)
Definition parse_block_header (block : bytes) : M World (Z * Z * Z) :=
  try_except
    (num_digits <- of_option ValueError (int_of_bytes (py_slice block (Some 1) (Some 2))) ;;
     let data_start := num_digits + 2 in
     num_expected_bytes <-
       of_option ValueError (int_of_bytes (py_slice block (Some 2) (Some data_start))) ;;
     let num_actual_bytes :=
       if eqs (py_slice block (Some (-1)) None) [nl]
       then len (py_slice block (Some data_start) (Some (-1)))
       else len (py_slice block (Some data_start) None) in
     ret (data_start, num_expected_bytes, num_actual_bytes))
    (fun e =>
       match e with
       | IndexError => Some (say (PrintRepr block) ;; raise (SystemExit 1))
       | _ => None
       end).

End Old34465a.

(** ** The two current drivers side by side *)

Inductive driver := Keysight34465a | KeithleyDMM6500.

Definition drv_connect (drv : driver) : M Session bool :=
  match drv with
  | Keysight34465a => M34465a.connect
  | KeithleyDMM6500 => DMM6500.connect
  end.

Definition drv_write (drv : driver) (payload : str) : M Session bool :=
  match drv with
  | Keysight34465a => M34465a.write payload
  | KeithleyDMM6500 => DMM6500._write payload
  end.

Definition drv_get (drv : driver) (payload : str) : M Session (bool * option bytes) :=
  match drv with
  | Keysight34465a => M34465a.get payload
  | KeithleyDMM6500 => DMM6500.get payload
  end.

Definition drv_send_commands (drv : driver) (cmds : list str) : M Session unit :=
  match drv with
  | Keysight34465a => M34465a.send_commands cmds
  | KeithleyDMM6500 => DMM6500.send_commands (inr cmds)
  end.

Definition drv_get_std_op_reg_bit (drv : driver) (bit_number : Z) : M Session (option bool) :=
  match drv with
  | Keysight34465a => M34465a.get_std_op_reg_bit bit_number
  | KeithleyDMM6500 => DMM6500.get_std_op_reg_bit bit_number
  end.

(** * The vocabulary of the statements *)

(** ** Socket calls and their outcomes *)

Definition send_error_text (drv : driver) (err : str) : str :=
  match drv with
  | Keysight34465a => txt "ERROR: Socket send error. " ++ err
  | KeithleyDMM6500 => txt "ERROR: Socket send error: " ++ err
  end.

Definition recv_error_text (drv : driver) (err : str) : str :=
  match drv with
  | Keysight34465a => txt "ERROR: socket recieve error. " ++ err
  | KeithleyDMM6500 => txt "ERROR: socket receive error: " ++ err
  end.

(** The world after one [sock.send] and after one [sock.recv]. *)
Definition sent (fd : nat) (data : bytes) (w : World) : World :=
  add_event (EvSend fd data (next_send w)) (set_sends (tl (sends w)) w).

Definition received (fd : nat) (bufsize : Z) (w : World) : World :=
  add_event (EvRecv fd bufsize (next_recv bufsize w)) (set_inbound (after_recv bufsize w) w).

(** The session after one [_socket_connect]: a fresh socket is made and one
    connection is attempted with the timeout of the device. *)
Definition attempted (s : Session) : Session :=
  let fd := next_fd (world s) in
  let d := with_sock (Some fd) (dev s) in
  let o := next_connect (world s) in
  let w := add_event (EvConnect fd (host d) (port d) (socket_timeout d) o)
             (set_connects (tl (connects (world s))) (set_next_fd (S fd) (world s))) in
  match o with
  | ConnOk => mkSession d w
  | ConnError err =>
      let msg := txt "ERROR: Socket connection error. " ++ err in
      mkSession (with_error (Some msg) d) (add_out (Print msg) w)
  end.

Definition conn_ok (o : conn_outcome) : bool :=
  match o with
  | ConnOk => true
  | ConnError _ => false
  end.

(** The number of connection attempts in a trace. *)
Definition connect_attempts (t : list event) : nat :=
  length (filter (fun e => match e with EvConnect _ _ _ _ _ => true | _ => false end) t).

(** No send is scripted to fail; no connection attempt is scripted to fail. *)
Definition sends_succeed (w : World) : Prop := Forall (fun o => o = SendOk) (sends w).
Definition connects_succeed (w : World) : Prop := Forall (fun o => o = ConnOk) (connects w).

(** The payloads written to sockets in a trace, oldest first. *)
Definition written (t : list event) : list bytes :=
  flat_map (fun e => match e with EvSend _ data _ => [data] | _ => [] end) t.

(** The query that pops the error queue, per driver. *)
Definition error_query (drv : driver) : str :=
  match drv with
  | Keysight34465a => txt "SYSTem:ERRor?"
  | KeithleyDMM6500 => txt ":SYSTem:ERRor:NEXT?"
  end.

(** What a driver takes for the sentinel: the 34465a driver wants the
    quoted text itself, the DMM6500 driver a text that holds [No error]. *)
Definition no_error (drv : driver) (error : str) : bool :=
  match drv with
  | Keysight34465a => eqs error (dq :: txt "No error" ++ [dq])
  | KeithleyDMM6500 => contains (txt "No error") error
  end.

(** The error text of a reply [<code>,<message>]: the second field,
    stripped. *)
Definition error_text (reply : bytes) : option str :=
  match decode reply with
  | Some s => option_map strip (py_index (split "," s) 1)
  | None => None
  end.

(** A reply that fits one read and carries the sentinel. *)
Definition clean_reply (drv : driver) (bufsize : Z) (reply : bytes) : bool :=
  (len reply <=? bufsize) &&
  match error_text reply with
  | Some e => no_error drv e
  | None => false
  end.

(** What a driver writes for one command of a checked sequence. *)
Definition command_writes (drv : driver) (cmd : str) : list bytes :=
  match drv with
  | Keysight34465a => [encode cmd ++ [nl]; encode (error_query drv) ++ [nl]]
  | KeithleyDMM6500 =>
      [encode (txt ":SYSTem:CLEar") ++ [nl]; encode cmd ++ [nl]; encode (error_query drv) ++ [nl]]
  end.

(** One command of a checked sequence whose reply is read in [reply]:
    the state once the command and the query are written and the reply is
    read. *)
Definition checked (drv : driver) (fd : nat) (cmd : str) (s : Session) : Session :=
  let w0 := match drv with
            | Keysight34465a => world s
            | KeithleyDMM6500 =>
                sent fd (encode (txt ":SYSTem:CLEar") ++ [nl])
                  (add_out (Log INFO (txt "Sending command: " ++ cmd)) (world s))
            end in
  mkSession (with_error None (dev s))
    (received fd (buffersize (dev s))
       (sent fd (encode (error_query drv) ++ [nl]) (sent fd (encode cmd ++ [nl]) w0))).

(** ** Text *)

(** Decimal digits and their value. *)
Definition all_digits (s : list ascii) : bool := forallb is_digit s.

Fixpoint digits_value (acc : Z) (s : list ascii) : Z :=
  match s with
  | [] => acc
  | c :: r => digits_value (10 * acc + digit_val c) r
  end.

Definition decimal (s : list ascii) : Z := digits_value 0 s.

(** Seven-bit text, where [bytes] and [str] coincide. *)
Definition is_ascii7 (c : ascii) : bool := code c <? 128.

(** A byte that Python's [int] tolerates in a decimal literal given as
    bytes: a digit, an ASCII blank, a sign or an underscore. *)
Definition int_tolerates (c : ascii) : bool :=
  is_digit c || bytes_space c || Ascii.eqb c "+" || Ascii.eqb c "-" || Ascii.eqb c "_".

(** A field that is not numeric on the face of it: it holds nothing, or it
    holds a byte that [int] does not tolerate. *)
Definition non_numeric (field : bytes) : bool :=
  match field with
  | [] => true
  | _ :: _ => negb (forallb int_tolerates field)
  end.

(** Well-formed UTF-8, which is what Python's strict decoder accepts: one
    byte below 0x80; a lead byte 0xC2..0xDF, 0xE0..0xEF or 0xF0..0xF4 with
    one, two or three continuation bytes 0x80..0xBF, where the first
    continuation byte is narrowed after 0xE0, 0xED, 0xF0 and 0xF4 (no
    overlong form, no surrogate, nothing beyond U+10FFFF). *)
Definition utf8_cont (c : ascii) : bool :=
  let n := code c in (128 <=? n) && (n <=? 191).

Fixpoint utf8_ok (b : bytes) : bool :=
  match b with
  | [] => true
  | c :: r =>
      let n := code c in
      if n <? 128 then utf8_ok r
      else if (194 <=? n) && (n <=? 223) then
        match r with
        | c2 :: r' => utf8_cont c2 && utf8_ok r'
        | _ => false
        end
      else if (224 <=? n) && (n <=? 239) then
        match r with
        | c2 :: c3 :: r' =>
            let m := code c2 in
            (if n =? 224 then (160 <=? m) && (m <=? 191)
             else if n =? 237 then (128 <=? m) && (m <=? 159)
             else utf8_cont c2)
            && utf8_cont c3 && utf8_ok r'
        | _ => false
        end
      else if (240 <=? n) && (n <=? 244) then
        match r with
        | c2 :: c3 :: c4 :: r' =>
            let m := code c2 in
            (if n =? 240 then (144 <=? m) && (m <=? 191)
             else if n =? 244 then (128 <=? m) && (m <=? 143)
             else utf8_cont c2)
            && utf8_cont c3 && utf8_cont c4 && utf8_ok r'
        | _ => false
        end
      else false
  end.

Definition free_of (sep : ascii) (w : str) : bool :=
  forallb (fun c => negb (Ascii.eqb c sep)) w.

(** ** The status register *)

(** The value of bit [bit] of the operation status register, as the reply
    to [STAT:OPER:COND?] gives it: the first line of the reply is the
    register in decimal. *)
Definition reg_bit (bit : Z) (reply : bytes) : option bool :=
  match decode reply with
  | Some s =>
      match int_of_str (hd [] (split nl s)) with
      | Some v => Some (Z.testbit v bit)
      | None => None
      end
  | None => None
  end.

(** What the read of a poll meets when the loop of [trigger_and_fetch]
    goes on: a reply with the Measuring bit set, or no reply at all. *)
Definition keeps_waiting (bufsize : Z) (o : recv_outcome) : bool :=
  match o with
  | RecvData reply =>
      (len reply <=? bufsize) &&
      match reg_bit 4 reply with
      | Some true => true
      | _ => false
      end
  | RecvTimeout => true
  | RecvError _ => true
  end.

Definition status_query : bytes := encode (txt "STAT:OPER:COND?") ++ [nl].

(** The events of a poll that ends in [o]. *)
Definition poll_events (fd : nat) (bufsize : Z) (o : recv_outcome) : list event :=
  [EvSend fd status_query SendOk; EvRecv fd bufsize o].

(** The number of polls of the status register in a trace. *)
Definition polls (t : list event) : nat :=
  length (filter (fun e => match e with
                           | EvSend _ data _ => eqs data status_query
                           | _ => false
                           end) t).

(** The state after a poll: the query is written and one read is made. *)
Definition polled (fd : nat) (s : Session) : Session :=
  let n := buffersize (dev s) in
  let w := sent fd status_query (world s) in
  let e := match next_recv n w with
           | RecvData _ => None
           | RecvTimeout => Some (recv_error_text Keysight34465a (txt "timed out"))
           | RecvError err => Some (recv_error_text Keysight34465a err)
           end in
  mkSession (with_error e (dev s)) (received fd n w).

(** ** Blocks *)

(** The header [#<D><L-digits>] of a definite-length block, and the block
    on the wire, with its terminator. *)
Definition block_header (ldigits : bytes) : bytes :=
  "#"%char :: chr (48 + len ldigits) :: ldigits.

Definition framed (ldigits payload : bytes) : bytes :=
  block_header ldigits ++ payload ++ [nl].

(** [ldigits] is a length field of one to nine decimal digits whose value is
    the length of [payload]. *)
Definition well_framed (ldigits payload : bytes) : bool :=
  (1 <=? len ldigits) && (len ldigits <=? 9) && all_digits ldigits &&
  (decimal ldigits =? len payload).

(** A chunk that one [recv] of [bufsize] bytes returns whole. *)
Definition fits (bufsize : Z) (chunk : bytes) : bool :=
  (1 <=? len chunk) && (len chunk <=? bufsize).

(** A reading as the meter prints it: seven-bit text with no comma and no
    white space. *)
Definition reading (w : str) : bool :=
  forallb (fun c => is_ascii7 c && negb (str_space c) && negb (Ascii.eqb c ",")) w.

(** A block of readings on the wire: at least one reading, separated by
    commas, after a header of one to nine length digits. *)
Definition readings_block (ldigits : bytes) (samples : list str) : bytes :=
  framed ldigits (join "," samples).

Definition readings_ok (ldigits : bytes) (samples : list str) : bool :=
  (1 <=? len ldigits) && (len ldigits <=? 9) && all_digits ldigits &&
  negb (decimal ldigits =? 0) &&
  match samples with [] => false | _ => true end && forallb reading samples &&
  (len (readings_block ldigits samples) <=? M34465a.buff_len).

(** The content of a file, empty when the file is missing. *)
Definition file_text (name : str) (fs : list (str * list ascii)) : list ascii :=
  match fs_lookup name fs with
  | Some c => c
  | None => []
  end.

(** The file system after [open(name, 'a')] and one line per data point. *)
Definition stored_lines (name : str) (data : list str) (fs : list (str * list ascii))
  : list (str * list ascii) :=
  fold_left (fun fs data_point => fs_append name (data_point ++ [nl]) fs) data
            (fs_append name [] fs).

(** The lines that the data points make. *)
Definition lines (data : list str) : list ascii :=
  concat (map (fun data_point => data_point ++ [nl]) data).

(** The request of one chunk. *)
Definition chunk_request : bytes := encode (txt "R? 160256") ++ [nl].

(** The number of chunk requests in a trace. *)
Definition requests (t : list event) : nat :=
  length (filter (fun e => match e with
                           | EvSend _ data _ => eqs data chunk_request
                           | _ => false
                           end) t).

(** The session after a chunk of readings is drained. *)
Definition drained (fd : nat) (filename : str) (ldigits : bytes) (samples : list str)
           (s : Session) : Session :=
  let w1 := received fd M34465a.buff_len (sent fd chunk_request (world s)) in
  let w2 := if decimal ldigits =? len (join "," samples) then w1
            else add_out (Log ERROR (txt "Byte count error. Expected "
                                     ++ str_of_Z (len (join "," samples)) ++ txt " got "
                                     ++ str_of_Z (len (join "," samples)))) w1 in
  mkSession (with_error None (dev s))
            (set_files (stored_lines filename samples (files (world s))) w2).

(** What one request of the incremental drain meets: a block of readings
    that arrives whole, or a read that times out, possibly after fragments
    that do not end a block. *)
Inductive arrival :=
| Drained (ldigits : bytes) (samples : list str)
| TimedOut (fragments : list bytes).

Definition arrival_ok (a : arrival) : bool :=
  match a with
  | Drained ldigits samples => readings_ok ldigits samples
  | TimedOut fragments =>
      forallb (fun f => negb (endswith f [nl]) && (len f <=? M34465a.buff_len)) fragments
  end.

Definition inbound_of (a : arrival) : list recv_outcome :=
  match a with
  | Drained ldigits samples => [RecvData (readings_block ldigits samples)]
  | TimedOut fragments => map RecvData fragments ++ [RecvTimeout]
  end.

(** The readings that an arrival contributes. *)
Definition gained (a : arrival) : list str :=
  match a with
  | Drained _ samples => samples
  | TimedOut _ => []
  end.

Definition timed_out (a : arrival) : bool :=
  match a with
  | Drained _ _ => false
  | TimedOut _ => true
  end.

(** The arrivals [l] are what the loop of [read_data] goes through from
    [data_count]: the count is short of [expected_points] before each of
    them and no longer after the last. *)
Fixpoint consumes (expected_points data_count : Z) (l : list arrival) : bool :=
  match l with
  | [] => expected_points <=? data_count
  | a :: l' =>
      (data_count <? expected_points) &&
      consumes expected_points (data_count + len (gained a)) l'
  end.

(** A computation that leaves the file system as it found it. *)
Definition keeps_files {A} (m : M World A) : Prop :=
  forall w : World, files (fst (m w)) = files w.

Definition keeps_files_s {A} (m : M Session A) : Prop :=
  forall s : Session, files (world (fst (m s))) = files (world s).

(** ** Worlds and sessions of the examples *)

(** A device that is connected on socket 2. *)
Definition bench_device : ScpiDevice :=
  mkDevice (txt "192.168.1.188") 5025 256 10 (Some 2%nat) None.

(** A world where nothing is scripted but what arrives: every connection
    and every send succeeds. *)
Definition arriving (l : list recv_outcome) : World :=
  mkWorld [] [] l [] [] 3 [] [].

Definition idle_session : Session := mkSession bench_device (arriving []).

(** A world where the first read times out and the second one brings the
    register with no bit set. *)
Definition unreadable_then_idle : World :=
  arriving [RecvTimeout; RecvData (txt "0" ++ [nl])].

(** A world where the instrument refuses two connections. *)
Definition refusing : World :=
  mkWorld [ConnError (txt "[Errno 111] Connection refused");
           ConnError (txt "[Errno 111] Connection refused")] [] [] [] [] 3 [] [].

(** Replies of the error queue. *)
Definition reply_no_error : bytes := txt "+0," ++ dq :: txt "No error" ++ [dq; nl].
Definition reply_undefined_header : bytes :=
  txt "-113," ++ dq :: txt "Undefined header" ++ [dq; nl].

(** Four seconds at one sample a second. *)
Definition four_samples : Settings :=
  mkSettings (txt "192.168.1.188") 5025 (txt "100mA") (txt "100mV") 4 1 1 (txt "/tmp/junk.txt").

Definition measuring_reply : bytes := txt "16" ++ [nl].
Definition idle_reply : bytes := txt "0" ++ [nl].

(** The instrument answers the identification query and then sends three
    readings. *)
Definition three_readings : World :=
  arriving [RecvData (txt "Keysight Technologies,34465A,MY0,A.03" ++ [nl]);
            RecvData (txt "+1.0E-03,+2.0E-03,+3.0E-03" ++ [nl])].

(** The meter that [get_meter] makes in that world, the world it leaves,
    and the session once the fetch has returned. *)
Definition fetch_meter : ScpiDevice :=
  mkDevice (txt "192.168.1.188") 5025 256 10 (Some 4%nat) None.

Definition meter_world : World :=
  Eval vm_compute in fst (M34465a.get_meter four_samples three_readings).

Definition fetched : Session :=
  Eval vm_compute in fst (M34465a.read_data_with_fetch 9 (mkSession fetch_meter meter_world)).

(** ** Replies and the lines of the register *)

(** The value that [get] returns: the reply when the query was sent and
    the reply was read, [(False, None)] otherwise. *)
Definition reply_of (so : send_outcome) (ro : recv_outcome) : bool * option bytes :=
  match so, ro with
  | SendOk, RecvData d => (true, Some d)
  | _, _ => (false, None)
  end.

(** The line that [show_op_reg] logs for one bit of the register value
    [v]. *)
Definition register_line (v : Z) (bn : Z * str) : out :=
  Log DEBUG (txt "    " ++ ljust 20 (snd bn) ++ txt " = " ++ str_of_bool (Z.testbit v (fst bn))).

(** ** More worlds and settings of the examples *)

(** Forty days at a hundred samples a second. *)
Definition forty_days : Settings :=
  mkSettings (txt "192.168.1.188") 5025 (txt "100mA") (txt "100mV")
    3456000 0x1.47ae147ae147bp-7 0x1.47ae147ae147bp-7 (txt "/tmp/junk.txt").

(** ** Checked sequences that fail on the socket *)

(** The outcome of the send that carries a command of a checked sequence:
    the DMM6500 driver clears the queue first, so its command is the second
    send. *)
Definition command_send (drv : driver) (w : World) : send_outcome :=
  match drv with
  | Keysight34465a => next_send w
  | KeithleyDMM6500 => hd SendOk (tl (sends w))
  end.

(** The text of the CommandError when that send fails. *)
Definition write_failure_text (drv : driver) (err : str) : str :=
  match drv with
  | Keysight34465a => txt "Device write error in send_commands()"
  | KeithleyDMM6500 => txt "ERROR: Socket send error: " ++ err
  end.

(** What is written up to the command. *)
Definition command_only (drv : driver) (cmd : str) : list bytes :=
  match drv with
  | Keysight34465a => [encode cmd ++ [nl]]
  | KeithleyDMM6500 => [encode (txt ":SYSTem:CLEar") ++ [nl]; encode cmd ++ [nl]]
  end.

(** The instrument answers the identification query and then reports an
    idle register. *)
Definition idn_then_idle : World :=
  arriving [RecvData (txt "Keysight Technologies,34465A,MY0,A.03" ++ [nl]);
            RecvData idle_reply].

Definition idle_meter_world : World :=
  Eval vm_compute in fst (M34465a.get_meter four_samples idn_then_idle).

(** * Properties *)

(** ** Running the methods of a device *)

(** Unfolding of the monad and of the socket primitives. *)
Ltac run :=
  cbv beta iota zeta delta
    [bind ret raise diverge try_except of_option of_result io on_device self the_sock
     set_sock set_error emit say print logger sleep new_socket sock_connect sock_send
     sock_recv sock_close isfile file_append file_write decode_reply].

(** Projections of an updated device, session or world. *)
Tactic Notation "simp_world" :=
  cbn [dev world host port buffersize socket_timeout sock error
       connects sends inbound stdin files next_fd trace console
       add_event add_out set_connects set_sends set_inbound set_stdin set_files set_next_fd
       with_sock with_error fst snd].

Tactic Notation "simp_world" "in" "*" :=
  cbn [dev world host port buffersize socket_timeout sock error
       connects sends inbound stdin files next_fd trace console
       add_event add_out set_connects set_sends set_inbound set_stdin set_files set_next_fd
       with_sock with_error fst snd] in *.

Tactic Notation "simp_world" "in" hyp(H) :=
  cbn [dev world host port buffersize socket_timeout sock error
       connects sends inbound stdin files next_fd trace console
       add_event add_out set_connects set_sends set_inbound set_stdin set_files set_next_fd
       with_sock with_error fst snd] in H.

Lemma encode_app (a b : str) : encode (a ++ b) = encode a ++ encode b.
Proof. unfold encode. apply flat_map_app. Qed.

Lemma encode_line (payload : str) : encode (payload ++ [nl]) = encode payload ++ [nl].
Proof. rewrite encode_app. reflexivity. Qed.

Lemma write_run (drv : driver) (payload : str) (s : Session) (fd : nat) :
  sock (dev s) = Some fd ->
  drv_write drv payload s =
    let w' := sent fd (encode payload ++ [nl]) (world s) in
    match next_send (world s) with
    | SendOk => (mkSession (with_error None (dev s)) w', Ok true)
    | SendError err =>
        (mkSession (with_error (Some (send_error_text drv err)) (dev s)) w', Ok false)
    end.
Proof.
  intros Hfd.
  destruct drv; unfold drv_write, M34465a.write, DMM6500._write, sent;
    rewrite encode_line; run; rewrite Hfd; run;
    destruct (next_send (world s)); reflexivity.
Qed.

Lemma read_run_34465a (s : Session) (fd : nat) :
  sock (dev s) = Some fd ->
  M34465a._read s =
    let w' := received fd (buffersize (dev s)) (world s) in
    match next_recv (buffersize (dev s)) (world s) with
    | RecvData d => (mkSession (with_error None (dev s)) w', Ok (true, Some d))
    | RecvTimeout =>
        (mkSession (with_error (Some (recv_error_text Keysight34465a (txt "timed out"))) (dev s)) w',
         Ok (false, None))
    | RecvError err =>
        (mkSession (with_error (Some (recv_error_text Keysight34465a err)) (dev s)) w',
         Ok (false, None))
    end.
Proof.
  intros Hfd.
  unfold M34465a._read, received; run; rewrite Hfd; run.
  destruct (next_recv (buffersize (dev s)) (world s)); reflexivity.
Qed.

Lemma read_run_DMM6500 (s : Session) (fd : nat) :
  sock (dev s) = Some fd ->
  DMM6500._read s =
    let w' := received fd (buffersize (dev s)) (world s) in
    match next_recv (buffersize (dev s)) (world s) with
    | RecvData d => (mkSession (with_error None (dev s)) w', Ok (true, Some d))
    | RecvTimeout =>
        let msg := recv_error_text KeithleyDMM6500 (txt "timed out") in
        (mkSession (with_error (Some msg) (dev s)) (add_out (Log DEBUG msg) w'),
         Ok (false, None))
    | RecvError err =>
        let msg := recv_error_text KeithleyDMM6500 err in
        (mkSession (with_error (Some msg) (dev s)) (add_out (Log DEBUG msg) w'),
         Ok (false, None))
    end.
Proof.
  intros Hfd.
  unfold DMM6500._read, received; run; rewrite Hfd; run.
  destruct (next_recv (buffersize (dev s)) (world s)); reflexivity.
Qed.

(** ** Stepping through a computation *)

Lemma bind_ok {S A B} (m : M S A) (k : A -> M S B) (s s' : S) (a : A) :
  m s = (s', Ok a) -> bind m k s = k a s'.
Proof. intros H. unfold bind. rewrite H. reflexivity. Qed.

Lemma bind_raise {S A B} (m : M S A) (k : A -> M S B) (s s' : S) (e : exn) :
  m s = (s', Raise e) -> bind m k s = (s', Raise e).
Proof. intros H. unfold bind. rewrite H. reflexivity. Qed.

Lemma the_sock_run (s : Session) (fd : nat) :
  sock (dev s) = Some fd -> the_sock s = (s, Ok fd).
Proof. intros H. unfold the_sock. run. rewrite H. reflexivity. Qed.

Lemma recv_run (s : Session) (fd : nat) (n : Z) (data : bytes) :
  next_recv n (world s) = RecvData data ->
  io (sock_recv fd n) s = (mkSession (dev s) (received fd n (world s)), Ok data).
Proof. intros H. unfold io, sock_recv, received. rewrite H. reflexivity. Qed.

Lemma of_option_some {S A} (e : exn) (a : A) (s : S) : of_option e (Some a) s = (s, Ok a).
Proof. reflexivity. Qed.

(** One step of a computation whose first action is known. *)
Ltac step H := rewrite (bind_ok _ _ _ _ _ H); cbv beta.

Lemma trace_sent (fd : nat) (data : bytes) (w : World) :
  trace (sent fd data w) = trace w ++ [EvSend fd data (next_send w)].
Proof. reflexivity. Qed.

Lemma trace_received (fd : nat) (n : Z) (w : World) :
  trace (received fd n w) = trace w ++ [EvRecv fd n (next_recv n w)].
Proof. reflexivity. Qed.

Lemma next_recv_sent (fd : nat) (data : bytes) (n : Z) (w : World) :
  next_recv n (sent fd data w) = next_recv n w.
Proof. reflexivity. Qed.

Lemma get_run_34465a (payload : str) (s : Session) (fd : nat) :
  sock (dev s) = Some fd ->
  M34465a.get payload s =
    match next_send (world s) with
    | SendOk =>
        M34465a._read
          (mkSession (with_error None (dev s)) (sent fd (encode payload ++ [nl]) (world s)))
    | SendError err =>
        (mkSession (with_error (Some (send_error_text Keysight34465a err)) (dev s))
                   (sent fd (encode payload ++ [nl]) (world s)), Ok (false, None))
    end.
Proof.
  intros Hfd. unfold M34465a.get, bind.
  pose proof (write_run Keysight34465a payload s fd Hfd) as Hw.
  unfold drv_write in Hw. rewrite Hw. cbv zeta. destruct (next_send (world s)); reflexivity.
Qed.

Lemma get_run_DMM6500 (payload : str) (s : Session) (fd : nat) :
  sock (dev s) = Some fd ->
  DMM6500.get payload s =
    match next_send (world s) with
    | SendOk =>
        DMM6500._read
          (mkSession (with_error None (dev s)) (sent fd (encode payload ++ [nl]) (world s)))
    | SendError err =>
        (mkSession (with_error (Some (send_error_text KeithleyDMM6500 err)) (dev s))
                   (sent fd (encode payload ++ [nl]) (world s)), Ok (false, None))
    end.
Proof.
  intros Hfd. unfold DMM6500.get, bind.
  pose proof (write_run KeithleyDMM6500 payload s fd Hfd) as Hw.
  unfold drv_write in Hw. rewrite Hw. cbv zeta. destruct (next_send (world s)); reflexivity.
Qed.

(** ** The claims *)

(** C9 (as the code has it): [write] (and [_write] of the DMM6500 driver)
    sends the encoded command followed by one newline that it appends
    itself, whether or not the command already ends with one. *)
Theorem write_appends_newline (drv : driver) (payload : str) (s : Session) (fd : nat) :
  sock (dev s) = Some fd ->
  trace (world (fst (drv_write drv payload s))) =
    trace (world s) ++ [EvSend fd (encode payload ++ [nl]) (next_send (world s))].
Proof.
  intros Hfd. rewrite (write_run drv payload s fd Hfd). cbv zeta. unfold sent.
  destruct (next_send (world s)); reflexivity.
Qed.

Lemma write_appends_newline_witness :
  sock (dev idle_session) = Some 2%nat /\
  trace (world (fst (drv_write Keysight34465a (txt "*RST") idle_session))) =
    [EvSend 2 (txt "*RST" ++ [nl]) SendOk].
Proof.
  split; [reflexivity |].
  exact (write_appends_newline Keysight34465a (txt "*RST") idle_session 2 eq_refl).
Defined.

(** C9, against the claim: a command that already ends with the newline is
    not sent unchanged; both drivers put a second newline after it. *)
Lemma write_repeats_newline :
  trace (world (fst (drv_write Keysight34465a (txt "*RST" ++ [nl]) idle_session))) =
    [EvSend 2 (txt "*RST" ++ [nl; nl]) SendOk] /\
  trace (world (fst (drv_write KeithleyDMM6500 (txt "*RST" ++ [nl]) idle_session))) =
    [EvSend 2 (txt "*RST" ++ [nl; nl]) SendOk] /\
  txt "*RST" ++ [nl; nl] <> encode (txt "*RST" ++ [nl]).
Proof.
  split; [reflexivity | split; [reflexivity | discriminate]].
Qed.

(** C10: [get] writes the query and reads only when the write succeeded.
    A failed write gives [(False, None)] and no read is attempted; a read
    that succeeds gives [(True, bytes)]; a read that fails gives
    [(False, None)] with the error kept on the device. *)
Theorem get_write_then_read (drv : driver) (payload : str) (s : Session) (fd : nat) :
  sock (dev s) = Some fd ->
  let query := encode payload ++ [nl] in
  let size := buffersize (dev s) in
  let s' := fst (drv_get drv payload s) in
  let r := snd (drv_get drv payload s) in
  match next_send (world s) with
  | SendError err =>
      r = Ok (false, None) /\
      trace (world s') = trace (world s) ++ [EvSend fd query (SendError err)] /\
      error (dev s') = Some (send_error_text drv err)
  | SendOk =>
      trace (world s') =
        trace (world s) ++ [EvSend fd query SendOk; EvRecv fd size (next_recv size (world s))] /\
      match next_recv size (world s) with
      | RecvData d => r = Ok (true, Some d) /\ error (dev s') = None
      | RecvTimeout =>
          r = Ok (false, None) /\
          error (dev s') = Some (recv_error_text drv (txt "timed out"))
      | RecvError err =>
          r = Ok (false, None) /\ error (dev s') = Some (recv_error_text drv err)
      end
  end.
Proof.
  intros Hfd. cbv zeta.
  destruct drv; unfold drv_get;
    [ rewrite (get_run_34465a payload s fd Hfd) | rewrite (get_run_DMM6500 payload s fd Hfd) ];
    (destruct (next_send (world s)) as [|err] eqn:Hsend;
     [ first [ rewrite (read_run_34465a _ fd) by exact Hfd
             | rewrite (read_run_DMM6500 _ fd) by exact Hfd ];
       cbv zeta; cbn [dev world buffersize with_error];
       rewrite next_recv_sent;
       destruct (next_recv (buffersize (dev s)) (world s)) eqn:Hrecv;
       cbn [fst snd dev world error with_error trace add_out];
       rewrite trace_received, trace_sent, Hsend, next_recv_sent, Hrecv, <- app_assoc;
       repeat split; reflexivity
     | cbn [fst snd dev world error with_error];
       rewrite trace_sent, Hsend; repeat split; reflexivity ]).
Qed.

Lemma socket_connect_run (drv : driver) (s : Session) :
  match drv with
  | Keysight34465a => M34465a._socket_connect s
  | KeithleyDMM6500 => DMM6500._socket_connect s
  end = (attempted s, Ok (conn_ok (next_connect (world s)))).
Proof.
  destruct drv; unfold M34465a._socket_connect, DMM6500._socket_connect, attempted; run;
    unfold next_connect; simp_world;
    destruct (hd ConnOk (connects (world s))); reflexivity.
Qed.

Lemma connect_run (drv : driver) (s : Session) :
  drv_connect drv s =
    let s0 := mkSession (dev s)
                (add_out (Print (nl :: txt "Attempting to connect to meter...")) (world s)) in
    match next_connect (world s) with
    | ConnOk => (attempted s0, Ok true)
    | ConnError _ =>
        let s1 := attempted s0 in
        let s2 := mkSession (dev s1)
                    (add_event (EvSleep 30)
                       (add_out (Print (txt "Attempt 1 of 5. Connection to socket failed. "
                                        ++ txt "Will retry in 30s...")) (world s1))) in
        (attempted s2, Ok (conn_ok (next_connect (world s2))))
    end.
Proof.
  pose proof (socket_connect_run drv) as H.
  destruct drv; unfold drv_connect, M34465a.connect, DMM6500.connect;
    unfold bind at 1; unfold io at 1, print at 1, say at 1; cbv beta iota zeta;
    unfold bind at 1; rewrite H; unfold next_connect; simp_world;
    destruct (hd ConnOk (connects (world s))) eqn:Hc;
    cbn [conn_ok negb andb]; try reflexivity;
    change (1 <? 5) with true; cbv iota;
    run; rewrite H; reflexivity.
Qed.

Lemma connect_attempts_app (t u : list event) :
  connect_attempts (t ++ u) = (connect_attempts t + connect_attempts u)%nat.
Proof. unfold connect_attempts. rewrite filter_app, length_app. reflexivity. Qed.

(** C7: when the first attempt fails, [connect] waits 30 seconds and tries
    once more, each attempt on a fresh socket with the timeout of the
    device: two attempts, within the budget of 2 to 5.  When the second
    attempt fails too, the failure goes back to the caller (the result is
    [False] and the error is kept on the device) and nothing more is tried. *)
Theorem connect_retries_once (drv : driver) (s : Session) (err1 : str) :
  next_connect (world s) = ConnError err1 ->
  let d := dev s in
  let fd := next_fd (world s) in
  let o2 := hd ConnOk (tl (connects (world s))) in
  let s' := fst (drv_connect drv s) in
  let attempts := (connect_attempts (trace (world s')) - connect_attempts (trace (world s)))%nat in
  trace (world s') =
    trace (world s) ++
      [EvConnect fd (host d) (port d) (socket_timeout d) (ConnError err1);
       EvSleep 30;
       EvConnect (S fd) (host d) (port d) (socket_timeout d) o2] /\
  (2 <= attempts <= 5)%nat /\
  snd (drv_connect drv s) = Ok (conn_ok o2) /\
  (forall err2, o2 = ConnError err2 ->
     snd (drv_connect drv s) = Ok false /\
     error (dev s') = Some (txt "ERROR: Socket connection error. " ++ err2) /\
     attempts = 2%nat).
Proof.
  intros Hc. cbv zeta.
  rewrite connect_run, Hc. cbv zeta.
  unfold attempted, next_connect in *. simp_world. rewrite Hc. simp_world.
  assert (Hn : forall o : conn_outcome,
    (connect_attempts
       (trace (world s) ++
        [EvConnect (next_fd (world s)) (host (dev s)) (port (dev s)) (socket_timeout (dev s))
           (ConnError err1);
         EvSleep 30;
         EvConnect (S (next_fd (world s))) (host (dev s)) (port (dev s))
           (socket_timeout (dev s)) o]) -
     connect_attempts (trace (world s)) = 2)%nat).
  { intros o. rewrite connect_attempts_app. cbn. lia. }
  destruct (hd ConnOk (tl (connects (world s)))) as [|e2] eqn:Ho; simp_world;
    rewrite <- !app_assoc; cbn [app]; rewrite Hn;
    (split; [reflexivity | split; [lia | split; [reflexivity |]]]).
  - intros err2 E; discriminate E.
  - intros err2 E; injection E as <-. repeat split; reflexivity.
Qed.

(** ** Python text: slices *)

Lemma len_app {A} (p q : list A) : len (p ++ q) = len p + len q.
Proof. unfold len. rewrite length_app. lia. Qed.

Lemma len_nonneg {A} (s : list A) : 0 <= len s.
Proof. unfold len. lia. Qed.

Lemma len_cons {A} (x : A) (s : list A) : len (x :: s) = 1 + len s.
Proof. unfold len. cbn [length]. lia. Qed.

Lemma to_nat_len {A} (s : list A) : Z.to_nat (len s) = length s.
Proof. unfold len. apply Nat2Z.id. Qed.

Lemma clamp_inside (n i : Z) : 0 <= i <= n -> clamp n i = i.
Proof.
  intros H. unfold clamp. destruct (Z.ltb_spec i 0); lia.
Qed.

Lemma clamp_minus_one (n : Z) : 1 <= n -> clamp n (-1) = n - 1.
Proof. intros H. unfold clamp. change (-1 <? 0) with true. cbv iota. lia. Qed.

Lemma skipn_len_app {A} (p q : list A) : skipn (length p) (p ++ q) = q.
Proof. induction p; cbn; auto. Qed.

Lemma firstn_len_app {A} (p q : list A) : firstn (length p) (p ++ q) = p.
Proof. induction p; cbn; f_equal; auto. Qed.

Lemma py_slice_app_from {A} (p q : list A) : py_slice (p ++ q) (Some (len p)) None = q.
Proof.
  unfold py_slice. rewrite clamp_inside by (rewrite len_app; pose proof (len_nonneg p);
    pose proof (len_nonneg q); lia).
  rewrite to_nat_len, skipn_len_app.
  replace (Z.to_nat (len (p ++ q) - len p)) with (length q)
    by (rewrite len_app; unfold len; lia).
  apply firstn_all.
Qed.

Lemma py_slice_app_mid {A} (p m q : list A) :
  py_slice (p ++ m ++ q) (Some (len p)) (Some (len p + len m)) = m.
Proof.
  pose proof (len_nonneg p); pose proof (len_nonneg m); pose proof (len_nonneg q).
  unfold py_slice. rewrite !clamp_inside by (rewrite !len_app; lia).
  rewrite to_nat_len, skipn_len_app.
  replace (Z.to_nat (len p + len m - len p)) with (length m) by (unfold len; lia).
  apply firstn_len_app.
Qed.

Lemma py_slice_app_mid_last {A} (p m : list A) (c : A) :
  py_slice (p ++ m ++ [c]) (Some (len p)) (Some (-1)) = m.
Proof.
  pose proof (len_nonneg p); pose proof (len_nonneg m).
  unfold py_slice.
  rewrite (clamp_inside _ (len p)) by (rewrite !len_app; change (len [c]) with 1; lia).
  rewrite clamp_minus_one by (rewrite !len_app; change (len [c]) with 1; lia).
  rewrite to_nat_len, skipn_len_app.
  replace (Z.to_nat (len (p ++ m ++ [c]) - 1 - len p)) with (length m)
    by (rewrite !len_app; change (len [c]) with 1; unfold len; lia).
  apply firstn_len_app.
Qed.

Lemma py_slice_drop_last {A} (s : list A) (c : A) :
  py_slice (s ++ [c]) (Some 0) (Some (-1)) = s.
Proof. exact (py_slice_app_mid_last [] s c). Qed.

Lemma py_slice_last {A} (s : list A) (c : A) :
  py_slice (s ++ [c]) (Some (-1)) None = [c].
Proof.
  pose proof (len_nonneg s).
  unfold py_slice. rewrite clamp_minus_one by (rewrite len_app; change (len [c]) with 1; lia).
  replace (Z.to_nat (len (s ++ [c]) - 1)) with (length s)
    by (rewrite len_app; change (len [c]) with 1; unfold len; lia).
  rewrite skipn_len_app.
  replace (Z.to_nat (len (s ++ [c]) - (len (s ++ [c]) - 1))) with 1%nat by lia.
  reflexivity.
Qed.

Lemma py_slice_short (block : bytes) :
  len block < 2 -> py_slice block (Some 1) (Some 2) = [].
Proof.
  destruct block as [|c [|c2 t]]; intros H; try reflexivity.
  rewrite !len_cons in H. pose proof (len_nonneg t). lia.
Qed.

Lemma py_index_second {A} (a b : A) (s : list A) : py_index (a :: b :: s) 1 = Some b.
Proof.
  unfold py_index. rewrite !len_cons. pose proof (len_nonneg s).
  cbn [Z.ltb Z.compare]. 
  replace ((0 <=? 1) && (1 <? 1 + (1 + len s))) with true
    by (symmetry; apply andb_true_iff; split; [reflexivity | apply Z.ltb_lt; lia]).
  reflexivity.
Qed.

(** ** Python text: white space, numbers, encoding *)

Lemma lstrip_keeps (sp : ascii -> bool) (c : ascii) (s : list ascii) :
  sp c = false -> lstrip_with sp (c :: s) = c :: s.
Proof. intros H. cbn. rewrite H. reflexivity. Qed.

Lemma lstrip_blanks (sp : ascii -> bool) (ws s : list ascii) :
  forallb sp ws = true -> lstrip_with sp (ws ++ s) = lstrip_with sp s.
Proof.
  induction ws as [|c ws IH]; cbn; [reflexivity |].
  intros H. apply andb_true_iff in H as [Hc Hws]. rewrite Hc. auto.
Qed.

Lemma forallb_rev {A} (f : A -> bool) (l : list A) : forallb f (rev l) = forallb f l.
Proof.
  induction l as [|x l IH]; [reflexivity |].
  cbn [rev forallb]. rewrite forallb_app, IH. cbn [forallb].
  rewrite andb_true_r. apply andb_comm.
Qed.

(** White space after a character that is not white space goes away, and
    nothing else does. *)
Lemma rstrip_blanks (sp : ascii -> bool) (s ws : list ascii) (c : ascii) :
  sp c = false -> forallb sp ws = true ->
  rstrip_with sp (s ++ c :: ws) = s ++ [c].
Proof.
  intros Hc Hws. unfold rstrip_with.
  rewrite rev_app_distr. cbn [rev]. rewrite <- app_assoc.
  rewrite lstrip_blanks by (rewrite forallb_rev; exact Hws).
  cbn [app]. rewrite lstrip_keeps by exact Hc.
  change (c :: rev s) with ([c] ++ rev s).
  rewrite rev_app_distr, rev_involutive. reflexivity.
Qed.

Lemma strip_with_core (sp : ascii -> bool) (a : ascii) (s ws : list ascii) (c : ascii) :
  sp a = false -> sp c = false -> forallb sp ws = true ->
  strip_with sp (a :: s ++ c :: ws) = a :: s ++ [c].
Proof.
  intros Ha Hc Hws. unfold strip_with. rewrite lstrip_keeps by exact Ha.
  exact (rstrip_blanks sp (a :: s) ws c Hc Hws).
Qed.

Lemma strip_with_single (sp : ascii -> bool) (a : ascii) (ws : list ascii) :
  sp a = false -> forallb sp ws = true -> strip_with sp (a :: ws) = [a].
Proof.
  intros Ha Hws. unfold strip_with. rewrite lstrip_keeps by exact Ha.
  exact (rstrip_blanks sp [] ws a Ha Hws).
Qed.

Lemma digit_not_space (c : ascii) :
  is_digit c = true -> bytes_space c = false /\ str_space c = false.
Proof.
  destruct c as [[|] [|] [|] [|] [|] [|] [|] [|]];
    intros H; try discriminate H; split; reflexivity.
Qed.

Lemma strip_with_id (sp : ascii -> bool) (s : list ascii) :
  forallb (fun c => negb (sp c)) s = true -> strip_with sp s = s.
Proof.
  destruct s as [|a t]; [reflexivity |].
  intros H. cbn [forallb] in H. apply andb_true_iff in H as [Ha Ht].
  apply negb_true_iff in Ha.
  destruct t as [|b t'] using rev_ind.
  - exact (strip_with_single sp a [] Ha eq_refl).
  - rewrite forallb_app in Ht. apply andb_true_iff in Ht as [_ Hb].
    cbn [forallb] in Hb. rewrite andb_true_r in Hb. apply negb_true_iff in Hb.
    exact (strip_with_core sp a t' [] b Ha Hb eq_refl).
Qed.

Lemma int_digits_all (s : list ascii) (acc : Z) (after_digit : bool) :
  all_digits s = true -> s <> [] \/ after_digit = true ->
  int_digits acc after_digit s = Some (digits_value acc s).
Proof.
  revert acc after_digit. induction s as [|c r IH]; intros acc b Hd Hne.
  - destruct Hne as [Hne | ->]; [congruence | reflexivity].
  - cbn [all_digits forallb] in Hd. apply andb_true_iff in Hd as [Hc Hr].
    cbn [int_digits digits_value]. rewrite Hc. apply IH; [exact Hr | right; reflexivity].
Qed.

Lemma int_with_digits (sp : ascii -> bool) (s : list ascii) :
  (forall c, is_digit c = true -> sp c = false) ->
  s <> [] -> all_digits s = true -> int_with sp s = Some (decimal s).
Proof.
  intros Hsp Hne Hd. unfold int_with.
  rewrite strip_with_id.
  - destruct s as [|a t]; [congruence |].
    transitivity (int_digits 0 false (a :: t)).
    + cbn [all_digits forallb] in Hd. apply andb_true_iff in Hd as [Ha _].
      destruct a as [[|] [|] [|] [|] [|] [|] [|] [|]]; try discriminate Ha; reflexivity.
    + apply int_digits_all; [exact Hd | left; exact Hne].
  - unfold all_digits in Hd. rewrite forallb_forall in Hd |- *.
    intros c Hc. rewrite (Hsp c (Hd c Hc)). reflexivity.
Qed.

Lemma int_of_bytes_digits (s : bytes) :
  s <> [] -> all_digits s = true -> int_of_bytes s = Some (decimal s).
Proof. apply int_with_digits. intros c Hc. apply (digit_not_space c Hc). Qed.

Lemma int_of_str_digits (s : str) :
  s <> [] -> all_digits s = true -> int_of_str s = Some (decimal s).
Proof. apply int_with_digits. intros c Hc. apply (digit_not_space c Hc). Qed.

Lemma chr_code (c : ascii) : chr (code c) = c.
Proof. unfold chr, code. rewrite Nat2Z.id. apply ascii_nat_embedding. Qed.

Lemma code_chr (n : Z) : 0 <= n < 256 -> code (chr n) = n.
Proof.
  intros H. unfold chr, code. rewrite nat_ascii_embedding by lia. lia.
Qed.

(** The character that announces [d] length digits. *)
Lemma digit_count_char (d : Z) :
  1 <= d <= 9 -> int_of_str [chr (code (chr (48 + d)))] = Some d.
Proof.
  intros H. rewrite chr_code.
  assert (E : d = 1 \/ d = 2 \/ d = 3 \/ d = 4 \/ d = 5 \/ d = 6 \/ d = 7 \/ d = 8 \/ d = 9)
    by lia.
  repeat (destruct E as [-> | E]; [reflexivity |]). subst d. reflexivity.
Qed.

Lemma digit_count_byte (d : Z) :
  1 <= d <= 9 -> int_of_bytes [chr (48 + d)] = Some d.
Proof.
  intros H.
  assert (E : d = 1 \/ d = 2 \/ d = 3 \/ d = 4 \/ d = 5 \/ d = 6 \/ d = 7 \/ d = 8 \/ d = 9)
    by lia.
  repeat (destruct E as [-> | E]; [reflexivity |]). subst d. reflexivity.
Qed.

Lemma decode_ascii (s : bytes) : forallb is_ascii7 s = true -> decode s = Some s.
Proof.
  induction s as [|c r IH]; [reflexivity |].
  cbn [forallb]. intros H. apply andb_true_iff in H as [Hc Hr].
  unfold is_ascii7 in Hc. cbn [decode]. cbv zeta. rewrite Hc, (IH Hr). reflexivity.
Qed.

(** What [decode] reads is well-formed UTF-8: where [utf8_ok] fails, so does
    [decode]. *)
Lemma decode_utf8_ok (b : bytes) (s : str) : decode b = Some s -> utf8_ok b = true.
Proof.
  assert (H : forall (n : nat) (b : bytes), (length b <= n)%nat ->
                forall s : str, decode b = Some s -> utf8_ok b = true).
  { clear b s. induction n as [|n IH]; intros b Hlen s Hd.
    - destruct b; [reflexivity | cbn [length] in Hlen; lia].
    - destruct b as [|c r]; [reflexivity |].
      cbn [length] in Hlen. cbn [decode] in Hd. cbv zeta in Hd. cbn [utf8_ok]. cbv zeta.
      destruct (code c <? 128) eqn:E.
      + destruct (decode r) as [t|] eqn:Hr; [| discriminate Hd].
        apply (IH r ltac:(lia) t Hr).
      + destruct r as [|c2 r']; [discriminate Hd |].
        cbn [length] in Hlen.
        destruct (((code c =? 194) || (code c =? 195)) && (128 <=? code c2)
                  && (code c2 <? 192)) eqn:E2; [| discriminate Hd].
        destruct (decode r') as [t|] eqn:Hr; [| discriminate Hd].
        apply andb_true_iff in E2 as [E2 E3]. apply andb_true_iff in E2 as [E2 E4].
        replace ((194 <=? code c) && (code c <=? 223)) with true
          by (symmetry; apply andb_true_iff; apply orb_true_iff in E2; lia).
        unfold utf8_cont. cbv zeta.
        replace ((128 <=? code c2) && (code c2 <=? 191)) with true
          by (symmetry; apply andb_true_iff; lia).
        apply (IH r' ltac:(lia) t Hr). }
  exact (H (length b) b (le_n _) s).
Qed.

Lemma decode_garbled (b : bytes) : utf8_ok b = false -> decode b = None.
Proof.
  intros H. destruct (decode b) as [s|] eqn:E; [| reflexivity].
  rewrite (decode_utf8_ok b s E) in H. discriminate H.
Qed.

(** The two differ beyond U+00FF: a Greek capital omega and two
    Arabic-Indic digits are well-formed, and [decode] does not read them. *)
Lemma utf8_ok_beyond_latin1 :
  utf8_ok [chr 75; chr 206; chr 169; nl] = true /\
  decode [chr 75; chr 206; chr 169; nl] = None /\
  utf8_ok [chr 217; chr 161; chr 217; chr 166; nl] = true /\
  decode [chr 217; chr 161; chr 217; chr 166; nl] = None /\
  utf8_ok [chr 255; nl] = false /\
  utf8_ok [chr 237; chr 160; chr 128] = false /\
  utf8_ok [chr 192; chr 128] = false.
Proof. repeat split; vm_compute; reflexivity. Qed.

(** ** Python text: [split] and [join] *)

Lemma split_free (sep : ascii) (w : str) : free_of sep w = true -> split sep w = [w].
Proof.
  induction w as [|c r IH]; [reflexivity |].
  cbn [free_of forallb]. intros H. apply andb_true_iff in H as [Hc Hr].
  apply negb_true_iff in Hc. cbn [split]. rewrite Hc, (IH Hr). reflexivity.
Qed.

Lemma split_free_app (sep : ascii) (w r : str) :
  free_of sep w = true -> split sep (w ++ sep :: r) = w :: split sep r.
Proof.
  induction w as [|c w IH].
  - intros _. cbn [app split]. rewrite Ascii.eqb_refl. reflexivity.
  - cbn [free_of forallb]. intros H. apply andb_true_iff in H as [Hc Hw].
    apply negb_true_iff in Hc. cbn [app split]. rewrite Hc, (IH Hw). reflexivity.
Qed.

Lemma split_join (sep : ascii) (l : list str) :
  l <> [] -> forallb (free_of sep) l = true -> split sep (join sep l) = l.
Proof.
  induction l as [|w ws IH]; [congruence |].
  intros _ H. cbn [forallb] in H. apply andb_true_iff in H as [Hw Hws].
  destruct ws as [|w2 ws'].
  - cbn [join]. apply split_free; exact Hw.
  - change (join sep (w :: w2 :: ws')) with (w ++ sep :: join sep (w2 :: ws')).
    rewrite split_free_app by exact Hw. f_equal. apply IH; [discriminate | exact Hws].
Qed.

(** ** What [int] reads *)

(** [int] of one byte: the digit, or ValueError. *)
Lemma int_of_bytes_one (c : ascii) :
  int_of_bytes [c] = if is_digit c then Some (digit_val c) else None.
Proof.
  destruct c as [[] [] [] [] [] [] [] []]; vm_compute; reflexivity.
Qed.

(** The sign of a literal, read off the first byte. *)
Lemma int_with_sign (sp : ascii -> bool) (s : list ascii) :
  int_with sp s =
    match strip_with sp s with
    | [] => None
    | c :: r =>
        if Ascii.eqb c "+" then int_digits 0 false r
        else if Ascii.eqb c "-" then option_map Z.opp (int_digits 0 false r)
        else int_digits 0 false (c :: r)
    end.
Proof.
  unfold int_with. destruct (strip_with sp s) as [|c r]; [reflexivity |].
  destruct c as [[] [] [] [] [] [] [] []]; reflexivity.
Qed.

Lemma int_digits_tolerated (s : list ascii) :
  forall (acc : Z) (after_digit : bool) (z : Z),
    int_digits acc after_digit s = Some z ->
    forallb (fun c => is_digit c || Ascii.eqb c "_") s = true.
Proof.
  induction s as [|c r IH]; intros acc b z H; [reflexivity |].
  cbn [int_digits] in H. cbn [forallb].
  destruct (is_digit c); cbn [orb].
  - exact (IH _ _ _ H).
  - destruct (Ascii.eqb c "_"); cbn [andb] in H |- *; [| discriminate H].
    destruct b; [exact (IH _ _ _ H) | discriminate H].
Qed.

Lemma forallb_weaken (p q : ascii -> bool) (l : list ascii) :
  (forall c : ascii, p c = true -> q c = true) ->
  forallb p l = true -> forallb q l = true.
Proof.
  intros Hpq. induction l as [|c r IH]; [reflexivity |].
  cbn [forallb]. intros H. apply andb_true_iff in H as [Hc Hr].
  rewrite (Hpq c Hc), (IH Hr). reflexivity.
Qed.

Lemma lstrip_split (sp : ascii -> bool) (s : list ascii) :
  exists ws : list ascii, s = ws ++ lstrip_with sp s /\ forallb sp ws = true.
Proof.
  induction s as [|c r (ws & Hr & Hws)]; [exists []; split; reflexivity |].
  cbn [lstrip_with]. destruct (sp c) eqn:E.
  - exists (c :: ws). cbn [app forallb]. rewrite E, Hws, <- Hr. split; reflexivity.
  - exists []. split; reflexivity.
Qed.

Lemma strip_split (sp : ascii -> bool) (s : list ascii) :
  exists before after : list ascii,
    s = before ++ strip_with sp s ++ after /\
    forallb sp before = true /\ forallb sp after = true.
Proof.
  destruct (lstrip_split sp s) as (before & Hs & Hb).
  destruct (lstrip_split sp (rev (lstrip_with sp s))) as (ws & Hr & Hws).
  exists before, (rev ws). unfold strip_with, rstrip_with.
  split; [| split; [exact Hb | rewrite forallb_rev; exact Hws]].
  rewrite <- rev_app_distr, <- Hr, rev_involutive. exact Hs.
Qed.

(** What [int] reads holds only bytes that it tolerates. *)
Lemma int_of_bytes_tolerated (field : bytes) (z : Z) :
  int_of_bytes field = Some z -> forallb int_tolerates field = true.
Proof.
  unfold int_of_bytes. rewrite int_with_sign. intros H.
  destruct (strip_split bytes_space field) as (before & after & Hf & Hb & Ha).
  assert (Hsp : forall l, forallb bytes_space l = true -> forallb int_tolerates l = true).
  { intros l. apply forallb_weaken. intros c Hc. unfold int_tolerates.
    rewrite Hc, !orb_true_r. reflexivity. }
  assert (Hdg : forall l, forallb (fun c => is_digit c || Ascii.eqb c "_") l = true ->
                          forallb int_tolerates l = true).
  { intros l. apply forallb_weaken. intros c Hc. unfold int_tolerates.
    apply orb_true_iff in Hc as [Hc | Hc]; rewrite Hc; rewrite ?orb_true_r;
      reflexivity. }
  rewrite Hf, !forallb_app, (Hsp _ Hb), (Hsp _ Ha), andb_true_r. cbn [andb].
  destruct (strip_with bytes_space field) as [|c r]; [discriminate H |].
  cbn [forallb].
  destruct (Ascii.eqb c "+") eqn:Eplus.
  - rewrite (Hdg _ (int_digits_tolerated _ _ _ _ H)). unfold int_tolerates.
    rewrite Eplus, !orb_true_r. reflexivity.
  - destruct (Ascii.eqb c "-") eqn:Eminus.
    + destruct (int_digits 0 false r) as [v|] eqn:Hr; [| discriminate H].
      rewrite (Hdg _ (int_digits_tolerated _ _ _ _ Hr)). unfold int_tolerates.
      rewrite Eminus, !orb_true_r. reflexivity.
    + exact (Hdg _ (int_digits_tolerated _ _ _ _ H)).
Qed.

Lemma int_of_bytes_non_numeric (field : bytes) :
  non_numeric field = true -> int_of_bytes field = None.
Proof.
  intros H. destruct field as [|c r]; [reflexivity |].
  destruct (int_of_bytes (c :: r)) as [z|] eqn:E; [| reflexivity].
  unfold non_numeric in H. rewrite (int_of_bytes_tolerated _ _ E) in H. discriminate H.
Qed.

(** C4 (as the code has it): a buffer shorter than two bytes, a buffer
    whose count byte is not a digit, and a buffer whose length field is
    empty or holds a byte that [int] does not tolerate (anything but a
    digit, a sign, an underscore or an ASCII blank) make
    [parse_block_header] fail: the decoder raises ValueError to its caller,
    in the current driver and in the older one.  Its slices never index
    out of bounds, so no IndexError arises and the handler of IndexError
    (which in the older driver leaves the process) is never entered. *)
Theorem parse_block_header_rejects (block : bytes) :
  len block < 2 \/
  (exists c : ascii,
     py_slice block (Some 1) (Some 2) = [c] /\
     (is_digit c = false \/
      non_numeric (py_slice block (Some 2) (Some (digit_val c + 2))) = true)) ->
  M34465a.parse_block_header block = Raise ValueError /\
  (forall w : World, Old34465a.parse_block_header block w = (w, Raise ValueError)) /\
  (forall b : bytes, M34465a.parse_block_header b <> Raise IndexError).
Proof.
  intros H.
  assert (Hcase : int_of_bytes (py_slice block (Some 1) (Some 2)) = None \/
                  exists n : Z,
                    int_of_bytes (py_slice block (Some 1) (Some 2)) = Some n /\
                    int_of_bytes (py_slice block (Some 2) (Some (n + 2))) = None).
  { destruct H as [Hshort | (c & Hc & Hwhy)].
    - left. rewrite (py_slice_short block Hshort). reflexivity.
    - rewrite Hc, int_of_bytes_one.
      destruct (is_digit c) eqn:Hd; [| left; reflexivity].
      right. exists (digit_val c). split; [reflexivity |].
      destruct Hwhy as [Hno | Hfield]; [discriminate Hno |].
      apply int_of_bytes_non_numeric. exact Hfield. }
  split; [| split].
  - unfold M34465a.parse_block_header.
    destruct Hcase as [Hn | (n & Hn & Hfield)]; rewrite Hn; [| rewrite Hfield]; reflexivity.
  - intros w. unfold Old34465a.parse_block_header. run.
    destruct Hcase as [Hn | (n & Hn & Hfield)]; rewrite Hn; [reflexivity |].
    cbv beta iota. rewrite Hfield. reflexivity.
  - intros b. unfold M34465a.parse_block_header.
    destruct (int_of_bytes (py_slice b (Some 1) (Some 2))) as [n |]; [| discriminate].
    destruct (int_of_bytes (py_slice b (Some 2) (Some (n + 2)))); discriminate.
Qed.

Lemma parse_block_header_rejects_witness :
  len (txt "#") < 2 /\
  M34465a.parse_block_header (txt "#") = Raise ValueError /\
  non_numeric (txt "ab") = true /\
  M34465a.parse_block_header (txt "#2ab12") = Raise ValueError /\
  M34465a.parse_block_header (txt "#x5hello") = Raise ValueError.
Proof.
  split; [reflexivity | split; [| split; [reflexivity | split]]].
  - exact (proj1 (parse_block_header_rejects (txt "#") (or_introl eq_refl))).
  - refine (proj1 (parse_block_header_rejects (txt "#2ab12") (or_intror _))).
    exists "2"%char. split; [reflexivity | right; reflexivity].
  - refine (proj1 (parse_block_header_rejects (txt "#x5hello") (or_intror _))).
    exists "x"%char. split; [reflexivity | left; reflexivity].
Defined.

(** C4, against the claim: a length field that is not made of digits is
    not always rejected.  [int] reads a sign, blanks around the number and
    an underscore between digits, so these headers are decoded, one of them
    to a negative length. *)
Lemma parse_block_header_accepts_signed_length :
  all_digits (txt "-5") = false /\
  M34465a.parse_block_header (txt "#2-5hello") = Ok (4, -5, 5) /\
  M34465a.parse_block_header (txt "#2+5hello") = Ok (4, 5, 5) /\
  M34465a.parse_block_header (txt "#2 5hello") = Ok (4, 5, 5) /\
  M34465a.parse_block_header (txt "#31_2hello") = Ok (5, 12, 5) /\
  Old34465a.parse_block_header (txt "#2-5hello") (arriving []) = (arriving [], Ok (4, -5, 5)).
Proof. repeat split; vm_compute; reflexivity. Qed.

(** ** Scripts that succeed *)

Lemma next_send_ok (w : World) : sends_succeed w -> next_send w = SendOk.
Proof.
  unfold sends_succeed, next_send. destruct (sends w); [reflexivity |].
  intros H. inversion H; assumption.
Qed.

Lemma sends_succeed_tl (w w' : World) :
  sends_succeed w -> sends w' = tl (sends w) -> sends_succeed w'.
Proof.
  unfold sends_succeed. intros H ->. destruct (sends w); [constructor |].
  inversion H; assumption.
Qed.

Lemma sends_succeed_same (w w' : World) :
  sends_succeed w -> sends w' = sends w -> sends_succeed w'.
Proof. unfold sends_succeed. intros H ->. exact H. Qed.

Lemma next_connect_ok (w : World) : connects_succeed w -> next_connect w = ConnOk.
Proof.
  unfold connects_succeed, next_connect. destruct (connects w); [reflexivity |].
  intros H. inversion H; assumption.
Qed.

Lemma connects_succeed_tl (w w' : World) :
  connects_succeed w -> connects w' = tl (connects w) -> connects_succeed w'.
Proof.
  unfold connects_succeed. intros H ->. destruct (connects w); [constructor |].
  inversion H; assumption.
Qed.

Lemma connects_succeed_same (w w' : World) :
  connects_succeed w -> connects w' = connects w -> connects_succeed w'.
Proof. unfold connects_succeed. intros H ->. exact H. Qed.

Lemma recv_whole (w : World) (n : Z) (data : bytes) (q : list recv_outcome) :
  inbound w = RecvData data :: q -> len data <= n ->
  next_recv n w = RecvData data /\ after_recv n w = q.
Proof.
  intros Hin Hlen. unfold next_recv, after_recv. rewrite Hin. cbn [hd].
  assert (Hn : (length data <= Z.to_nat n)%nat) by (unfold len in Hlen; lia).
  rewrite firstn_all2 by exact Hn.
  apply Nat.leb_le in Hn. rewrite Hn. split; reflexivity.
Qed.

Lemma written_app (t u : list event) : written (t ++ u) = written t ++ written u.
Proof. unfold written. apply flat_map_app. Qed.

Lemma eqs_refl (a : list ascii) : eqs a a = true.
Proof. induction a; cbn; [reflexivity |]. rewrite Ascii.eqb_refl. exact IHa. Qed.

Lemma eqs_eq (a b : list ascii) : eqs a b = true -> a = b.
Proof.
  revert b. induction a as [|x a IH]; destruct b as [|y b]; cbn; try discriminate; auto.
  intros H. apply andb_true_iff in H as [Hxy Hab].
  apply Ascii.eqb_eq in Hxy. subst y. f_equal. auto.
Qed.

Lemma sends_succeed_sent (fd : nat) (data : bytes) (w : World) :
  sends_succeed w -> sends_succeed (sent fd data w).
Proof. intros H. apply (sends_succeed_tl w); [exact H | reflexivity]. Qed.

Lemma sends_succeed_received (fd : nat) (n : Z) (w : World) :
  sends_succeed w -> sends_succeed (received fd n w).
Proof. intros H. apply (sends_succeed_same w); [exact H | reflexivity]. Qed.

Lemma sends_succeed_add_out (o : out) (w : World) :
  sends_succeed w -> sends_succeed (add_out o w).
Proof. intros H. apply (sends_succeed_same w); [exact H | reflexivity]. Qed.

Lemma sends_succeed_add_event (e : event) (w : World) :
  sends_succeed w -> sends_succeed (add_event e w).
Proof. intros H. apply (sends_succeed_same w); [exact H | reflexivity]. Qed.

Create HintDb script.
#[export] Hint Resolve sends_succeed_sent sends_succeed_received sends_succeed_add_out
  sends_succeed_add_event : script.

Lemma checked_facts (drv : driver) (fd : nat) (cmd : str) (s : Session)
      (reply : bytes) (rest : list recv_outcome) :
  sock (dev s) = Some fd -> sends_succeed (world s) ->
  inbound (world s) = RecvData reply :: rest -> len reply <= buffersize (dev s) ->
  let s' := checked drv fd cmd s in
  sock (dev s') = Some fd /\ buffersize (dev s') = buffersize (dev s) /\
  sends_succeed (world s') /\ inbound (world s') = rest /\
  written (trace (world s')) = written (trace (world s)) ++ command_writes drv cmd.
Proof.
  intros Hfd Hs Hin Hlen. cbv zeta.
  assert (Hr : after_recv (buffersize (dev s)) (world s) = rest)
    by (apply (recv_whole _ _ reply); assumption).
  unfold checked. simp_world. repeat split; try assumption.
  - destruct drv; auto 6 with script.
  - destruct drv; exact Hr.
  - destruct drv; unfold received, sent; simp_world; rewrite !written_app;
      rewrite <- !app_assoc; reflexivity.
Qed.

Lemma write_ok (drv : driver) (payload : str) (s : Session) (fd : nat) :
  sock (dev s) = Some fd -> sends_succeed (world s) ->
  drv_write drv payload s =
    (mkSession (with_error None (dev s)) (sent fd (encode payload ++ [nl]) (world s)), Ok true).
Proof.
  intros Hfd Hs. rewrite (write_run drv payload s fd Hfd), (next_send_ok _ Hs). reflexivity.
Qed.

Lemma get_ok (drv : driver) (payload : str) (s : Session) (fd : nat)
      (reply : bytes) (rest : list recv_outcome) :
  sock (dev s) = Some fd -> sends_succeed (world s) ->
  inbound (world s) = RecvData reply :: rest -> len reply <= buffersize (dev s) ->
  drv_get drv payload s =
    (mkSession (with_error None (dev s))
       (received fd (buffersize (dev s)) (sent fd (encode payload ++ [nl]) (world s))),
     Ok (true, Some reply)).
Proof.
  intros Hfd Hs Hin Hlen.
  assert (Hr : next_recv (buffersize (dev s)) (sent fd (encode payload ++ [nl]) (world s))
               = RecvData reply)
    by (rewrite next_recv_sent; apply (recv_whole _ _ reply rest); assumption).
  destruct drv; unfold drv_get.
  - rewrite (get_run_34465a payload s fd Hfd), (next_send_ok _ Hs).
    rewrite (read_run_34465a _ fd) by exact Hfd. cbv zeta. simp_world.
    rewrite Hr. reflexivity.
  - rewrite (get_run_DMM6500 payload s fd Hfd), (next_send_ok _ Hs).
    rewrite (read_run_DMM6500 _ fd) by exact Hfd. cbv zeta. simp_world.
    rewrite Hr. reflexivity.
Qed.

(** One turn of the loop of [send_commands]. *)
Lemma send_commands_step (drv : driver) (cmd : str) (cmds : list str) (s : Session)
      (fd : nat) (reply : bytes) (rest : list recv_outcome) (e : str) :
  sock (dev s) = Some fd -> sends_succeed (world s) ->
  inbound (world s) = RecvData reply :: rest -> len reply <= buffersize (dev s) ->
  error_text reply = Some e ->
  drv_send_commands drv (cmd :: cmds) s =
    if no_error drv e then drv_send_commands drv cmds (checked drv fd cmd s)
    else (checked drv fd cmd s,
          Raise (CommandError (txt "Command Error in send_commands: " ++ cmd ++ txt "," ++ e))).
Proof.
  intros Hfd Hs Hin Hlen He.
  destruct drv; unfold drv_send_commands.
  - unfold M34465a.send_commands. cbn [for_each].
    unfold bind at 1. unfold bind at 1.
    pose proof (write_ok Keysight34465a cmd s fd Hfd Hs) as Hw. unfold drv_write in Hw.
    rewrite Hw. cbn [negb]. unfold bind at 1. unfold ret at 1. unfold bind at 1.
    unfold M34465a.get_error.
    pose proof (get_ok Keysight34465a (txt "SYSTem:ERRor?")
                  (mkSession (with_error None (dev s)) (sent fd (encode cmd ++ [nl]) (world s)))
                  fd reply rest Hfd (sends_succeed_sent fd _ _ Hs) Hin Hlen) as Hg.
    unfold drv_get in Hg. rewrite Hg. cbn [snd].
    unfold error_text in He. run.
    destruct (decode reply) as [t |]; [| discriminate].
    destruct (py_index (split "," t) 1) as [field |]; [| discriminate].
    cbn [option_map] in He. injection He as <-.
    unfold checked, no_error, error_query. simp_world.
    destruct (eqs (strip field) (dq :: txt "No error" ++ [dq])); reflexivity.
  - unfold DMM6500.send_commands. cbn [for_each].
    unfold bind at 1. unfold bind at 1. unfold io at 1, logger at 1, say at 1.
    cbv beta iota. unfold bind at 1.
    assert (Hs0 : sends_succeed (add_out (Log INFO (txt "Sending command: " ++ cmd)) (world s)))
      by auto with script.
    pose proof (write_ok KeithleyDMM6500 (txt ":SYSTem:CLEar")
                  (mkSession (dev s) (add_out (Log INFO (txt "Sending command: " ++ cmd)) (world s)))
                  fd Hfd Hs0) as Hc.
    unfold drv_write in Hc. simp_world. rewrite Hc. cbv beta iota. simp_world.
    unfold bind at 1.
    pose proof (write_ok KeithleyDMM6500 cmd
                  (mkSession (with_error None (dev s))
                     (sent fd (encode (txt ":SYSTem:CLEar") ++ [nl])
                        (add_out (Log INFO (txt "Sending command: " ++ cmd)) (world s))))
                  fd Hfd (sends_succeed_sent fd _ _ Hs0)) as Hw.
    unfold drv_write in Hw. rewrite Hw. cbn [negb]. simp_world.
    unfold bind at 1. unfold ret at 1. unfold bind at 1.
    unfold DMM6500.get_error.
    pose proof (get_ok KeithleyDMM6500 (txt ":SYSTem:ERRor:NEXT?")
                  (mkSession (with_error None (with_error None (dev s)))
                     (sent fd (encode cmd ++ [nl])
                        (sent fd (encode (txt ":SYSTem:CLEar") ++ [nl])
                           (add_out (Log INFO (txt "Sending command: " ++ cmd)) (world s)))))
                  fd reply rest
                  Hfd (sends_succeed_sent fd _ _ (sends_succeed_sent fd _ _ Hs0)) Hin Hlen) as Hg.
    unfold drv_get in Hg. rewrite Hg. cbn [snd].
    unfold error_text in He. run.
    destruct (decode reply) as [t |]; [| discriminate].
    destruct (py_index (split "," t) 1) as [field |]; [| discriminate].
    cbn [option_map] in He. injection He as <-.
    unfold checked, no_error, error_query. simp_world.
    destruct (contains (txt "No error") (strip field)); reflexivity.
Qed.

(** C1: in a checked sequence, when the commands before [cmd] were each
    answered by the sentinel and the error query after [cmd] is answered by
    another text, [send_commands] raises CommandError naming [cmd] and that
    text.  Every command up to [cmd] has been written, each followed by its
    error query (and, in the DMM6500 driver, preceded by the clearing of the
    queue); nothing of the commands after [cmd] is written. *)
Theorem send_commands_fail_fast (drv : driver) (before : list str) (cmd : str)
    (after : list str) (replies : list bytes) (reply : bytes) (error : str)
    (s : Session) (fd : nat) (rest : list recv_outcome) :
  sock (dev s) = Some fd ->
  sends_succeed (world s) ->
  inbound (world s) = map RecvData (replies ++ [reply]) ++ rest ->
  length replies = length before ->
  forallb (clean_reply drv (buffersize (dev s))) replies = true ->
  len reply <= buffersize (dev s) ->
  error_text reply = Some error ->
  no_error drv error = false ->
  snd (drv_send_commands drv (before ++ cmd :: after) s) =
    Raise (CommandError (txt "Command Error in send_commands: " ++ cmd ++ txt "," ++ error)) /\
  written (trace (world (fst (drv_send_commands drv (before ++ cmd :: after) s)))) =
    written (trace (world s)) ++ flat_map (command_writes drv) (before ++ [cmd]) /\
  inbound (world (fst (drv_send_commands drv (before ++ cmd :: after) s))) = rest.
Proof.
  revert replies s. induction before as [|c before IH]; intros replies s Hfd Hs Hin Hlen Hclean
    Hfit Herr Hno; destruct replies as [|r replies]; try discriminate Hlen.
  - cbn [app map] in Hin. cbn [app].
    rewrite (send_commands_step drv cmd after s fd reply rest error Hfd Hs Hin Hfit Herr), Hno.
    destruct (checked_facts drv fd cmd s reply rest Hfd Hs Hin Hfit) as (_ & _ & _ & Hi & Hw).
    cbn [fst snd flat_map]. rewrite app_nil_r. auto.
  - cbn [app map] in Hin. cbn [forallb] in Hclean.
    apply andb_true_iff in Hclean as [Hr Hclean]. unfold clean_reply in Hr.
    apply andb_true_iff in Hr as [Hrfit Hrtext]. apply Z.leb_le in Hrfit.
    destruct (error_text r) as [e |] eqn:He; [| discriminate].
    cbn [app].
    rewrite (send_commands_step drv c (before ++ cmd :: after) s fd r
               (map RecvData (replies ++ [reply]) ++ rest) e Hfd Hs Hin Hrfit He), Hrtext.
    destruct (checked_facts drv fd c s r _ Hfd Hs Hin Hrfit) as (Hfd' & Hb' & Hs' & Hi' & Hw').
    cbv zeta in Hb'.
    assert (Hlen' : length replies = length before) by (injection Hlen; auto).
    destruct (IH replies (checked drv fd c s) Hfd' Hs' Hi' Hlen' Hclean Hfit Herr Hno)
      as (Hres & Hwr & Hrest).
    split; [exact Hres | split; [| exact Hrest]].
    rewrite Hwr, Hw'. cbn [flat_map]. rewrite <- app_assoc. reflexivity.
Qed.

(** ** The status register *)

Lemma land_bit (v bit : Z) :
  0 <= bit -> negb (Z.land v (Z.shiftl 1 bit) =? 0) = Z.testbit v bit.
Proof.
  intros Hb. rewrite Z.shiftl_1_l.
  destruct (Z.testbit v bit) eqn:Ht.
  - apply negb_true_iff, Z.eqb_neq. intros H0.
    assert (Hx : Z.testbit (Z.land v (2 ^ bit)) bit = true)
      by (rewrite Z.land_spec, Ht, Z.pow2_bits_true by exact Hb; reflexivity).
    rewrite H0, Z.bits_0 in Hx. discriminate.
  - apply negb_false_iff, Z.eqb_eq. apply Z.bits_inj'. intros m Hm.
    rewrite Z.land_spec, Z.bits_0, Z.pow2_bits_eqb by exact Hb.
    destruct (Z.eqb_spec bit m) as [-> | _]; [rewrite Ht |]; apply andb_false_r || reflexivity.
Qed.

Lemma split_hd (sep : ascii) (s : str) : py_index (split sep s) 0 = Some (hd [] (split sep s)).
Proof.
  assert (H : exists w ws, split sep s = w :: ws).
  { destruct s as [|c r]; cbn [split]; [eauto |].
    destruct (Ascii.eqb c sep); [eauto |]. destruct (split sep r); eauto. }
  destruct H as (w & ws & ->). unfold py_index. rewrite len_cons.
  pose proof (len_nonneg ws).
  change (0 <? 0) with false. cbv iota.
  replace ((0 <=? 0) && (0 <? 1 + len ws)) with true
    by (symmetry; apply andb_true_iff; split; [reflexivity | apply Z.ltb_lt; lia]).
  reflexivity.
Qed.

Lemma poll_run (s : Session) (fd : nat) (o : recv_outcome) (q : list recv_outcome) :
  sock (dev s) = Some fd -> sends_succeed (world s) ->
  inbound (world s) = o :: q ->
  match o with RecvData reply => len reply <= buffersize (dev s) | _ => True end ->
  next_recv (buffersize (dev s)) (world s) = o /\
  inbound (world (polled fd s)) = q /\
  forall b : option bool,
    match o with
    | RecvData reply => option_map Some (reg_bit 4 reply) = Some b
    | _ => b = None
    end ->
    M34465a.get_std_op_reg_bit 4 s = (polled fd s, Ok b).
Proof.
  intros Hfd Hs Hin Hfit.
  assert (Ho : next_recv (buffersize (dev s)) (world s) = o /\
               after_recv (buffersize (dev s)) (world s) = q).
  { destruct o as [reply | |].
    - apply (recv_whole _ _ reply q); assumption.
    - unfold next_recv, after_recv. rewrite Hin. split; reflexivity.
    - unfold next_recv, after_recv. rewrite Hin. split; reflexivity. }
  destruct Ho as [Ho Hq]. split; [exact Ho | split; [exact Hq |]].
  intros b Hb.
  unfold M34465a.get_std_op_reg_bit. change (4 <? 0) with false. cbv iota.
  unfold bind at 1. unfold ret at 1. unfold try_except. unfold bind at 1.
  unfold M34465a.get_std_op_reg.
  rewrite (get_run_34465a _ s fd Hfd), (next_send_ok _ Hs).
  rewrite (read_run_34465a _ fd) by exact Hfd. cbv zeta. simp_world.
  unfold polled. fold status_query. rewrite next_recv_sent, Ho.
  destruct o as [reply | |].
  - cbn [snd]. unfold reg_bit in Hb. run.
    destruct (decode reply) as [t |]; [| discriminate].
    rewrite split_hd. destruct (int_of_str (hd [] (split nl t))) as [v |]; [| discriminate].
    cbn [option_map] in Hb. injection Hb as <-.
    rewrite land_bit by lia. reflexivity.
  - subst b. reflexivity.
  - subst b. reflexivity.
Qed.

Lemma trace_polled (fd : nat) (s : Session) (o : recv_outcome) :
  sends_succeed (world s) -> next_recv (buffersize (dev s)) (world s) = o ->
  trace (world (polled fd s)) = trace (world s) ++ poll_events fd (buffersize (dev s)) o.
Proof.
  intros Hs Ho. unfold polled. cbv zeta. simp_world.
  rewrite trace_received, trace_sent, next_recv_sent, Ho, (next_send_ok _ Hs), <- app_assoc.
  reflexivity.
Qed.

Lemma sends_succeed_polled (fd : nat) (s : Session) :
  sends_succeed (world s) -> sends_succeed (world (polled fd s)).
Proof. intros Hs. unfold polled. cbv zeta. simp_world. auto with script. Qed.

(** The polling loop over a script: it goes on after every read in [busy],
    sleeping one second each time, and stops at the reply [idle]. *)
Lemma wait_measuring_run (fd : nat) (n : Z) (idle : bytes) (rest : list recv_outcome)
      (busy : list recv_outcome) :
  forall (s : Session) (fuel : nat),
    sock (dev s) = Some fd -> buffersize (dev s) = n -> sends_succeed (world s) ->
    inbound (world s) = busy ++ RecvData idle :: rest ->
    forallb (keeps_waiting n) busy = true ->
    len idle <= n -> reg_bit 4 idle = Some false ->
    (length busy < fuel)%nat ->
    exists s' : Session,
      M34465a.wait_measuring fuel 4 s = (s', Ok tt) /\
      sock (dev s') = Some fd /\ buffersize (dev s') = n /\
      sends_succeed (world s') /\ inbound (world s') = rest /\
      trace (world s') =
        trace (world s) ++
        flat_map (fun o => poll_events fd n o ++ [EvSleep 1]) busy ++
        poll_events fd n (RecvData idle).
Proof.
  induction busy as [|o busy IH]; intros s fuel Hfd Hn Hs Hin Hbusy Hfit Hidle Hfuel;
    (destruct fuel as [|fuel]; [lia |]); cbn [app] in Hin; cbn [M34465a.wait_measuring].
  - destruct (poll_run s fd (RecvData idle) rest Hfd Hs Hin) as (Ho & Hq & Hrun);
      [rewrite Hn; exact Hfit |].
    unfold bind. rewrite (Hrun (Some false)) by (rewrite Hidle; reflexivity).
    exists (polled fd s). repeat split; try assumption.
    + apply sends_succeed_polled; exact Hs.
    + rewrite (trace_polled fd s _ Hs Ho), Hn. reflexivity.
  - cbn [forallb] in Hbusy. apply andb_true_iff in Hbusy as [Hk Hbusy].
    assert (Hofit : match o with
                    | RecvData reply => len reply <= buffersize (dev s)
                    | _ => True
                    end).
    { destruct o as [reply | |]; [| exact I | exact I]. cbn [keeps_waiting] in Hk.
      apply andb_true_iff in Hk as [Hk _]. apply Z.leb_le in Hk. rewrite Hn. exact Hk. }
    destruct (poll_run s fd o (busy ++ RecvData idle :: rest) Hfd Hs Hin Hofit)
      as (Ho & Hq & Hrun).
    set (s2 := mkSession (dev (polled fd s)) (add_event (EvSleep 1) (world (polled fd s)))).
    assert (Hstep : M34465a.wait_measuring (S fuel) 4 s = M34465a.wait_measuring fuel 4 s2).
    { cbn [M34465a.wait_measuring]. unfold bind at 1.
      destruct o as [reply | |].
      - cbn [keeps_waiting] in Hk. apply andb_true_iff in Hk as [_ Hk].
        destruct (reg_bit 4 reply) as [[|] |] eqn:Hreg; try discriminate Hk.
        rewrite (Hrun (Some true)) by reflexivity. reflexivity.
      - rewrite (Hrun None) by reflexivity. reflexivity.
      - rewrite (Hrun None) by reflexivity. reflexivity. }
    change (bit <- M34465a.get_std_op_reg_bit 4;;
            match bit with
            | Some false => ret tt
            | _ => io (sleep 1);; M34465a.wait_measuring fuel 4
            end) with (M34465a.wait_measuring (S fuel) 4).
    rewrite Hstep.
    assert (Hs2 : sends_succeed (world s2))
      by (apply sends_succeed_add_event, sends_succeed_polled; exact Hs).
    assert (Hfuel' : (length busy < fuel)%nat) by (cbn [length] in Hfuel; lia).
    destruct (IH s2 fuel Hfd Hn Hs2 Hq Hbusy Hfit Hidle Hfuel')
      as (s' & Hr & Hfd' & Hn' & Hs' & Hi' & Ht').
    exists s'. repeat split; try assumption.
    rewrite Ht'. unfold s2. simp_world.
    rewrite (trace_polled fd s _ Hs Ho), Hn. cbn [flat_map].
    rewrite <- !app_assoc. reflexivity.
Qed.

Lemma polls_app (t u : list event) : polls (t ++ u) = (polls t + polls u)%nat.
Proof. unfold polls. rewrite filter_app, length_app. reflexivity. Qed.

Lemma polls_busy (fd : nat) (n : Z) (busy : list recv_outcome) :
  polls (flat_map (fun o => poll_events fd n o ++ [EvSleep 1]) busy) = length busy.
Proof.
  induction busy as [|o busy IH]; [reflexivity |].
  cbn [flat_map length]. rewrite polls_app, IH. reflexivity.
Qed.



(** ** Reassembly of a screen dump *)

Lemma app_prefix_split {A} (p a b q : list A) :
  a ++ b = p ++ q -> (length p <= length a)%nat ->
  exists x, a = p ++ x /\ q = x ++ b.
Proof.
  revert a. induction p as [|y p IH]; intros a H Hlen.
  - exists a. split; [reflexivity | symmetry; exact H].
  - destruct a as [|z a]; [cbn in Hlen; lia |].
    cbn [app] in H. injection H as -> H.
    destruct (IH a H) as (x & -> & ->); [cbn in Hlen; lia |].
    exists x. split; reflexivity.
Qed.

Lemma len_concat_cons {A} (c : list A) (cs : list (list A)) :
  len (concat (c :: cs)) = len c + len (concat cs).
Proof. cbn [concat]. apply len_app. Qed.

(** The loop of [get_screen_dump] while the declared size is not reached:
    every chunk of [init] is read and appended. *)
Lemma recv_rest_more (fd : nat) (file_size : Z) (q : list recv_outcome) (init : list bytes) :
  forall (buff : bytes) (s : Session) (fuel : nat),
    sock (dev s) = Some fd ->
    inbound (world s) = map RecvData init ++ q ->
    forallb (fits 256) init = true ->
    len buff + len (concat init) < file_size ->
    exists s' : Session,
      M34465a.recv_rest (length init + fuel) file_size buff s =
        M34465a.recv_rest fuel file_size (buff ++ concat init) s' /\
      sock (dev s') = Some fd /\ inbound (world s') = q /\
      files (world s') = files (world s).
Proof.
  induction init as [|c init IH]; intros buff s fuel Hfd Hin Hfits Hlt.
  - exists s. cbn [length concat Nat.add]. rewrite app_nil_r. auto.
  - cbn [forallb] in Hfits. apply andb_true_iff in Hfits as [Hc Hfits].
    unfold fits in Hc. apply andb_true_iff in Hc as [Hc1 Hc2].
    apply Z.leb_le in Hc1, Hc2.
    rewrite len_concat_cons in Hlt. pose proof (len_nonneg (concat init)).
    cbn [map app] in Hin.
    destruct (recv_whole (world s) 256 c _ Hin Hc2) as [Hn Ha].
    set (s1 := mkSession (dev s) (received fd 256 (world s))).
    destruct (IH (buff ++ c) s1 fuel) as (s' & Hrun & Hfd' & Hi' & Hf'); try assumption.
    + rewrite len_app. lia.
    + exists s'. split; [| auto].
      cbn [length Nat.add M34465a.recv_rest].
      replace (len buff <? file_size) with true by (symmetry; apply Z.ltb_lt; lia).
      run. rewrite Hfd. cbv beta iota. fold (received fd 256 (world s)). rewrite Hn.
      fold s1. rewrite Hrun. cbn [concat]. rewrite app_assoc. reflexivity.
Qed.

Lemma recv_rest_done (fuel : nat) (file_size : Z) (buff : bytes) (s : Session) :
  file_size <= len buff ->
  M34465a.recv_rest (S fuel) file_size buff s = (s, Ok buff).
Proof.
  intros H. cbn [M34465a.recv_rest].
  replace (len buff <? file_size) with false by (symmetry; apply Z.ltb_ge; exact H).
  reflexivity.
Qed.

Lemma well_framed_facts (ldigits payload : bytes) :
  well_framed ldigits payload = true ->
  1 <= len ldigits <= 9 /\ ldigits <> [] /\ all_digits ldigits = true /\
  decimal ldigits = len payload /\ len (block_header ldigits) = 2 + len ldigits.
Proof.
  unfold well_framed. intros H.
  apply andb_true_iff in H as [H H4]. apply andb_true_iff in H as [H H3].
  apply andb_true_iff in H as [H1 H2].
  apply Z.leb_le in H1, H2. apply Z.eqb_eq in H4.
  repeat split; try assumption.
  - intros ->. cbn in H1. lia.
  - unfold block_header. rewrite !len_cons. lia.
Qed.

Lemma header_index (ldigits x : bytes) :
  py_index (block_header ldigits ++ x) 1 = Some (chr (48 + len ldigits)).
Proof. unfold block_header. cbn [app]. apply py_index_second. Qed.

Lemma header_count (ldigits x : bytes) :
  py_slice (block_header ldigits ++ x) (Some 1) (Some 2) = [chr (48 + len ldigits)].
Proof.
  exact (py_slice_app_mid ["#"%char] [chr (48 + len ldigits)] (ldigits ++ x)).
Qed.

Lemma header_field (ldigits x : bytes) :
  py_slice (block_header ldigits ++ x) (Some 2) (Some (len ldigits + 2)) = ldigits.
Proof.
  replace (len ldigits + 2) with (len ["#"%char; chr (48 + len ldigits)] + len ldigits)
    by (change (len ["#"%char; chr (48 + len ldigits)]) with 2; lia).
  exact (py_slice_app_mid ["#"%char; chr (48 + len ldigits)] ldigits x).
Qed.

Lemma header_rest (ldigits x : bytes) :
  py_slice (block_header ldigits ++ x) (Some (2 + len ldigits)) None = x.
Proof.
  replace (2 + len ldigits) with (len (block_header ldigits))
    by (unfold block_header; rewrite !len_cons; lia).
  apply py_slice_app_from.
Qed.

(** C2 (as the code has it): [get_screen_dump] decodes the header from its
    first read and then reads on, appending, until the declared length is
    reached; what it stores is what it has less the last byte.  When the
    first read brings the whole header, and the read that completes the
    payload brings the terminator along, the file holds exactly the payload,
    however the bytes are split otherwise. *)
Theorem get_screen_dump_reassembles (fuel : nat) (filename : str) (ldigits payload : bytes)
    (chunks : list bytes) (rest : list recv_outcome) (s : Session) (fd : nat) :
  sock (dev s) = Some fd ->
  sends_succeed (world s) ->
  well_framed ldigits payload = true ->
  concat chunks = framed ldigits payload ->
  forallb (fits 256) chunks = true ->
  2 + len ldigits <= len (hd [] chunks) ->
  2 <= len (last chunks []) ->
  inbound (world s) = map RecvData chunks ++ rest ->
  (length chunks < fuel)%nat ->
  snd (M34465a.get_screen_dump fuel filename s) = Ok true /\
  files (world (fst (M34465a.get_screen_dump fuel filename s))) =
    fs_store filename payload (files (world s)) /\
  inbound (world (fst (M34465a.get_screen_dump fuel filename s))) = rest.
Proof.
  intros Hfd Hs Hwf Hcat Hfits Hhd Hlast Hin Hfuel.
  destruct (well_framed_facts _ _ Hwf) as (Hd & Hne & Hdig & Hval & Hhlen).
  destruct chunks as [|c1 cs].
  { cbn [hd] in Hhd. change (len []) with 0 in Hhd. lia. }
  cbn [hd] in Hhd. cbn [concat] in Hcat. unfold framed in Hcat.
  destruct (app_prefix_split (block_header ldigits) c1 (concat cs) (payload ++ [nl]) Hcat)
    as (x & Hc1 & Hx).
  { unfold len in Hhlen, Hhd. lia. }
  cbn [forallb] in Hfits. apply andb_true_iff in Hfits as [Hf1 Hfits].
  unfold fits in Hf1. apply andb_true_iff in Hf1 as [_ Hf1]. apply Z.leb_le in Hf1.
  cbn [map app] in Hin.
  set (s0 := mkSession (with_error None (dev s))
               (sent fd (encode (txt "HCOPy:SDUMp:DATA?") ++ [nl]) (world s))).
  assert (Hin0 : inbound (world s0) = RecvData c1 :: map RecvData cs ++ rest) by exact Hin.
  destruct (recv_whole (world s0) 256 c1 _ Hin0 Hf1) as [Hn Ha].
  set (s1 := mkSession (dev s0) (received fd 256 (world s0))).
  (* the rest of the block *)
  assert (Hloop : exists s2 : Session,
    M34465a.recv_rest fuel (len payload) x s1 = (s2, Ok (payload ++ [nl])) /\
    inbound (world s2) = rest /\ files (world s2) = files (world s)).
  { destruct cs as [|c2 cs'] using rev_ind.
    - cbn [concat] in Hx. rewrite app_nil_r in Hx. subst x.
      destruct fuel as [|fuel]; [cbn in Hfuel; lia |].
      exists s1. rewrite recv_rest_done by (rewrite len_app; change (len [nl]) with 1; lia).
      auto.
    - clear IHcs'. rewrite concat_app in Hx. cbn [concat] in Hx. rewrite app_nil_r in Hx.
      rewrite forallb_app in Hfits. apply andb_true_iff in Hfits as [Hinit Hc2].
      cbn [forallb] in Hc2. rewrite andb_true_r in Hc2.
      assert (Hl : last (c1 :: cs' ++ [c2]) [] = c2)
        by (change (c1 :: cs' ++ [c2]) with ((c1 :: cs') ++ [c2]); apply last_last).
      rewrite Hl in Hlast.
      assert (Hlen : len x + len (concat cs') + len c2 = len payload + 1).
      { rewrite <- !len_app, <- app_assoc, <- Hx, len_app. reflexivity. }
      rewrite map_app, <- app_assoc in Ha. cbn [map app] in Ha.
      cbn [length] in Hfuel. rewrite length_app in Hfuel. cbn [length] in Hfuel.
      destruct (recv_rest_more fd (len payload) (RecvData c2 :: rest) cs' x s1
                  (fuel - length cs')) as (s2 & Hrun & Hfd2 & Hi2 & Hf2);
        [exact Hfd | exact Ha | exact Hinit | lia |].
      replace (length cs' + (fuel - length cs'))%nat with fuel in Hrun by lia.
      unfold fits in Hc2. apply andb_true_iff in Hc2 as [_ Hc2]. apply Z.leb_le in Hc2.
      destruct (recv_whole (world s2) 256 c2 rest Hi2 Hc2) as [Hn2 Ha2].
      exists (mkSession (dev s2) (received fd 256 (world s2))).
      rewrite Hrun.
      destruct (fuel - length cs')%nat as [|[|f]] eqn:Hfl; [lia | lia |].
      cbn [M34465a.recv_rest].
      replace (len (x ++ concat cs') <? len payload) with true
        by (symmetry; apply Z.ltb_lt; rewrite len_app; lia).
      run. rewrite Hfd2. cbv beta iota. fold (received fd 256 (world s2)). rewrite Hn2.
      replace (len ((x ++ concat cs') ++ c2) <? len payload) with false
        by (symmetry; apply Z.ltb_ge; rewrite !len_app; lia).
      rewrite <- app_assoc, <- Hx. simp_world. auto. }
  destruct Hloop as (s2 & Hrun & Hi2 & Hf2).
  assert (Hgo : M34465a.get_screen_dump fuel filename s =
    (mkSession (dev s2) (set_files (fs_store filename payload (files (world s2))) (world s2)),
     Ok true)).
  { unfold M34465a.get_screen_dump.
    pose proof (write_ok Keysight34465a (txt "HCOPy:SDUMp:DATA?") s fd Hfd Hs) as Hw.
    unfold drv_write in Hw. fold s0 in Hw. step Hw. cbv iota.
    step (the_sock_run s0 fd Hfd). step (recv_run s0 fd 256 c1 Hn). fold s1.
    rewrite Hc1, header_index.
    step (of_option_some (S := Session) IndexError (chr (48 + len ldigits)) s1).
    rewrite (digit_count_char (len ldigits) Hd).
    step (of_option_some (S := Session) ValueError (len ldigits) s1).
    rewrite header_field, (int_of_bytes_digits ldigits Hne Hdig), Hval.
    step (of_option_some (S := Session) ValueError (len payload) s1).
    rewrite header_rest. step Hrun.
    rewrite py_slice_drop_last. reflexivity. }
  rewrite Hgo. simp_world. rewrite Hf2. auto.
Qed.

(** ** Files *)

Lemma fs_lookup_store (name : str) (content : list ascii) (fs : list (str * list ascii)) :
  fs_lookup name (fs_store name content fs) = Some content.
Proof.
  induction fs as [|[n c] fs IH]; cbn [fs_store fs_lookup].
  - rewrite eqs_refl. reflexivity.
  - destruct (eqs n name) eqn:E; cbn [fs_lookup]; rewrite E; [reflexivity | exact IH].
Qed.

Lemma file_text_append (name : str) (text : list ascii) (fs : list (str * list ascii)) :
  file_text name (fs_append name text fs) = file_text name fs ++ text.
Proof. unfold file_text at 1, fs_append. rewrite fs_lookup_store. reflexivity. Qed.

Lemma file_text_stored (name : str) (data : list str) (fs : list (str * list ascii)) :
  file_text name (stored_lines name data fs) = file_text name fs ++ lines data.
Proof.
  unfold stored_lines.
  assert (H : forall fs0, file_text name
              (fold_left (fun fs1 dp => fs_append name (dp ++ [nl]) fs1) data fs0)
            = file_text name fs0 ++ lines data).
  { induction data as [|dp data IH]; intros fs0; cbn [fold_left].
    - unfold lines. cbn. rewrite app_nil_r. reflexivity.
    - rewrite IH, file_text_append. unfold lines. cbn [map concat].
      rewrite <- app_assoc. reflexivity. }
  rewrite H, file_text_append, app_nil_r. reflexivity.
Qed.

Lemma append_lines_run (name : str) (data : list str) (d : ScpiDevice) (w : World)
      (fs : list (str * list ascii)) :
  for_each data (fun data_point => io (file_append name (data_point ++ [nl])))
    (mkSession d (set_files fs w)) =
  (mkSession d (set_files
     (fold_left (fun fs data_point => fs_append name (data_point ++ [nl]) fs) data fs) w),
   Ok tt).
Proof.
  revert fs. induction data as [|dp data IH]; intros fs; cbn [for_each fold_left].
  - reflexivity.
  - unfold bind. unfold io at 1, file_append. simp_world.
    change (set_files (fs_append name (dp ++ [nl]) fs) (set_files fs w))
      with (set_files (fs_append name (dp ++ [nl]) fs) w).
    apply IH.
Qed.

Lemma store_lines_run (name : str) (data : list str) (s : Session) :
  (io (file_append name []) ;;
   for_each data (fun data_point => io (file_append name (data_point ++ [nl])))) s =
  (mkSession (dev s) (set_files (stored_lines name data (files (world s))) (world s)), Ok tt).
Proof.
  exact (append_lines_run name data (dev s) (world s) (fs_append name [] (files (world s)))).
Qed.

Lemma store_lines_then {A} (name : str) (data : list str) (k : M Session A) (s : Session) :
  (io (file_append name []) ;;
   for_each data (fun data_point => io (file_append name (data_point ++ [nl]))) ;;
   k) s =
  k (mkSession (dev s) (set_files (stored_lines name data (files (world s))) (world s))).
Proof.
  pose proof (store_lines_run name data s) as H. unfold bind in *.
  unfold io at 1, file_append at 1. unfold io at 1, file_append at 1 in H.
  cbv beta iota in *.
  destruct (for_each data _ _) as [s' r]. injection H as -> ->. reflexivity.
Qed.

(** ** Blocks of readings *)

Lemma endswith_nl (s : bytes) : endswith (s ++ [nl]) [nl] = true.
Proof. unfold endswith. rewrite rev_app_distr. reflexivity. Qed.

Lemma strip_line (t : str) :
  t <> [] -> forallb (fun c => negb (str_space c)) t = true -> strip (t ++ [nl]) = t.
Proof.
  intros Hne Hns. destruct t as [|a t]; [congruence |].
  cbn [forallb] in Hns. apply andb_true_iff in Hns as [Ha Ht]. apply negb_true_iff in Ha.
  destruct t as [|c t'] using rev_ind.
  - exact (strip_with_single str_space a [nl] Ha eq_refl).
  - rewrite forallb_app in Ht. apply andb_true_iff in Ht as [_ Hc].
    cbn [forallb] in Hc. rewrite andb_true_r in Hc. apply negb_true_iff in Hc.
    cbn [app]. rewrite <- app_assoc.
    exact (strip_with_core str_space a t' [nl] c Ha Hc eq_refl).
Qed.

Lemma forallb_impl {A} (f g : A -> bool) (l : list A) :
  (forall x, f x = true -> g x = true) -> forallb f l = true -> forallb g l = true.
Proof.
  intros H. induction l as [|x l IH]; cbn [forallb]; [reflexivity |].
  intros Hl. apply andb_true_iff in Hl as [Hx Hl]. rewrite (H x Hx), (IH Hl). reflexivity.
Qed.

Lemma forallb_join (f : ascii -> bool) (sep : ascii) (l : list str) :
  f sep = true -> forallb (forallb f) l = true -> forallb f (join sep l) = true.
Proof.
  intros Hsep. induction l as [|w ws IH]; [reflexivity |].
  cbn [forallb]. intros H. apply andb_true_iff in H as [Hw Hws].
  destruct ws as [|w2 ws']; [exact Hw |].
  change (join sep (w :: w2 :: ws')) with (w ++ sep :: join sep (w2 :: ws')).
  rewrite forallb_app. cbn [forallb]. rewrite Hw, Hsep, (IH Hws). reflexivity.
Qed.

Lemma digit_is_text (c : ascii) :
  is_digit c = true -> is_ascii7 c = true /\ str_space c = false.
Proof.
  destruct c as [[|] [|] [|] [|] [|] [|] [|] [|]];
    intros H; try discriminate H; split; reflexivity.
Qed.

Lemma header_is_text (ldigits : bytes) :
  1 <= len ldigits <= 9 -> all_digits ldigits = true ->
  forallb (fun c => is_ascii7 c && negb (str_space c)) (block_header ldigits) = true.
Proof.
  intros Hd Hdig. unfold block_header. cbn [forallb].
  assert (E : len ldigits = 1 \/ len ldigits = 2 \/ len ldigits = 3 \/ len ldigits = 4 \/
              len ldigits = 5 \/ len ldigits = 6 \/ len ldigits = 7 \/ len ldigits = 8 \/
              len ldigits = 9) by lia.
  assert (Hc : is_ascii7 (chr (48 + len ldigits)) && negb (str_space (chr (48 + len ldigits)))
               = true)
    by (repeat (destruct E as [-> | E]; [reflexivity |]); rewrite E; reflexivity).
  rewrite Hc. cbn [andb].
  apply (forallb_impl is_digit); [| exact Hdig].
  intros c Hdc. destruct (digit_is_text c Hdc) as [-> ->]. reflexivity.
Qed.

Lemma readings_ok_facts (ldigits : bytes) (samples : list str) :
  readings_ok ldigits samples = true ->
  1 <= len ldigits <= 9 /\ ldigits <> [] /\ all_digits ldigits = true /\
  decimal ldigits <> 0 /\ samples <> [] /\ forallb reading samples = true /\
  len (readings_block ldigits samples) <= M34465a.buff_len.
Proof.
  unfold readings_ok. intros H.
  repeat (apply andb_true_iff in H as [H ?]).
  repeat match goal with
         | H : (_ <=? _) = true |- _ => apply Z.leb_le in H
         | H : negb _ = true |- _ => apply negb_true_iff in H
         | H : (_ =? _) = false |- _ => apply Z.eqb_neq in H
         end.
  repeat split; try assumption.
  - intros ->. cbn in H. lia.
  - intros ->. discriminate.
Qed.

Lemma body_is_text (samples : list str) :
  forallb reading samples = true ->
  forallb (fun c => is_ascii7 c && negb (str_space c)) (join "," samples) = true.
Proof.
  intros H. apply forallb_join; [reflexivity |].
  apply (forallb_impl reading); [| exact H].
  intros w Hw. apply (forallb_impl (fun c => is_ascii7 c && negb (str_space c)
                                             && negb (Ascii.eqb c ","))); [| exact Hw].
  intros c Hc. apply andb_true_iff in Hc as [Hc _]. exact Hc.
Qed.

Lemma samples_free (samples : list str) :
  forallb reading samples = true -> forallb (free_of ",") samples = true.
Proof.
  apply forallb_impl. intros w Hw. unfold free_of.
  apply (forallb_impl (fun c => is_ascii7 c && negb (str_space c)
                                && negb (Ascii.eqb c ","))); [| exact Hw].
  intros c Hc. apply andb_true_iff in Hc as [_ Hc]. exact Hc.
Qed.

(** What [read_data] makes of a block of readings that it holds whole. *)
Lemma readings_block_parsed (ldigits : bytes) (samples : list str) :
  readings_ok ldigits samples = true ->
  let block := readings_block ldigits samples in
  endswith block [nl] = true /\ eqs block [] = false /\
  M34465a.parse_block_header block =
    Ok (len ldigits + 2, decimal ldigits, len (join "," samples)) /\
  exists t : str,
    decode block = Some t /\
    split "," (py_slice (strip t) (Some (len ldigits + 2)) None) = samples.
Proof.
  intros Hok. destruct (readings_ok_facts _ _ Hok) as (Hd & Hne & Hdig & Hnz & Hsne & Hr & Hfit).
  cbv zeta. unfold readings_block, framed.
  assert (Htext : forallb (fun c => is_ascii7 c && negb (str_space c))
                    (block_header ldigits ++ join "," samples) = true)
    by (rewrite forallb_app, (header_is_text _ Hd Hdig), (body_is_text _ Hr); reflexivity).
  split; [| split; [| split]].
  - rewrite app_assoc. apply endswith_nl.
  - reflexivity.
  - unfold M34465a.parse_block_header.
    rewrite header_count, (digit_count_byte _ Hd), header_field,
      (int_of_bytes_digits _ Hne Hdig).
    rewrite (app_assoc (block_header ldigits)), py_slice_last.
    change (eqs [nl] [nl]) with true. cbv iota.
    rewrite <- app_assoc.
    replace (len ldigits + 2) with (len (block_header ldigits))
      by (unfold block_header; rewrite !len_cons; lia).
    rewrite py_slice_app_mid_last. reflexivity.
  - exists ((block_header ldigits ++ join "," samples) ++ [nl]).
    split.
    + rewrite <- app_assoc. apply decode_ascii.
      rewrite app_assoc, forallb_app.
      rewrite (forallb_impl _ is_ascii7 _ (fun c H => proj1 (andb_prop _ _ H)) Htext).
      reflexivity.
    + rewrite strip_line.
      * rewrite Z.add_comm, header_rest. apply split_join; [exact Hsne |].
        apply samples_free; exact Hr.
      * unfold block_header. discriminate.
      * apply (forallb_impl (fun c => is_ascii7 c && negb (str_space c))); [| exact Htext].
        intros c Hc. apply andb_true_iff in Hc as [_ Hc]. exact Hc.
Qed.

Lemma request_text : txt "R? " ++ str_of_Z M34465a.buff_len = txt "R? 160256".
Proof. reflexivity. Qed.

Lemma recv_block_whole (fuel : nat) (s : Session) (fd : nat) (block : bytes)
      (rest : list recv_outcome) :
  sock (dev s) = Some fd ->
  inbound (world s) = RecvData block :: rest -> len block <= M34465a.buff_len ->
  endswith block [nl] = true -> (2 <= fuel)%nat ->
  M34465a.recv_block fuel M34465a.buff_len [] s =
    (mkSession (dev s) (received fd M34465a.buff_len (world s)), Ok block).
Proof.
  intros Hfd Hin Hfit Hend Hfuel.
  destruct fuel as [|[|fuel]]; try lia.
  destruct (recv_whole (world s) _ block rest Hin Hfit) as [Hn _].
  cbn [M34465a.recv_block]. change (negb (endswith [] [nl])) with true. cbv iota.
  step (the_sock_run s fd Hfd). step (recv_run s fd M34465a.buff_len block Hn).
  rewrite Hend. reflexivity.
Qed.

Lemma read_chunk_block (fuel : nat) (filename : str) (data_count : Z) (s : Session) (fd : nat)
      (ldigits : bytes) (samples : list str) (rest : list recv_outcome) :
  sock (dev s) = Some fd -> sends_succeed (world s) ->
  inbound (world s) = RecvData (readings_block ldigits samples) :: rest ->
  readings_ok ldigits samples = true -> (2 <= fuel)%nat ->
  M34465a.read_chunk fuel filename data_count s =
    (drained fd filename ldigits samples s, Ok (data_count + len samples)).
Proof.
  intros Hfd Hs Hin Hok Hfuel.
  destruct (readings_ok_facts _ _ Hok) as (_ & _ & _ & Hnz & _ & _ & Hfit).
  destruct (readings_block_parsed _ _ Hok) as (Hend & Hnonempty & Hparse & t & Hdec & Hsplit).
  cbv zeta in Hend, Hnonempty, Hparse, Hdec.
  unfold M34465a.read_chunk. rewrite request_text.
  pose proof (write_ok Keysight34465a (txt "R? 160256") s fd Hfd Hs) as Hw.
  unfold drv_write in Hw. fold chunk_request in Hw. step Hw.
  set (s0 := mkSession (with_error None (dev s)) (sent fd chunk_request (world s))).
  assert (Hrecv : try_except (M34465a.recv_block fuel M34465a.buff_len [])
            (fun e => match e with
                      | SocketTimeout =>
                          Some (io (print (txt "Socket timeout waiting for block data."));;
                                M34465a.connect;; ret [])
                      | _ => None
                      end) s0 =
          (mkSession (dev s0) (received fd M34465a.buff_len (world s0)),
           Ok (readings_block ldigits samples))).
  { unfold try_except.
    rewrite (recv_block_whole fuel s0 fd _ rest Hfd Hin Hfit Hend Hfuel). reflexivity. }
  step Hrecv. rewrite Hnonempty. cbv iota.
  assert (Hp : of_result (M34465a.parse_block_header (readings_block ldigits samples))
                 (mkSession (dev s0) (received fd M34465a.buff_len (world s0))) =
               (mkSession (dev s0) (received fd M34465a.buff_len (world s0)),
                Ok (len ldigits + 2, decimal ldigits, len (join "," samples))))
    by (rewrite Hparse; reflexivity).
  step Hp. cbv iota.
  replace (negb (decimal ldigits =? 0)) with true
    by (symmetry; apply negb_true_iff, Z.eqb_neq; exact Hnz).
  unfold drained. fold s0.
  destruct (decimal ldigits =? len (join "," samples)); cbn [negb].
  - step (eq_refl : ret tt (mkSession (dev s0) (received fd M34465a.buff_len (world s0)))
                    = (_, Ok tt)).
    rewrite Hdec. step (of_option_some (S := Session) UnicodeDecodeError t
                          (mkSession (dev s0) (received fd M34465a.buff_len (world s0)))).
    rewrite Hsplit, store_lines_then. reflexivity.
  - unfold bind at 1. unfold io at 1, logger at 1, say at 1. cbv beta iota.
    rewrite Hdec. unfold bind at 1, of_option at 1, ret at 1.
    rewrite Hsplit, store_lines_then. reflexivity.
Qed.

(** ** The incremental drain *)

Lemma requests_app (t u : list event) : requests (t ++ u) = (requests t + requests u)%nat.
Proof. unfold requests. rewrite filter_app, length_app. reflexivity. Qed.

(** A read that times out after fragments: the inner loop of [read_data]
    ends with the timeout, and only reads have happened. *)
Lemma recv_block_times_out (fd : nat) (rest : list recv_outcome) (fragments : list bytes) :
  forall (block : bytes) (s : Session) (fuel : nat),
    sock (dev s) = Some fd ->
    endswith block [nl] = false ->
    inbound (world s) = map RecvData fragments ++ RecvTimeout :: rest ->
    arrival_ok (TimedOut fragments) = true ->
    (length fragments < fuel)%nat ->
    exists w' : World,
      M34465a.recv_block fuel M34465a.buff_len block s = (mkSession (dev s) w', Raise SocketTimeout) /\
      inbound w' = rest /\ connects w' = connects (world s) /\ sends w' = sends (world s) /\
      files w' = files (world s) /\ next_fd w' = next_fd (world s) /\
      requests (trace w') = requests (trace (world s)) /\
      connect_attempts (trace w') = connect_attempts (trace (world s)).
Proof.
  induction fragments as [|f fragments IH]; intros block s fuel Hfd Hend Hin Hok Hfuel;
    (destruct fuel as [|fuel]; [cbn in Hfuel; lia |]);
    cbn [M34465a.recv_block]; rewrite Hend; cbn [negb]; cbn [map app] in Hin.
  - exists (received fd M34465a.buff_len (world s)).
    step (the_sock_run s fd Hfd).
    assert (Hn : next_recv M34465a.buff_len (world s) = RecvTimeout)
      by (unfold next_recv; rewrite Hin; reflexivity).
    split.
    + unfold bind, io, sock_recv. fold (received fd M34465a.buff_len (world s)).
      rewrite Hn. reflexivity.
    + unfold received. simp_world. rewrite requests_app, connect_attempts_app.
      unfold after_recv. rewrite Hin. cbn. repeat split; lia.
  - cbn [arrival_ok forallb] in Hok. apply andb_true_iff in Hok as [Hf Hok].
    apply andb_true_iff in Hf as [Hfend Hffit].
    apply negb_true_iff in Hfend. apply Z.leb_le in Hffit.
    destruct (recv_whole (world s) _ f _ Hin Hffit) as [Hn Ha].
    step (the_sock_run s fd Hfd). step (recv_run s fd M34465a.buff_len f Hn).
    destruct (IH f (mkSession (dev s) (received fd M34465a.buff_len (world s))) fuel)
      as (w' & Hrun & Hi & Hc & Hs & Hfs & Hnf & Hrq & Hca); try assumption.
    + cbn [length] in Hfuel. lia.
    + exists w'. split; [exact Hrun |]. simp_world in *.
      unfold received in Hrq, Hca. simp_world in *.
      rewrite requests_app in Hrq. rewrite connect_attempts_app in Hca.
      cbn in Hrq, Hca. repeat split; try assumption; lia.
Qed.

Lemma connects_succeed_eq (w w' : World) :
  connects_succeed w -> connects w' = connects w -> connects_succeed w'.
Proof. exact (connects_succeed_same w w'). Qed.

Lemma requests_chunk (fd : nat) (o : send_outcome) :
  requests [EvSend fd chunk_request o] = 1%nat.
Proof. reflexivity. Qed.

(** One turn of the loop of [read_data] over one arrival. *)
Lemma read_chunk_arrival (a : arrival) (fuel : nat) (filename : str) (data_count : Z)
      (s : Session) (fd : nat) (rest : list recv_outcome) :
  sock (dev s) = Some fd -> sends_succeed (world s) -> connects_succeed (world s) ->
  inbound (world s) = inbound_of a ++ rest ->
  arrival_ok a = true -> (length (inbound_of a) < fuel)%nat ->
  exists s' : Session,
    M34465a.read_chunk fuel filename data_count s = (s', Ok (data_count + len (gained a))) /\
    (exists fd', sock (dev s') = Some fd') /\
    sends_succeed (world s') /\ connects_succeed (world s') /\
    inbound (world s') = rest /\
    file_text filename (files (world s')) =
      file_text filename (files (world s)) ++ lines (gained a) /\
    requests (trace (world s')) = (requests (trace (world s)) + 1)%nat /\
    connect_attempts (trace (world s')) =
      (connect_attempts (trace (world s)) + if timed_out a then 1 else 0)%nat.
Proof.
  intros Hfd Hs Hc Hin Hok Hfuel. destruct a as [ldigits samples | fragments].
  - (* a block of readings *)
    cbn [inbound_of app length] in Hin, Hfuel. cbn [arrival_ok] in Hok.
    assert (Hf2 : (2 <= fuel)%nat) by lia.
    exists (drained fd filename ldigits samples s).
    rewrite (read_chunk_block fuel filename data_count s fd ldigits samples rest Hfd Hs Hin Hok Hf2).
    destruct (recv_whole (world s) M34465a.buff_len _ rest Hin) as [Hn Ha];
      [apply (readings_ok_facts _ _ Hok) |].
    cbn [gained timed_out]. unfold drained. cbv zeta.
    unfold received, sent. unfold after_recv in Ha.
    destruct (decimal ldigits =? len (join "," samples)); simp_world;
      (split; [reflexivity |]); (split; [exists fd; exact Hfd |]);
      (split; [apply (sends_succeed_tl (world s)); auto |]);
      (split; [exact Hc |]); (split; [exact Ha |]);
      (split; [apply file_text_stored |]);
      rewrite !requests_app, !connect_attempts_app, (next_send_ok _ Hs), requests_chunk;
      cbn; lia.
  - (* a timeout *)
    cbn [inbound_of] in Hin, Hfuel. rewrite <- app_assoc in Hin. cbn [app] in Hin.
    rewrite length_app, length_map in Hfuel. cbn [length] in Hfuel.
    set (s0 := mkSession (with_error None (dev s)) (sent fd chunk_request (world s))).
    destruct (recv_block_times_out fd rest fragments [] s0 fuel Hfd eq_refl Hin Hok)
      as (w' & Hrun & Hi & Hcs & Hss & Hfs & Hnf & Hrq & Hca); [lia |].
    set (s1 := mkSession (dev s0)
                 (add_out (Print (nl :: txt "Attempting to connect to meter..."))
                    (add_out (Print (txt "Socket timeout waiting for block data.")) w'))).
    assert (Hc1 : next_connect (world s1) = ConnOk).
    { apply next_connect_ok. apply (connects_succeed_eq (world s)); [exact Hc |].
      unfold s1. simp_world. rewrite Hcs. reflexivity. }
    exists (mkSession (dev (attempted s1))
              (add_out (Print (txt "No data received")) (world (attempted s1)))).
    split.
    + unfold M34465a.read_chunk. rewrite request_text.
      pose proof (write_ok Keysight34465a (txt "R? 160256") s fd Hfd Hs) as Hw.
      unfold drv_write in Hw. fold chunk_request in Hw. fold s0 in Hw. step Hw.
      assert (Hrecv : try_except (M34465a.recv_block fuel M34465a.buff_len [])
            (fun e => match e with
                      | SocketTimeout =>
                          Some (io (print (txt "Socket timeout waiting for block data."));;
                                M34465a.connect;; ret [])
                      | _ => None
                      end) s0 = (attempted s1, Ok [])).
      { unfold try_except. rewrite Hrun.
        unfold bind at 1. unfold io at 1, print at 1, say at 1. cbv beta iota. simp_world.
        unfold bind at 1.
        pose proof (connect_run Keysight34465a
                      (mkSession (dev s0)
                         (add_out (Print (txt "Socket timeout waiting for block data.")) w')))
          as Hcr.
        unfold drv_connect in Hcr. rewrite Hcr. cbv zeta. simp_world. fold s1.
        change (next_connect
                  (add_out (Print (txt "Socket timeout waiting for block data.")) w'))
          with (next_connect (world s1)).
        rewrite Hc1. reflexivity. }
      step Hrecv. change (eqs [] []) with true. cbv iota.
      cbn [gained]. change (len (@nil (list ascii))) with 0. rewrite Z.add_0_r.
      reflexivity.
    + unfold attempted. rewrite Hc1. cbv zeta. unfold s1. simp_world.
      split; [eexists; reflexivity |].
      split; [apply (sends_succeed_tl (world s)); [exact Hs | exact Hss] |].
      split; [apply (connects_succeed_tl (world s)); [exact Hc | rewrite Hcs; reflexivity] |].
      split; [exact Hi |]. split; [rewrite Hfs, app_nil_r; reflexivity |].
      cbn [timed_out]. rewrite requests_app, connect_attempts_app, Hrq, Hca.
      unfold s0, sent. simp_world.
      rewrite !requests_app, !connect_attempts_app, requests_chunk. cbn. lia.
Qed.

Lemma lines_app (a b : list str) : lines (a ++ b) = lines a ++ lines b.
Proof. unfold lines. rewrite map_app, concat_app. reflexivity. Qed.

Lemma read_data_loop_run (filename : str) (expected_points : Z) (inner : nat)
      (rest : list recv_outcome) (l : list arrival) :
  forall (data_count : Z) (s : Session) (outer fd : nat),
    sock (dev s) = Some fd -> sends_succeed (world s) -> connects_succeed (world s) ->
    inbound (world s) = flat_map inbound_of l ++ rest ->
    forallb arrival_ok l = true ->
    consumes expected_points data_count l = true ->
    (length l < outer)%nat ->
    Forall (fun a => (length (inbound_of a) < inner)%nat) l ->
    exists s' : Session,
      M34465a.read_data_loop outer inner filename expected_points data_count s =
        (s', Ok (data_count + len (flat_map gained l))) /\
      inbound (world s') = rest /\
      file_text filename (files (world s')) =
        file_text filename (files (world s)) ++ lines (flat_map gained l) /\
      requests (trace (world s')) = (requests (trace (world s)) + length l)%nat /\
      connect_attempts (trace (world s')) =
        (connect_attempts (trace (world s)) + length (filter timed_out l))%nat.
Proof.
  induction l as [|a l IH]; intros data_count s outer fd Hfd Hs Hc Hin Hok Hcons Houter Hinner;
    (destruct outer as [|outer]; [cbn in Houter; lia |]);
    cbn [M34465a.read_data_loop]; cbn [consumes] in Hcons.
  - apply Z.leb_le in Hcons.
    replace (data_count <? expected_points) with false by (symmetry; apply Z.ltb_ge; lia).
    exists s. cbn [flat_map length filter]. change (len (@nil (list ascii))) with 0.
    rewrite Z.add_0_r, !Nat.add_0_r. unfold lines. cbn. rewrite app_nil_r. auto.
  - apply andb_true_iff in Hcons as [Hlt Hcons]. rewrite Hlt.
    cbn [forallb] in Hok. apply andb_true_iff in Hok as [Hoka Hok].
    inversion Hinner as [|? ? Hia Hil]; subst.
    cbn [flat_map] in Hin. rewrite <- app_assoc in Hin.
    destruct (read_chunk_arrival a inner filename data_count s fd _ Hfd Hs Hc Hin Hoka Hia)
      as (s1 & Hrun & (fd1 & Hfd1) & Hs1 & Hc1 & Hi1 & Hf1 & Hr1 & Ha1).
    step Hrun.
    destruct (IH (data_count + len (gained a)) s1 outer fd1 Hfd1 Hs1 Hc1 Hi1 Hok Hcons)
      as (s' & Hrun' & Hi' & Hf' & Hr' & Ha'); [cbn [length] in Houter; lia | exact Hil |].
    exists s'. rewrite Hrun'. cbn [flat_map length filter].
    rewrite len_app, lines_app, Hf', Hf1, Hr', Hr1, Ha', Ha1, Z.add_assoc, <- app_assoc.
    repeat split; try reflexivity; try assumption; try lia.
    destruct (timed_out a); cbn [length]; lia.
Qed.

Lemma consumes_total (expected_points : Z) (l : list arrival) :
  forall data_count : Z,
    consumes expected_points data_count l = true ->
    expected_points <= data_count + len (flat_map gained l).
Proof.
  induction l as [|a l IH]; intros data_count H; cbn [consumes] in H.
  - apply Z.leb_le in H. cbn [flat_map]. change (len (@nil (list ascii))) with 0. lia.
  - apply andb_true_iff in H as [_ H]. apply IH in H.
    cbn [flat_map]. rewrite len_app. lia.
Qed.

Lemma inbound_of_nonempty (a : arrival) : (1 <= length (inbound_of a))%nat.
Proof.
  destruct a; cbn [inbound_of length]; [lia |]. rewrite length_app. cbn [length]. lia.
Qed.

Lemma script_lengths (l : list arrival) :
  (length l <= length (flat_map inbound_of l))%nat /\
  Forall (fun a => (length (inbound_of a) <= length (flat_map inbound_of l))%nat) l.
Proof.
  induction l as [|a l [IH1 IH2]]; [split; [reflexivity | constructor] |].
  cbn [flat_map length]. rewrite length_app. pose proof (inbound_of_nonempty a).
  split; [lia |]. constructor; [lia |].
  apply (Forall_impl _ (P := fun a0 => (length (inbound_of a0)
                                        <= length (flat_map inbound_of l))%nat)); [| exact IH2].
  intros a0 H0. lia.
Qed.

(** C6: over any script of whole blocks and timed-out reads that the loop
    of [read_data] goes through, every timed-out read is followed by one
    reconnection and by a new request of a chunk, the same request as before;
    the count goes on from where it was.  The loop ends with the count at or
    above the requested number of points, and that count is the number of
    readings of the blocks that were drained, which are the lines added to
    the file. *)
Theorem read_data_resumes (fuel : nat) (filename : str) (expected_points : Z)
    (l : list arrival) (rest : list recv_outcome) (s : Session) (fd : nat) :
  sock (dev s) = Some fd ->
  sends_succeed (world s) ->
  connects_succeed (world s) ->
  inbound (world s) = flat_map inbound_of l ++ rest ->
  forallb arrival_ok l = true ->
  consumes expected_points 0 l = true ->
  (length (flat_map inbound_of l) < fuel)%nat ->
  snd (M34465a.read_data fuel filename expected_points s) = Ok (len (flat_map gained l)) /\
  expected_points <= len (flat_map gained l) /\
  requests (trace (world (fst (M34465a.read_data fuel filename expected_points s)))) =
    (requests (trace (world s)) + length l)%nat /\
  connect_attempts (trace (world (fst (M34465a.read_data fuel filename expected_points s)))) =
    (connect_attempts (trace (world s)) + length (filter timed_out l))%nat /\
  file_text filename (files (world (fst (M34465a.read_data fuel filename expected_points s)))) =
    file_text filename (files (world s)) ++ lines (flat_map gained l) /\
  inbound (world (fst (M34465a.read_data fuel filename expected_points s))) = rest.
Proof.
  intros Hfd Hs Hc Hin Hok Hcons Hfuel.
  destruct (script_lengths l) as [Hl Hall].
  destruct (read_data_loop_run filename expected_points fuel rest l 0 s fuel fd
              Hfd Hs Hc Hin Hok Hcons) as (s' & Hrun & Hi & Hf & Hr & Ha).
  - lia.
  - apply (Forall_impl _ (P := fun a => (length (inbound_of a)
                                         <= length (flat_map inbound_of l))%nat)); [| exact Hall].
    intros a Ha. lia.
  - unfold M34465a.read_data. rewrite Hrun. cbn [fst snd].
    pose proof (consumes_total expected_points l 0 Hcons).
    repeat split; try assumption; lia.
Qed.

(** ** Computations that do not touch the files *)

Lemma kf_ret {A} (a : A) : keeps_files (ret a).
Proof. intros w. reflexivity. Qed.

Lemma kf_raise {A} (e : exn) : keeps_files (@raise World A e).
Proof. intros w. reflexivity. Qed.

Lemma kf_bind {A B} (m : M World A) (k : A -> M World B) :
  keeps_files m -> (forall a, keeps_files (k a)) -> keeps_files (bind m k).
Proof.
  intros Hm Hk w. unfold bind. specialize (Hm w).
  destruct (m w) as [w' [a | e |]]; cbn [fst] in *; [rewrite (Hk a w') | |]; exact Hm.
Qed.

Lemma kf_of_option {A} (e : exn) (o : option A) : keeps_files (of_option e o).
Proof. destruct o; intros w; reflexivity. Qed.

Lemma kf_of_result {A} (r : result A) : keeps_files (of_result r).
Proof. intros w. reflexivity. Qed.

Lemma kf_say (o : out) : keeps_files (say o).
Proof. intros w. reflexivity. Qed.

Lemma kf_print (t : str) : keeps_files (print t).
Proof. intros w. reflexivity. Qed.

Lemma kf_logger (lvl : level) (t : str) : keeps_files (logger lvl t).
Proof. intros w. reflexivity. Qed.

Lemma kf_sleep (secs : Z) : keeps_files (sleep secs).
Proof. intros w. reflexivity. Qed.

Lemma kf_new_socket : keeps_files new_socket.
Proof. intros w. reflexivity. Qed.

Lemma kf_sock_connect (fd : nat) (h : str) (p t : Z) : keeps_files (sock_connect fd h p t).
Proof. intros w. reflexivity. Qed.

Lemma kf_sock_send (fd : nat) (data : bytes) : keeps_files (sock_send fd data).
Proof. intros w. reflexivity. Qed.

Lemma kf_sock_recv (fd : nat) (n : Z) : keeps_files (sock_recv fd n).
Proof. intros w. reflexivity. Qed.

Lemma kf_sock_close (fd : nat) : keeps_files (sock_close fd).
Proof. intros w. reflexivity. Qed.

Lemma kf_isfile (name : str) : keeps_files (isfile name).
Proof. intros w. reflexivity. Qed.

Lemma kf_input (prompt : str) : keeps_files (input prompt).
Proof. intros w. unfold input. destruct (stdin w); reflexivity. Qed.

Lemma kfs_io {A} (m : M World A) : keeps_files m -> keeps_files_s (io m).
Proof.
  intros Hm s. unfold io. specialize (Hm (world s)).
  destruct (m (world s)) as [w' r]. exact Hm.
Qed.

Lemma kf_on_device {A} (d : ScpiDevice) (m : M Session A) :
  keeps_files_s m -> keeps_files (on_device d m).
Proof.
  intros Hm w. unfold on_device. specialize (Hm (mkSession d w)).
  destruct (m (mkSession d w)) as [s' r]. exact Hm.
Qed.

Lemma kfs_ret {A} (a : A) : keeps_files_s (ret a).
Proof. intros s. reflexivity. Qed.

Lemma kfs_raise {A} (e : exn) : keeps_files_s (@raise Session A e).
Proof. intros s. reflexivity. Qed.

Lemma kfs_diverge {A} : keeps_files_s (@diverge Session A).
Proof. intros s. reflexivity. Qed.

Lemma kfs_bind {A B} (m : M Session A) (k : A -> M Session B) :
  keeps_files_s m -> (forall a, keeps_files_s (k a)) -> keeps_files_s (bind m k).
Proof.
  intros Hm Hk s. unfold bind. specialize (Hm s).
  destruct (m s) as [s' [a | e |]]; cbn [fst] in *; [rewrite (Hk a s') | |]; exact Hm.
Qed.

Lemma kfs_try {A} (m : M Session A) (h : exn -> option (M Session A)) :
  keeps_files_s m -> (forall e k, h e = Some k -> keeps_files_s k) ->
  keeps_files_s (try_except m h).
Proof.
  intros Hm Hh s. unfold try_except. specialize (Hm s).
  destruct (m s) as [s' [a | e |]]; cbn [fst] in *; try exact Hm.
  destruct (h e) as [k |] eqn:E; [rewrite (Hh e k E s') |]; exact Hm.
Qed.

Lemma kfs_of_option {A} (e : exn) (o : option A) : keeps_files_s (of_option e o).
Proof. destruct o; intros s; reflexivity. Qed.

Lemma kfs_of_result {A} (r : result A) : keeps_files_s (of_result r).
Proof. intros s. reflexivity. Qed.

Lemma kfs_self : keeps_files_s self.
Proof. intros s. reflexivity. Qed.

Lemma kfs_set_sock (fd : option nat) : keeps_files_s (set_sock fd).
Proof. intros s. reflexivity. Qed.

Lemma kfs_set_error (e : option str) : keeps_files_s (set_error e).
Proof. intros s. reflexivity. Qed.

Lemma kfs_decode_reply (v : option bytes) : keeps_files_s (decode_reply v).
Proof. destruct v as [b |]; [apply kfs_of_option | apply kfs_raise]. Qed.

Create HintDb frame.
#[export] Hint Resolve kf_ret kf_raise kf_of_option kf_of_result kf_say kf_print kf_logger
  kf_sleep kf_new_socket kf_sock_connect kf_sock_send kf_sock_recv kf_sock_close kf_isfile
  kf_input kfs_io kf_on_device kfs_ret kfs_raise kfs_diverge kfs_of_option kfs_of_result
  kfs_self kfs_set_sock kfs_set_error kfs_decode_reply : frame.

(** The frame of a computation, piece by piece. *)
Ltac frame :=
  repeat first
    [ solve [auto with frame]
    | progress cbv zeta
    | apply kfs_bind; [| intros ?]
    | apply kf_bind; [| intros ?]
    | apply kf_on_device
    | apply kfs_io
    | apply kfs_try;
      [| let e := fresh "e" in let k := fresh "k" in let H := fresh "H" in
         intros e k H; destruct (socket_error e); [injection H as <- | discriminate H] ]
    | match goal with
      | |- keeps_files_s (if ?b then _ else _) => destruct b
      | |- keeps_files (if ?b then _ else _) => destruct b
      | |- keeps_files (match sock ?d with _ => _ end) => destruct (sock d)
      end ].

Lemma kfs_the_sock : keeps_files_s the_sock.
Proof. unfold the_sock. frame. Qed.

#[export] Hint Resolve kfs_the_sock : frame.

Lemma kfs_socket_connect : keeps_files_s M34465a._socket_connect.
Proof. unfold M34465a._socket_connect. frame. Qed.

#[export] Hint Resolve kfs_socket_connect : frame.

Lemma kfs_connect : keeps_files_s M34465a.connect.
Proof. unfold M34465a.connect. frame. Qed.

Lemma kfs_write (payload : str) : keeps_files_s (M34465a.write payload).
Proof. unfold M34465a.write. frame. Qed.

Lemma kfs_read : keeps_files_s M34465a._read.
Proof. unfold M34465a._read. frame. Qed.

#[export] Hint Resolve kfs_connect kfs_write kfs_read : frame.

Lemma kfs_get (payload : str) : keeps_files_s (M34465a.get payload).
Proof. unfold M34465a.get. frame. Qed.

Lemma kfs_close : keeps_files_s M34465a.close.
Proof. unfold M34465a.close. frame. Qed.

#[export] Hint Resolve kfs_get kfs_close : frame.

Lemma kfs_recv_line (fuel : nat) : forall block : bytes, keeps_files_s (M34465a.recv_line fuel block).
Proof.
  induction fuel as [|fuel IH]; intros block; cbn [M34465a.recv_line]; [apply kfs_diverge |].
  frame.
Qed.

#[export] Hint Resolve kfs_recv_line : frame.

Lemma kfs_read_data_with_fetch (fuel : nat) : keeps_files_s (M34465a.read_data_with_fetch fuel).
Proof. unfold M34465a.read_data_with_fetch. frame. Qed.

Lemma kf_get_meter (settings : Settings) : keeps_files (M34465a.get_meter settings).
Proof.
  unfold M34465a.get_meter, M34465a.Multimeter34465a, M34465a.ScpiDevice_init, M34465a.get_idn.
  frame.
Qed.

Lemma file_exists_missing (settings : Settings) (w : World) :
  fs_lookup (filename settings) (files w) = None ->
  M34465a.file_exists settings w = (w, Ok false).
Proof.
  intros H. unfold M34465a.file_exists, bind, isfile. rewrite H. reflexivity.
Qed.

Lemma close_keeps (s : Session) :
  files (world (fst (M34465a.close s))) = files (world s) /\
  console (world (fst (M34465a.close s))) = console (world s).
Proof.
  unfold M34465a.close. run. destruct (sock (dev s)); split; reflexivity.
Qed.

Lemma write_data_to_file_run (name : str) (data : list str) (w : World) :
  M34465a.write_data_to_file name data w =
    (add_out (Print (txt "Data written to file " ++ name))
       (set_files (stored_lines name data (files w)) w), Ok tt).
Proof.
  unfold M34465a.write_data_to_file.
  assert (H : forall fs w0,
    for_each data (fun data_point => file_append name (data_point ++ [nl])) (set_files fs w0) =
    (set_files (fold_left (fun fs data_point => fs_append name (data_point ++ [nl]) fs) data fs)
       w0, Ok tt)).
  { induction data as [|dp data IH]; intros fs w0; cbn [for_each fold_left]; [reflexivity |].
    unfold bind. unfold file_append at 1. cbv beta iota. simp_world.
    exact (IH (fs_append name (dp ++ [nl]) fs) w0). }
  unfold bind at 1. unfold file_append at 1. cbv beta iota. unfold bind at 1.
  rewrite H. reflexivity.
Qed.


(** C8 (as the code has it): a block whose declared byte length differs from
    the length received is not refused.  [read_data] writes one line to the
    error log and goes on: the readings of the block are counted and appended
    to the file, as they are for a block whose lengths agree, for which
    nothing is logged. *)
Theorem read_chunk_keeps_block (fuel : nat) (filename : str) (data_count : Z) (s : Session)
    (fd : nat) (ldigits : bytes) (samples : list str) (rest : list recv_outcome) :
  sock (dev s) = Some fd ->
  sends_succeed (world s) ->
  inbound (world s) = RecvData (readings_block ldigits samples) :: rest ->
  readings_ok ldigits samples = true ->
  (2 <= fuel)%nat ->
  snd (M34465a.read_chunk fuel filename data_count s) = Ok (data_count + len samples) /\
  file_text filename (files (world (fst (M34465a.read_chunk fuel filename data_count s)))) =
    file_text filename (files (world s)) ++ lines samples /\
  (decimal ldigits = len (join "," samples) ->
   console (world (fst (M34465a.read_chunk fuel filename data_count s))) = console (world s)) /\
  (decimal ldigits <> len (join "," samples) ->
   exists msg : str,
     starts_with (txt "Byte count error.") msg = true /\
     console (world (fst (M34465a.read_chunk fuel filename data_count s))) =
       console (world s) ++ [Log ERROR msg]).
Proof.
  intros Hfd Hs Hin Hok Hfuel.
  rewrite (read_chunk_block fuel filename data_count s fd ldigits samples rest Hfd Hs Hin Hok Hfuel).
  unfold drained, received, sent. cbv zeta.
  destruct (Z.eqb_spec (decimal ldigits) (len (join "," samples))) as [E | E]; simp_world;
    rewrite file_text_stored; (split; [reflexivity |]); (split; [reflexivity |]); split;
    try (intros; reflexivity); try (intros H; contradiction).
  intros _. eexists. split; [| reflexivity]. reflexivity.
Qed.

Lemma read_chunk_keeps_block_witness :
  decimal (txt "5") <> len (join "," [txt "+1.0"; txt "+2.0"]) /\
  snd (M34465a.read_chunk 2 (txt "/tmp/junk.txt") 0
         (mkSession bench_device (arriving [RecvData (txt "#15+1.0,+2.0" ++ [nl])]))) = Ok 2.
Proof.
  split; [discriminate |].
  refine (proj1 (read_chunk_keeps_block 2 (txt "/tmp/junk.txt") 0
                   (mkSession bench_device (arriving [RecvData (txt "#15+1.0,+2.0" ++ [nl])]))
                   2 (txt "5") [txt "+1.0"; txt "+2.0"] [] eq_refl _ eq_refl eq_refl _)).
  - constructor.
  - apply le_n.
Defined.

(** C8, against the claim: the header declares 5 bytes and 9 arrive; no
    error is raised, the two readings are counted and stored, and the only
    trace of the mismatch is a line of the log. *)
Lemma read_chunk_accepts_wrong_length :
  M34465a.parse_block_header (txt "#15+1.0,+2.0" ++ [nl]) = Ok (3, 5, 9) /\
  snd (M34465a.read_chunk 2 (txt "/tmp/junk.txt") 0
         (mkSession bench_device (arriving [RecvData (txt "#15+1.0,+2.0" ++ [nl])]))) = Ok 2 /\
  files (world (fst (M34465a.read_chunk 2 (txt "/tmp/junk.txt") 0
         (mkSession bench_device (arriving [RecvData (txt "#15+1.0,+2.0" ++ [nl])]))))) =
    [(txt "/tmp/junk.txt", txt "+1.0" ++ [nl] ++ txt "+2.0" ++ [nl])] /\
  console (world (fst (M34465a.read_chunk 2 (txt "/tmp/junk.txt") 0
         (mkSession bench_device (arriving [RecvData (txt "#15+1.0,+2.0" ++ [nl])]))))) =
    [Log ERROR (txt "Byte count error. Expected 9 got 9")].
Proof. repeat split; reflexivity. Qed.

(** A block of readings that arrives in two reads is not put together by
    [read_data]: its inner loop keeps the last read only, and the header is
    then looked for in the tail of the block. *)
Lemma read_chunk_keeps_last_read :
  snd (M34465a.read_chunk 3 (txt "/tmp/junk.txt") 0
         (mkSession bench_device
            (arriving [RecvData (txt "#19+1.0,"); RecvData (txt "+2.0" ++ [nl])]))) =
    Raise ValueError /\
  files (world (fst (M34465a.read_chunk 3 (txt "/tmp/junk.txt") 0
         (mkSession bench_device
            (arriving [RecvData (txt "#19+1.0,"); RecvData (txt "+2.0" ++ [nl])]))))) = [].
Proof. split; reflexivity. Qed.

(** C2, against the claim: the block [#15hello] with its terminator,
    split inside the header.  The first read brings [#1], the length field
    is read as empty, and [get_screen_dump] raises ValueError; nothing is
    stored. *)
Lemma screen_dump_split_header :
  concat [txt "#1"; txt "5hello" ++ [nl]] = framed (txt "5") (txt "hello") /\
  well_framed (txt "5") (txt "hello") = true /\
  snd (M34465a.get_screen_dump 5 (txt "screen.png")
         (mkSession bench_device
            (arriving [RecvData (txt "#1"); RecvData (txt "5hello" ++ [nl])]))) =
    Raise ValueError /\
  files (world (fst (M34465a.get_screen_dump 5 (txt "screen.png")
         (mkSession bench_device
            (arriving [RecvData (txt "#1"); RecvData (txt "5hello" ++ [nl])]))))) = [].
Proof. repeat split; reflexivity. Qed.

(** The same block split between the payload and the terminator: the loop
    stops as soon as the declared length is there, and the byte that is
    dropped as the terminator is the last byte of the payload. *)
Lemma screen_dump_late_terminator :
  snd (M34465a.get_screen_dump 5 (txt "screen.png")
         (mkSession bench_device (arriving [RecvData (txt "#15hello"); RecvData [nl]]))) =
    Ok true /\
  files (world (fst (M34465a.get_screen_dump 5 (txt "screen.png")
         (mkSession bench_device (arriving [RecvData (txt "#15hello"); RecvData [nl]]))))) =
    [(txt "screen.png", txt "hell")].
Proof. split; reflexivity. Qed.

Lemma get_screen_dump_reassembles_witness :
  files (world (fst (M34465a.get_screen_dump 5 (txt "screen.png")
         (mkSession bench_device
            (arriving [RecvData (txt "#15he"); RecvData (txt "llo" ++ [nl])]))))) =
    [(txt "screen.png", txt "hello")].
Proof.
  refine (proj1 (proj2 (get_screen_dump_reassembles 5 (txt "screen.png") (txt "5") (txt "hello")
                   [txt "#15he"; txt "llo" ++ [nl]] []
                   (mkSession bench_device
                      (arriving [RecvData (txt "#15he"); RecvData (txt "llo" ++ [nl])]))
                   2 eq_refl _ eq_refl eq_refl eq_refl _ _ eq_refl _))).
  - constructor.
  - discriminate.
  - discriminate.
  - repeat constructor.
Defined.

Lemma send_commands_fail_fast_witness :
  snd (drv_send_commands Keysight34465a [txt "CONF:CURR:DC 100mA"; txt "SENS:CUR:DC:APER 1"; txt "INIT"]
         (mkSession bench_device
            (arriving [RecvData reply_no_error; RecvData reply_undefined_header]))) =
    Raise (CommandError (txt "Command Error in send_commands: SENS:CUR:DC:APER 1,"
                         ++ dq :: txt "Undefined header" ++ [dq])) /\
  written (trace (world (fst (drv_send_commands Keysight34465a
         [txt "CONF:CURR:DC 100mA"; txt "SENS:CUR:DC:APER 1"; txt "INIT"]
         (mkSession bench_device
            (arriving [RecvData reply_no_error; RecvData reply_undefined_header])))))) =
    [txt "CONF:CURR:DC 100mA" ++ [nl]; txt "SYSTem:ERRor?" ++ [nl];
     txt "SENS:CUR:DC:APER 1" ++ [nl]; txt "SYSTem:ERRor?" ++ [nl]].
Proof.
  refine (let H := send_commands_fail_fast Keysight34465a [txt "CONF:CURR:DC 100mA"]
                     (txt "SENS:CUR:DC:APER 1") [txt "INIT"] [reply_no_error]
                     reply_undefined_header (dq :: txt "Undefined header" ++ [dq])
                     (mkSession bench_device
                        (arriving [RecvData reply_no_error; RecvData reply_undefined_header]))
                     2 [] eq_refl _ eq_refl eq_refl eq_refl _ eq_refl eq_refl in
          conj (proj1 H) (proj1 (proj2 H))).
  - constructor.
  - discriminate.
Defined.

Lemma connect_retries_once_witness :
  trace (world (fst (drv_connect Keysight34465a (mkSession bench_device refusing)))) =
    [EvConnect 3 (txt "192.168.1.188") 5025 10 (ConnError (txt "[Errno 111] Connection refused"));
     EvSleep 30;
     EvConnect 4 (txt "192.168.1.188") 5025 10 (ConnError (txt "[Errno 111] Connection refused"))] /\
  snd (drv_connect Keysight34465a (mkSession bench_device refusing)) = Ok false.
Proof.
  refine (let H := connect_retries_once Keysight34465a (mkSession bench_device refusing)
                     (txt "[Errno 111] Connection refused") eq_refl in
          conj (proj1 H) (proj1 (proj2 (proj2 H)))).
Defined.

Lemma get_write_then_read_witness :
  snd (drv_get Keysight34465a (txt "SYSTem:ERRor?")
         (mkSession bench_device (arriving [RecvData reply_no_error]))) =
    Ok (true, Some reply_no_error).
Proof.
  exact (proj1 (proj2 (get_write_then_read Keysight34465a (txt "SYSTem:ERRor?")
                         (mkSession bench_device (arriving [RecvData reply_no_error]))
                         2 eq_refl))).
Defined.


Lemma read_data_resumes_witness :
  snd (M34465a.read_data 9 (txt "/tmp/junk.txt") 3
         (mkSession bench_device
            (arriving [RecvData (txt "#19+1.0,+2.0" ++ [nl]); RecvTimeout;
                       RecvData (txt "#14+3.0" ++ [nl])]))) = Ok 3 /\
  connect_attempts (trace (world (fst (M34465a.read_data 9 (txt "/tmp/junk.txt") 3
         (mkSession bench_device
            (arriving [RecvData (txt "#19+1.0,+2.0" ++ [nl]); RecvTimeout;
                       RecvData (txt "#14+3.0" ++ [nl])])))))) = 1%nat /\
  requests (trace (world (fst (M34465a.read_data 9 (txt "/tmp/junk.txt") 3
         (mkSession bench_device
            (arriving [RecvData (txt "#19+1.0,+2.0" ++ [nl]); RecvTimeout;
                       RecvData (txt "#14+3.0" ++ [nl])])))))) = 3%nat.
Proof.
  refine (let H := read_data_resumes 9 (txt "/tmp/junk.txt") 3
                     [Drained (txt "9") [txt "+1.0"; txt "+2.0"]; TimedOut [];
                      Drained (txt "4") [txt "+3.0"]] []
                     (mkSession bench_device
                        (arriving [RecvData (txt "#19+1.0,+2.0" ++ [nl]); RecvTimeout;
                                   RecvData (txt "#14+3.0" ++ [nl])]))
                     2 eq_refl _ _ eq_refl eq_refl eq_refl _ in
          conj (proj1 H) (conj (proj1 (proj2 (proj2 (proj2 H)))) (proj1 (proj2 (proj2 H))))).
  - constructor.
  - constructor.
  - repeat constructor.
Defined.


(** * Further properties of the drivers *)

(** ** Connecting *)

(** What one call of [connect] leaves behind, whatever the script. *)
Lemma connect_summary (drv : driver) (s : Session) :
  exists (s' : Session) (conn : bool),
    drv_connect drv s = (s', Ok conn) /\
    (exists fd : nat, sock (dev s') = Some fd /\ (next_fd (world s) <= fd)%nat) /\
    host (dev s') = host (dev s) /\ port (dev s') = port (dev s) /\
    buffersize (dev s') = buffersize (dev s) /\
    socket_timeout (dev s') = socket_timeout (dev s) /\
    sends (world s') = sends (world s) /\ inbound (world s') = inbound (world s) /\
    stdin (world s') = stdin (world s) /\ files (world s') = files (world s) /\
    written (trace (world s')) = written (trace (world s)) /\
    connect_attempts (trace (world s')) =
      (connect_attempts (trace (world s))
       + if conn_ok (next_connect (world s)) then 1 else 2)%nat.
Proof.
  rewrite connect_run. cbv zeta. unfold attempted, next_connect. simp_world.
  destruct (hd ConnOk (connects (world s))) as [|e1]; simp_world; cbn [conn_ok].
  - eexists _, _. split; [reflexivity |]. simp_world.
    split; [exists (next_fd (world s)); split; [reflexivity | lia] |].
    repeat split; [rewrite written_app; cbn; apply app_nil_r |].
    rewrite connect_attempts_app. reflexivity.
  - destruct (hd ConnOk (tl (connects (world s)))) as [|e2]; simp_world;
      (eexists _, _; split; [reflexivity |]; simp_world;
       split; [exists (S (next_fd (world s))); split; [reflexivity | lia] |];
       repeat split;
       [ rewrite !written_app; cbn; rewrite !app_nil_r; reflexivity
       | rewrite !connect_attempts_app; cbn [connect_attempts filter length]; lia ]).
Qed.

(** X1: [connect] makes one attempt when the first one succeeds and two
    otherwise, never more, although [max_attempts] is 5; the device has a
    socket afterwards also when every attempt failed.  On success at once
    there is no sleep, the result is [True] and the error text of the
    device is left as it was. *)
Theorem connect_at_most_twice (drv : driver) (s : Session) :
  let s' := fst (drv_connect drv s) in
  let d := dev s in
  let attempts := (connect_attempts (trace (world s')) - connect_attempts (trace (world s)))%nat in
  (1 <= attempts <= 2)%nat /\
  (exists fd : nat, sock (dev s') = Some fd) /\
  match next_connect (world s) with
  | ConnOk =>
      snd (drv_connect drv s) = Ok true /\
      trace (world s') =
        trace (world s) ++
          [EvConnect (next_fd (world s)) (host d) (port d) (socket_timeout d) ConnOk] /\
      sock (dev s') = Some (next_fd (world s)) /\
      error (dev s') = error d
  | ConnError _ => attempts = 2%nat
  end.
Proof.
  cbv zeta. rewrite connect_run. cbv zeta. unfold attempted, next_connect. simp_world.
  destruct (hd ConnOk (connects (world s))) as [|e1]; simp_world.
  - rewrite connect_attempts_app.
    change (connect_attempts [EvConnect _ _ _ _ _]) with 1%nat.
    split; [lia |]. split; [eexists; reflexivity |]. repeat split.
  - destruct (hd ConnOk (tl (connects (world s)))) as [|e2]; simp_world;
      rewrite !connect_attempts_app; cbn [connect_attempts filter length app];
      (split; [lia |]; split; [eexists; reflexivity | lia]).
Qed.

(** ** Making a meter *)

Lemma on_device_bind_ok {A B} (d : ScpiDevice) (m : M Session A) (k : A -> M Session B)
      (w : World) (s' : Session) (a : A) :
  m (mkSession d w) = (s', Ok a) ->
  on_device d (bind m k) w = on_device (dev s') (k a) (world s').
Proof.
  intros H. unfold on_device, bind. rewrite H. destruct s'; reflexivity.
Qed.

(** What the constructor [Multimeter34465a] leaves behind, whatever the
    script: it always returns a device, and the device has a socket. *)
Lemma Multimeter34465a_summary (h : str) (p : Z) (w : World) :
  exists (w' : World) (d : ScpiDevice) (fd : nat),
    M34465a.Multimeter34465a h p w = (w', Ok d) /\
    sock d = Some fd /\ host d = h /\ port d = p /\
    buffersize d = 256 /\ socket_timeout d = 10 /\
    sends w' = sends w /\ inbound w' = inbound w /\
    stdin w' = stdin w /\ files w' = files w /\
    written (trace w') = written (trace w) /\
    (connect_attempts (trace w) + 2 <= connect_attempts (trace w')
     <= connect_attempts (trace w) + 4)%nat.
Proof.
  unfold M34465a.Multimeter34465a, M34465a.ScpiDevice_init.
  destruct (connect_summary Keysight34465a (mkSession (mkDevice h p 256 10 None None) w))
    as (s1 & b1 & H1 & _ & Hh1 & Hp1 & Hb1 & Ht1 & Hs1 & Hi1 & Hd1 & Hf1 & Hw1 & Hn1).
  unfold drv_connect in H1. simp_world in *.
  destruct (connect_summary Keysight34465a s1)
    as (s2 & b2 & H2 & (fd & Hfd & _) & Hh2 & Hp2 & Hb2 & Ht2 & Hs2 & Hi2 & Hd2 & Hf2 & Hw2 & Hn2).
  unfold drv_connect in H2.
  exists (world s2), (dev s2), fd.
  split.
  - unfold bind at 1. rewrite (on_device_bind_ok _ _ _ _ _ _ H1).
    unfold on_device at 1, self at 1. destruct s1 as [d1 w1]. simp_world.
    rewrite (on_device_bind_ok _ _ _ _ _ _ H2).
    unfold on_device, self. destruct s2; reflexivity.
  - repeat split; try congruence;
      destruct (conn_ok (next_connect w)), (conn_ok (next_connect (world s1))); lia.
Qed.

(** [connect] when the first attempt succeeds. *)
Lemma connect_first_try (drv : driver) (d : ScpiDevice) (w : World) :
  hd ConnOk (connects w) = ConnOk ->
  drv_connect drv (mkSession d w) =
    (mkSession (with_sock (Some (next_fd w)) d)
       (add_event (EvConnect (next_fd w) (host d) (port d) (socket_timeout d) ConnOk)
          (set_connects (tl (connects w))
             (set_next_fd (S (next_fd w))
                (add_out (Print (nl :: txt "Attempting to connect to meter...")) w)))),
     Ok true).
Proof.
  intros H. rewrite connect_run. unfold next_connect. simp_world. rewrite H. cbv zeta.
  unfold attempted, next_connect. simp_world. rewrite H. reflexivity.
Qed.


(** ** Queries *)

(** What one [get] leaves behind. *)
Lemma get_summary (drv : driver) (payload : str) (s : Session) (fd : nat) :
  sock (dev s) = Some fd ->
  exists s' : Session,
    drv_get drv payload s =
      (s', Ok (reply_of (next_send (world s)) (next_recv (buffersize (dev s)) (world s)))) /\
    sock (dev s') = Some fd /\ buffersize (dev s') = buffersize (dev s) /\
    files (world s') = files (world s) /\
    sends (world s') = tl (sends (world s)) /\
    connects (world s') = connects (world s) /\
    trace (world s') =
      trace (world s) ++
      EvSend fd (encode payload ++ [nl]) (next_send (world s)) ::
      match next_send (world s) with
      | SendOk => [EvRecv fd (buffersize (dev s))
                     (next_recv (buffersize (dev s)) (world s))]
      | SendError _ => []
      end /\
    inbound (world s') =
      match next_send (world s) with
      | SendOk => after_recv (buffersize (dev s)) (world s)
      | SendError _ => inbound (world s)
      end.
Proof.
  intros Hfd.
  destruct drv; unfold drv_get;
    [ rewrite (get_run_34465a payload s fd Hfd) | rewrite (get_run_DMM6500 payload s fd Hfd) ];
    (destruct (next_send (world s)) as [|err] eqn:Hsend;
     [ first [ rewrite (read_run_34465a _ fd) by exact Hfd
             | rewrite (read_run_DMM6500 _ fd) by exact Hfd ];
       cbv zeta; simp_world; rewrite next_recv_sent;
       destruct (next_recv (buffersize (dev s)) (world s)) eqn:Hrecv;
       (eexists; split; [reflexivity |]); simp_world;
       unfold received, sent; simp_world; rewrite Hsend, <- app_assoc;
       repeat split; try assumption; unfold next_recv; simp_world; fold (next_recv (buffersize (dev s)) (world s)); rewrite Hrecv; reflexivity
     | (eexists; split; [reflexivity |]); simp_world; unfold sent; simp_world; rewrite Hsend;
       repeat split; assumption ]).
Qed.

(** X3: [get_meter] never takes its [No socket. Exit.] branch, because
    the device always has a socket once it is constructed.  It returns the
    meter when the identification query is answered with text; when the
    query cannot be sent or no answer is read it fails with AttributeError
    (the reply is [None]), and with UnicodeDecodeError when the answer is
    not well-formed UTF-8. *)
Theorem get_meter_outcomes (settings : Settings) (w : World) :
  let r := snd (M34465a.get_meter settings w) in
  match next_send w, next_recv 256 w with
  | SendOk, RecvData reply =>
      (forall t : str, decode reply = Some t ->
         exists (d : ScpiDevice) (fd : nat), r = Ok d /\ sock d = Some fd) /\
      (utf8_ok reply = false -> r = Raise UnicodeDecodeError)
  | _, _ => r = Raise AttributeError
  end.
Proof.
  cbv zeta.
  destruct (Multimeter34465a_summary (ip_addr settings) (settings_port settings) w)
    as (w1 & d & fd & Hrun & Hfd & _ & _ & Hb & _ & Hs & Hi & _ & _ & _ & _).
  set (s1 := mkSession d (add_out (Print (txt "Connected to:" ++ [nl])) w1)).
  destruct (get_summary Keysight34465a (txt "*IDN?") s1 fd Hfd)
    as (s2 & Hget & Hfd2 & _).
  unfold drv_get in Hget.
  assert (Hso : next_send (world s1) = next_send w)
    by (unfold next_send, s1; simp_world; rewrite Hs; reflexivity).
  assert (Hro : next_recv (buffersize (dev s1)) (world s1) = next_recv 256 w)
    by (unfold next_recv, s1; simp_world; rewrite Hi, Hb; reflexivity).
  rewrite Hso, Hro in Hget.
  assert (Hgo : M34465a.get_meter settings w =
    on_device (dev s2)
      (s <- decode_reply (snd (reply_of (next_send w) (next_recv 256 w))) ;;
       io (print (strip s)) ;;
       io (print (txt "IP: " ++ ip_addr settings ++ [nl])) ;;
       self) (world s2)).
  { unfold M34465a.get_meter. rewrite (bind_ok _ _ _ _ _ Hrun). cbv beta. rewrite Hfd.
    unfold on_device. unfold bind at 1, io at 1, print at 1, say at 1. cbv beta iota.
    simp_world. fold s1. unfold M34465a.get_idn. unfold bind at 1. rewrite Hget.
    destruct s2; reflexivity. }
  rewrite Hgo.
  destruct (next_send w) as [|err]; [destruct (next_recv 256 w) as [reply| |err] |];
    try reflexivity.
  cbn [reply_of snd decode_reply]. split.
  - intros t Ht. rewrite Ht. exists (dev s2), fd. split; [reflexivity | exact Hfd2].
  - intros Hbad. rewrite (decode_garbled reply Hbad). reflexivity.
Qed.

Lemma get_meter_outcomes_witness :
  (exists (d : ScpiDevice) (fd : nat),
     snd (M34465a.get_meter four_samples idn_then_idle) = Ok d /\ sock d = Some fd) /\
  snd (M34465a.get_meter four_samples (arriving [RecvData [chr 255; nl]])) =
    Raise UnicodeDecodeError.
Proof.
  split.
  - exact (proj1 (get_meter_outcomes four_samples idn_then_idle) _ eq_refl).
  - exact (proj2 (get_meter_outcomes four_samples (arriving [RecvData [chr 255; nl]]))
             eq_refl).
Defined.

(** ** Files that are there already, and files that are written *)

Lemma fs_lookup_store_other (name other : str) (content : list ascii)
      (fs : list (str * list ascii)) :
  other <> name -> fs_lookup other (fs_store name content fs) = fs_lookup other fs.
Proof.
  intros Hne.
  assert (Hno : eqs name other = false).
  { destruct (eqs name other) eqn:E; [| reflexivity].
    apply eqs_eq in E. congruence. }
  induction fs as [|[n c] fs IH]; cbn [fs_store fs_lookup].
  - rewrite Hno. reflexivity.
  - destruct (eqs n name) eqn:E; cbn [fs_lookup].
    + apply eqs_eq in E. subst n. rewrite Hno. reflexivity.
    + destruct (eqs n other); [reflexivity | exact IH].
Qed.

Lemma fs_lookup_append (name : str) (text : list ascii) (fs : list (str * list ascii)) :
  fs_lookup name (fs_append name text fs) = Some (file_text name fs ++ text).
Proof. unfold fs_append, file_text. apply fs_lookup_store. Qed.

Lemma fs_lookup_append_other (name other : str) (text : list ascii)
      (fs : list (str * list ascii)) :
  other <> name -> fs_lookup other (fs_append name text fs) = fs_lookup other fs.
Proof. intros H. unfold fs_append. apply fs_lookup_store_other. exact H. Qed.

Lemma fs_lookup_stored (name : str) (data : list str) (fs : list (str * list ascii)) :
  fs_lookup name (stored_lines name data fs) = Some (file_text name fs ++ lines data).
Proof.
  unfold stored_lines, lines.
  assert (H : forall fs0 text,
    fs_lookup name fs0 = Some text ->
    fs_lookup name (fold_left (fun fs1 dp => fs_append name (dp ++ [nl]) fs1) data fs0) =
      Some (text ++ concat (map (fun dp => dp ++ [nl]) data))).
  { induction data as [|dp data IH]; intros fs0 text H0; cbn [fold_left map concat].
    - rewrite app_nil_r. exact H0.
    - rewrite (IH _ (text ++ dp ++ [nl])).
      + rewrite <- app_assoc. reflexivity.
      + rewrite fs_lookup_append. unfold file_text. rewrite H0. reflexivity. }
  rewrite (H _ (file_text name fs ++ [])).
  - rewrite app_nil_r. reflexivity.
  - apply fs_lookup_append.
Qed.

Lemma fs_lookup_stored_other (name other : str) (data : list str)
      (fs : list (str * list ascii)) :
  other <> name -> fs_lookup other (stored_lines name data fs) = fs_lookup other fs.
Proof.
  intros Hne. unfold stored_lines.
  assert (H : forall fs0,
    fs_lookup other (fold_left (fun fs1 dp => fs_append name (dp ++ [nl]) fs1) data fs0) =
      fs_lookup other fs0).
  { induction data as [|dp data IH]; intros fs0; cbn [fold_left]; [reflexivity |].
    rewrite IH. apply fs_lookup_append_other. exact Hne. }
  rewrite H. apply fs_lookup_append_other. exact Hne.
Qed.

(** X4: [write_data_to_file] only appends: the file is there afterwards
    (also when there is no data), what it held before is kept in front of
    one line per data point, no other file is touched and nothing goes over
    the socket. *)
Theorem write_data_to_file_appends (name : str) (data : list str) (w : World) :
  let w' := fst (M34465a.write_data_to_file name data w) in
  snd (M34465a.write_data_to_file name data w) = Ok tt /\
  fs_lookup name (files w') = Some (file_text name (files w) ++ lines data) /\
  (forall other : str, other <> name -> fs_lookup other (files w') = fs_lookup other (files w)) /\
  trace w' = trace w /\
  console w' = console w ++ [Print (txt "Data written to file " ++ name)].
Proof.
  cbv zeta. rewrite write_data_to_file_run. simp_world.
  split; [reflexivity |]. split; [apply fs_lookup_stored |].
  split; [intros other H; apply fs_lookup_stored_other; exact H |].
  split; reflexivity.
Qed.

(** X5: when the output file is there already, [get_existing_data] and
    [start_measurement] stop after the key press: no socket is made,
    nothing is sent, and no file is changed; with no line to read on the
    standard input the prompt fails with EOFError. *)
Theorem existing_file_stops_the_run (float_str : float -> str) (fuel : nat) (measure : str)
    (settings : Settings) (w : World) (content : list ascii) :
  fs_lookup (filename settings) (files w) = Some content ->
  let after :=
    add_out (Print (txt "Hit any key to continue..." ++ [nl]))
      (add_out (Print (txt "File " ++ filename settings ++ txt " already exists"))
         (set_stdin (tl (stdin w)) w)) in
  let r := match stdin w with [] => Raise EOFError | _ :: _ => Ok tt end in
  M34465a.get_existing_data fuel settings w = (after, r) /\
  M34465a.start_measurement float_str fuel measure settings w = (after, r) /\
  trace after = trace w /\ files after = files w /\ next_fd after = next_fd w.
Proof.
  intros H. cbv zeta.
  unfold M34465a.get_existing_data, M34465a.start_measurement, M34465a.file_exists.
  unfold bind, isfile, print, say, input. rewrite H.
  destruct w as [cs ss ib [|l ls] fs n t co]; simp_world; repeat split.
Qed.

Lemma existing_file_stops_the_run_witness :
  M34465a.get_existing_data 9 four_samples
    (mkWorld [] [] [] [txt "y"] [(txt "/tmp/junk.txt", txt "+1.0E-03" ++ [nl])] 3 [] []) =
  (mkWorld [] [] [] [] [(txt "/tmp/junk.txt", txt "+1.0E-03" ++ [nl])] 3 []
     [Print (txt "File /tmp/junk.txt already exists");
      Print (txt "Hit any key to continue..." ++ [nl])],
   Ok tt).
Proof.
  exact (proj1 (existing_file_stops_the_run (fun _ => []) 9 (txt "CURR") four_samples
           (mkWorld [] [] [] [txt "y"] [(txt "/tmp/junk.txt", txt "+1.0E-03" ++ [nl])] 3 [] [])
           (txt "+1.0E-03" ++ [nl]) eq_refl)).
Defined.

(** ** What the fetch yields and what [get_existing_data] may write *)

Lemma split_nonempty (sep : ascii) (s : str) : split sep s <> [].
Proof.
  destruct s as [|c r]; cbn [split]; [discriminate |].
  destruct (Ascii.eqb c sep); [discriminate |].
  destruct (split sep r); discriminate.
Qed.

(** The data of a fetch that returned: the fields of the stripped text of
    some block. *)
Lemma read_data_with_fetch_data (fuel : nat) (s s' : Session) (data : list str) :
  M34465a.read_data_with_fetch fuel s = (s', Ok data) ->
  exists t : str, data = split "," (strip t).
Proof.
  unfold M34465a.read_data_with_fetch.
  unfold bind at 1. unfold io at 1, print at 1, say at 1. cbv beta iota.
  unfold bind at 1. destruct (M34465a.write _ _) as [s1 [b|e|]]; try discriminate.
  unfold bind at 1. destruct (M34465a.recv_line fuel [] s1) as [s2 [block|e|]]; try discriminate.
  unfold bind at 1. destruct (decode block) as [t|]; cbn [of_option]; [| discriminate].
  unfold ret at 1. unfold bind, io, print, say, ret. cbv beta iota.
  intros H. injection H as _ H. exists t. symmetry. exact H.
Qed.

(** Where [get_existing_data] leaves the file system. *)
Lemma get_existing_data_files (fuel : nat) (settings : Settings) (w : World) :
  files (fst (M34465a.get_existing_data fuel settings w)) = files w \/
  (fs_lookup (filename settings) (files w) = None /\
   exists (w1 : World) (meter : ScpiDevice) (s2 : Session) (data : list str),
     M34465a.get_meter settings w = (w1, Ok meter) /\
     M34465a.read_data_with_fetch fuel (mkSession meter w1) = (s2, Ok data) /\
     M34465a.num_samples settings = Ok (len data) /\
     files (fst (M34465a.get_existing_data fuel settings w)) =
       stored_lines (filename settings) data (files w)).
Proof.
  destruct (fs_lookup (filename settings) (files w)) as [content|] eqn:Hnew.
  { left. unfold M34465a.get_existing_data, M34465a.file_exists.
    unfold bind, isfile, print, say, input. rewrite Hnew.
    destruct w as [cs ss ib [|l ls] fs n t co]; reflexivity. }
  pose proof (kf_get_meter settings w) as Hf1.
  destruct (M34465a.get_meter settings w) as [w1 rm] eqn:Hmeter. cbn [fst] in Hf1.
  unfold M34465a.get_existing_data.
  rewrite (bind_ok _ _ _ _ _ (file_exists_missing settings w Hnew)). cbv beta iota.
  destruct rm as [meter|e|];
    [| left; unfold bind; rewrite Hmeter; exact Hf1 ..].
  rewrite (bind_ok _ _ _ _ _ Hmeter). cbv beta.
  pose proof (kfs_read_data_with_fetch fuel (mkSession meter w1)) as Hf2.
  destruct (M34465a.read_data_with_fetch fuel (mkSession meter w1)) as [s2 rf] eqn:Hfetch.
  cbn [fst world] in Hf2. rewrite Hf1 in Hf2.
  unfold on_device.
  destruct rf as [data|e|];
    [| left; unfold bind at 1; rewrite Hfetch; exact Hf2 ..].
  rewrite (bind_ok _ _ _ _ _ Hfetch). cbv beta.
  destruct (M34465a.num_samples settings) as [n|e|] eqn:Hn;
    unfold bind, of_result; cbv beta iota; [| left; exact Hf2 ..].
  destruct (len data =? n) eqn:Heq; cbn [negb]; unfold io, print, say; cbv beta iota.
  - apply Z.eqb_eq in Heq. subst n. right. split; [reflexivity |].
    exists w1, meter, s2, data.
    split; [reflexivity |]. split; [exact Hfetch |]. split; [reflexivity |].
    rewrite write_data_to_file_run.
    match goal with |- context [M34465a.close ?s] =>
      destruct (close_keeps s) as [Hc1 _]; destruct (M34465a.close s) as [s3 r3] end.
    cbn [fst world] in *. simp_world in Hc1. rewrite Hc1, Hf2. reflexivity.
  - left. simp_world.
    match goal with |- context [M34465a.close ?s] =>
      destruct (close_keeps s) as [Hc1 _]; destruct (M34465a.close s) as [s3 r3] end.
    cbn [fst world] in *. simp_world in Hc1. rewrite Hc1. exact Hf2.
Qed.

(** X6: whatever the instrument does, [get_existing_data] changes no file
    but the one named in the settings, and that one only when it was
    missing: then the file is made of one line per data point of a fetch
    whose count is the requested one.  A fetch yields at least one data
    point. *)
Theorem get_existing_data_only_appends (fuel : nat) (settings : Settings) (w : World) :
  let w' := fst (M34465a.get_existing_data fuel settings w) in
  (forall other : str,
     other <> filename settings -> fs_lookup other (files w') = fs_lookup other (files w)) /\
  (files w' = files w \/
   fs_lookup (filename settings) (files w) = None /\
   exists data : list str,
     data <> [] /\
     M34465a.num_samples settings = Ok (len data) /\
     fs_lookup (filename settings) (files w') = Some (lines data)).
Proof.
  cbv zeta.
  destruct (get_existing_data_files fuel settings w)
    as [H | (Hnew & w1 & meter & s2 & data & Hm & Hf & Hn & H)]; rewrite H.
  - split; [reflexivity | left; reflexivity].
  - split; [intros other Ho; apply fs_lookup_stored_other; exact Ho |].
    right. split; [exact Hnew |]. exists data.
    split; [| split; [exact Hn |]].
    + destruct (read_data_with_fetch_data _ _ _ _ Hf) as (t & ->). apply split_nonempty.
    + rewrite fs_lookup_stored. unfold file_text. rewrite Hnew. reflexivity.
Qed.

(** ** The bulk fetch *)

Lemma endswith_free (b : bytes) :
  forallb (fun c => negb (Ascii.eqb c nl)) b = true -> endswith b [nl] = false.
Proof.
  intros H. unfold endswith. rewrite <- forallb_rev in H.
  destruct (rev b) as [|c r]; [reflexivity |].
  cbn [forallb] in H. apply andb_true_iff in H as [H _].
  cbn [rev app starts_with]. rewrite Ascii.eqb_sym.
  destruct (Ascii.eqb c nl); [discriminate H | reflexivity].
Qed.

(** The loop of [read_data_with_fetch] over the reads that bring one
    line: all of them are appended, and the loop stops at the newline. *)
Lemma recv_line_run (fd : nat) (q : list recv_outcome) (t : bytes) :
  forallb (fun c => negb (Ascii.eqb c nl)) t = true ->
  forall (chunks : list bytes) (buff : bytes) (s : Session) (fuel : nat),
    sock (dev s) = Some fd ->
    inbound (world s) = map RecvData chunks ++ q ->
    forallb (fits 100000) chunks = true ->
    chunks <> [] ->
    buff ++ concat chunks = t ++ [nl] ->
    (length chunks < fuel)%nat ->
    exists s' : Session,
      M34465a.recv_line fuel buff s = (s', Ok (t ++ [nl])) /\
      dev s' = dev s /\ inbound (world s') = q /\
      written (trace (world s')) = written (trace (world s)) /\
      console (world s') = console (world s) /\ files (world s') = files (world s).
Proof.
  intros Ht.
  induction chunks as [|c cs IH]; intros buff s fuel Hfd Hin Hfits Hne Hcat Hfuel;
    [contradiction Hne; reflexivity |].
  cbn [forallb] in Hfits. apply andb_true_iff in Hfits as [Hc Hfits].
  unfold fits in Hc. apply andb_true_iff in Hc as [Hc1 Hc2]. apply Z.leb_le in Hc1, Hc2.
  cbn [concat] in Hcat.
  assert (Hbuff : endswith buff [nl] = false).
  { symmetry in Hcat.
    destruct (app_prefix_split buff t [nl] (c ++ concat cs) Hcat) as (x & Hx & Hr).
    - assert (L : len t + 1 = len buff + (len c + len (concat cs)))
        by (rewrite <- !len_app, <- Hcat, len_app; reflexivity).
      pose proof (len_nonneg (concat cs)). unfold len in *. lia.
    - apply endswith_free. rewrite Hx, forallb_app in Ht.
      apply andb_true_iff in Ht as [Ht _]. exact Ht. }
  destruct fuel as [|fuel]; [cbn in Hfuel; lia |].
  cbn [map app] in Hin.
  destruct (recv_whole (world s) 100000 c _ Hin Hc2) as [Hn Ha].
  set (s1 := mkSession (dev s) (received fd 100000 (world s))).
  assert (Hstep : M34465a.recv_line (S fuel) buff s = M34465a.recv_line fuel (buff ++ c) s1).
  { cbn [M34465a.recv_line]. rewrite Hbuff. cbn [negb].
    rewrite (bind_ok _ _ _ _ _ (the_sock_run s fd Hfd)). cbv beta.
    rewrite (bind_ok _ _ _ _ _ (recv_run s fd 100000 c Hn)). reflexivity. }
  rewrite Hstep.
  assert (Hw1 : written (trace (world s1)) = written (trace (world s))).
  { unfold s1, received. simp_world. rewrite written_app. cbn. apply app_nil_r. }
  destruct cs as [|c2 cs'].
  - cbn [concat] in Hcat. rewrite app_nil_r in Hcat.
    destruct fuel as [|fuel]; [cbn in Hfuel; lia |].
    exists s1. cbn [M34465a.recv_line]. rewrite Hcat, endswith_nl. cbn [negb].
    repeat split; try assumption; reflexivity.
  - destruct (IH (buff ++ c) s1 fuel) as (s' & Hrun & Hd & Hi & Hw & Hco & Hf).
    + exact Hfd.
    + exact Ha.
    + exact Hfits.
    + discriminate.
    + rewrite <- app_assoc. exact Hcat.
    + cbn [length] in *. lia.
    + exists s'. split; [exact Hrun |]. rewrite Hd, Hi, Hw, Hco, Hf.
      repeat split; assumption.
Qed.

Lemma strip_text_line (t : str) :
  forallb (fun c => negb (str_space c)) t = true -> strip (t ++ [nl]) = t.
Proof.
  destruct t as [|c r]; [reflexivity |].
  intros H. apply strip_line; [discriminate | exact H].
Qed.

Lemma reading_facts (samples : list str) :
  forallb reading samples = true ->
  let t := join "," samples in
  forallb is_ascii7 t = true /\
  forallb (fun c => negb (str_space c)) t = true /\
  forallb (fun c => negb (Ascii.eqb c nl)) t = true.
Proof.
  intros H. cbv zeta. pose proof (body_is_text samples H) as Hb.
  repeat split.
  - eapply forallb_impl; [| exact Hb]. cbv beta. intros x Hx.
    apply andb_true_iff in Hx as [Hx _]. exact Hx.
  - eapply forallb_impl; [| exact Hb]. cbv beta. intros x Hx.
    apply andb_true_iff in Hx as [_ Hx]. exact Hx.
  - eapply forallb_impl; [| exact Hb]. cbv beta. intros x Hx.
    apply andb_true_iff in Hx as [_ Hx].
    destruct (Ascii.eqb x nl) eqn:E; [| reflexivity].
    apply Ascii.eqb_eq in E. subst x. discriminate Hx.
Qed.

(** X7: [read_data_with_fetch] puts the reply together however it is
    split over the reads: for readings sent as one line, in any number of
    non-empty reads of at most 100000 bytes, it returns exactly the
    readings, sends [FETC?] once and reads no further than the newline. *)
Theorem read_data_with_fetch_reassembles (fuel : nat) (samples : list str)
    (chunks : list bytes) (rest : list recv_outcome) (s : Session) (fd : nat) :
  sock (dev s) = Some fd ->
  samples <> [] ->
  forallb reading samples = true ->
  concat chunks = join "," samples ++ [nl] ->
  forallb (fits 100000) chunks = true ->
  inbound (world s) = map RecvData chunks ++ rest ->
  (length chunks < fuel)%nat ->
  let s' := fst (M34465a.read_data_with_fetch fuel s) in
  snd (M34465a.read_data_with_fetch fuel s) = Ok samples /\
  inbound (world s') = rest /\
  written (trace (world s')) = written (trace (world s)) ++ [encode (txt "FETC?") ++ [nl]] /\
  console (world s') =
    console (world s) ++
    [Print (txt "Downloading data from the meter...");
     Print (txt "Download done.  Number of Samples = " ++ str_of_Z (len samples))].
Proof.
  intros Hfd Hne Hread Hcat Hfits Hin Hfuel. cbv zeta.
  destruct (reading_facts samples Hread) as (Hascii & Hnosp & Hnonl).
  assert (Hchunks : chunks <> []).
  { intros ->. cbn [concat] in Hcat. destruct (join "," samples); discriminate Hcat. }
  set (s0 := mkSession (dev s)
               (add_out (Print (txt "Downloading data from the meter...")) (world s))).
  assert (Hw : exists s1 : Session,
    fst (M34465a.write (txt "FETC?") s0) = s1 /\
    (exists b, snd (M34465a.write (txt "FETC?") s0) = Ok b) /\
    sock (dev s1) = Some fd /\ inbound (world s1) = inbound (world s) /\
    written (trace (world s1)) = written (trace (world s)) ++ [encode (txt "FETC?") ++ [nl]] /\
    console (world s1) = console (world s0)).
  { pose proof (write_run Keysight34465a (txt "FETC?") s0 fd Hfd) as H.
    unfold drv_write in H. rewrite H. cbv zeta.
    destruct (next_send (world s0)); (eexists; split; [reflexivity |]); cbn [snd];
      (split; [eexists; reflexivity |]); simp_world; unfold sent; simp_world;
      rewrite written_app; repeat split; try assumption; reflexivity. }
  destruct Hw as (s1 & Hs1 & (b & Hb) & Hfd1 & Hi1 & Hw1 & Hc1).
  assert (Hwrite : M34465a.write (txt "FETC?") s0 = (s1, Ok b)).
  { rewrite <- Hs1, <- Hb. destruct (M34465a.write (txt "FETC?") s0); reflexivity. }
  rewrite <- Hi1 in Hin.
  destruct (recv_line_run fd rest (join "," samples) Hnonl chunks [] s1 fuel
              Hfd1 Hin Hfits Hchunks Hcat Hfuel) as (s2 & Hrun & Hd2 & Hi2 & Hw2 & Hc2 & _).
  assert (Hgo : M34465a.read_data_with_fetch fuel s =
    (mkSession (dev s2)
       (add_out (Print (txt "Download done.  Number of Samples = " ++ str_of_Z (len samples)))
          (world s2)), Ok samples)).
  { unfold M34465a.read_data_with_fetch.
    unfold bind at 1. unfold io at 1, print at 1, say at 1. cbv beta iota. fold s0.
    rewrite (bind_ok _ _ _ _ _ Hwrite). cbv beta.
    rewrite (bind_ok _ _ _ _ _ Hrun). cbv beta.
    rewrite decode_ascii
      by (rewrite forallb_app, Hascii; reflexivity).
    rewrite (bind_ok _ _ _ _ _ (of_option_some (S := Session) UnicodeDecodeError _ s2)).
    cbv beta zeta.
    rewrite (strip_text_line _ Hnosp), (split_join "," samples Hne (samples_free _ Hread)).
    reflexivity. }
  rewrite Hgo. simp_world. rewrite Hi2, Hw2, Hw1, Hc2, Hc1. unfold s0. simp_world.
  rewrite <- app_assoc. repeat split.
Qed.

Lemma read_data_with_fetch_reassembles_witness :
  snd (M34465a.read_data_with_fetch 9
         (mkSession bench_device
            (arriving [RecvData (txt "+1.0E-03,+2."); RecvData (txt "0E-03,+3.0E-03" ++ [nl])]))) =
    Ok [txt "+1.0E-03"; txt "+2.0E-03"; txt "+3.0E-03"].
Proof.
  refine (proj1 (read_data_with_fetch_reassembles 9
            [txt "+1.0E-03"; txt "+2.0E-03"; txt "+3.0E-03"]
            [txt "+1.0E-03,+2."; txt "0E-03,+3.0E-03" ++ [nl]] []
            (mkSession bench_device
               (arriving [RecvData (txt "+1.0E-03,+2."); RecvData (txt "0E-03,+3.0E-03" ++ [nl])]))
            2%nat eq_refl _ eq_refl eq_refl eq_refl eq_refl _)).
  - discriminate.
  - cbn. lia.
Defined.

(** X8: a fetch that returns yields at least one data point: an empty
    reply line is read as one empty reading, not as no reading. *)
Theorem read_data_with_fetch_yields_a_reading (fuel : nat) (s : Session) :
  match snd (M34465a.read_data_with_fetch fuel s) with
  | Ok data => 1 <= len data
  | _ => True
  end /\
  (forall (fd : nat) (rest : list recv_outcome),
     sock (dev s) = Some fd -> inbound (world s) = RecvData [nl] :: rest -> (2 <= fuel)%nat ->
     snd (M34465a.read_data_with_fetch fuel s) = Ok [[]]).
Proof.
  split.
  - destruct (M34465a.read_data_with_fetch fuel s) as [s' [data|e|]] eqn:H; cbn [snd]; trivial.
    destruct (read_data_with_fetch_data _ _ _ _ H) as (t & ->).
    pose proof (split_nonempty "," (strip t)) as Hn.
    destruct (split "," (strip t)) as [|x xs]; [contradiction Hn; reflexivity |].
    rewrite len_cons. pose proof (len_nonneg xs). lia.
  - intros fd rest Hfd Hin Hfuel.
    set (s0 := mkSession (dev s)
                 (add_out (Print (txt "Downloading data from the meter...")) (world s))).
    pose proof (write_run Keysight34465a (txt "FETC?") s0 fd Hfd) as Hw.
    unfold drv_write in Hw. cbv zeta in Hw.
    unfold M34465a.read_data_with_fetch.
    unfold bind at 1. unfold io at 1, print at 1, say at 1. cbv beta iota. fold s0.
    unfold bind at 1. rewrite Hw.
    destruct fuel as [|[|fuel]]; [lia | lia |].
    destruct (next_send (world s0)); cbv beta iota;
      (unfold bind at 1; cbn [M34465a.recv_line];
       change (endswith [] [nl]) with false; cbn [negb];
       match goal with
       | |- context [bind the_sock _ ?s1] =>
           rewrite (bind_ok _ _ _ _ _ (the_sock_run s1 fd Hfd)); cbv beta;
           assert (Hn : next_recv 100000 (world s1) = RecvData [nl])
             by (unfold next_recv, sent, s0; simp_world; rewrite Hin; reflexivity);
           rewrite (bind_ok _ _ _ _ _ (recv_run s1 fd 100000 [nl] Hn))
       end;
       reflexivity).
Qed.

(** ** The operation status register *)



Lemma io_logger_run (lvl : level) (t : str) (s : Session) :
  io (logger lvl t) s = (mkSession (dev s) (add_out (Log lvl t) (world s)), Ok tt).
Proof. reflexivity. Qed.

Lemma io_print_run (t : str) (s : Session) :
  io (print t) s = (mkSession (dev s) (add_out (Print t) (world s)), Ok tt).
Proof. reflexivity. Qed.

(** The lines that [show_op_reg] logs for the register value [v]. *)
Lemma show_op_reg_lines (v : Z) (d : ScpiDevice) :
  forall (l : list (Z * str)) (w : World),
    Forall (fun bn => 0 <= fst bn) l ->
    for_each l (fun '(bit, name) =>
      let bit_status := negb (Z.land v (Z.shiftl 1 bit) =? 0) in
      let message := txt "    " ++ ljust 20 name ++ txt " = " ++ str_of_bool bit_status in
      io (logger DEBUG message)) (mkSession d w) =
    (mkSession d
       (mkWorld (connects w) (sends w) (inbound w) (stdin w) (files w) (next_fd w) (trace w)
          (console w ++ map (register_line v) l)), Ok tt).
Proof.
  induction l as [|[bit name] l IH]; intros w Hl.
  - cbn [for_each map]. rewrite app_nil_r. destruct w; reflexivity.
  - inversion Hl as [|? ? Hb Hl']; subst. cbn [fst] in Hb.
    cbn [for_each]. unfold bind at 1. unfold io at 1, logger at 1, say at 1.
    cbv beta iota zeta. simp_world. rewrite (IH _ Hl'). simp_world.
    rewrite land_bit by exact Hb.
    cbn [map]. unfold register_line at 2. cbn [fst snd]. rewrite <- app_assoc. reflexivity.
Qed.



(** ** More of [trigger_and_fetch] *)



(** X12: [trigger_and_fetch] does nothing on the instrument when the
    settings ask for more than 2000000 samples: it prints its advice and
    returns, with no trigger sent.  When the sample count cannot be
    computed (a sample rate of zero, say) the error is raised before
    anything is sent. *)
Theorem trigger_and_fetch_refuses_large_runs (fuel : nat) (settings : Settings)
    (progress : bool) (s : Session) :
  match M34465a.num_samples settings with
  | Ok n =>
      2000000 < n ->
      M34465a.trigger_and_fetch fuel settings progress s =
        (mkSession (dev s)
           (add_out (Print (txt "Read_with_fetch only works with less than 2M samples. "
                            ++ txt "Try using read_data instead.")) (world s)),
         Ok tt)
  | Raise e => M34465a.trigger_and_fetch fuel settings progress s = (s, Raise e)
  | Diverge => True
  end.
Proof.
  unfold M34465a.trigger_and_fetch.
  destruct (M34465a.num_samples settings) as [n|e|]; [| reflexivity | exact I].
  intros Hn. apply Z.ltb_lt in Hn.
  unfold bind at 1. unfold of_result at 1. rewrite Hn. reflexivity.
Qed.

Lemma trigger_and_fetch_refuses_large_runs_witness :
  trace (world (fst (M34465a.trigger_and_fetch 9 forty_days true idle_session))) = [].
Proof.
  assert (H : M34465a.num_samples forty_days = Ok 345600000) by (vm_compute; reflexivity).
  pose proof (trigger_and_fetch_refuses_large_runs 9 forty_days true idle_session) as T.
  rewrite H in T. rewrite (T ltac:(lia)). reflexivity.
Defined.

(** X13: [calc_34465a_aperture] never gives less than the floor of 22
    microseconds: it is the duration over 2000000 when that is not below
    the floor, and the floor otherwise.  With the default duration of 30
    seconds it is the floor, and the default settings ask for 1363636
    samples. *)
Theorem calc_34465a_aperture_floor (duration : float) :
  PrimFloat.ltb (M34465a.calc_34465a_aperture duration) M34465a.min_aperture = false /\
  (if PrimFloat.ltb (PrimFloat.div duration M34465a.max_samples) M34465a.min_aperture
   then M34465a.calc_34465a_aperture duration = M34465a.min_aperture
   else M34465a.calc_34465a_aperture duration = PrimFloat.div duration M34465a.max_samples) /\
  aperture M34465a.default_settings = M34465a.min_aperture /\
  M34465a.num_samples M34465a.default_settings = Ok 1363636.
Proof.
  unfold M34465a.calc_34465a_aperture.
  destruct (PrimFloat.ltb (PrimFloat.div duration M34465a.max_samples) M34465a.min_aperture)
    eqn:E.
  - repeat split; vm_compute; reflexivity.
  - split; [exact E |]. repeat split; vm_compute; reflexivity.
Qed.

(** ** Headers that [parse_block_header] accepts *)

Lemma endswith_last (p : bytes) (c : ascii) : endswith (p ++ [c]) [nl] = Ascii.eqb nl c.
Proof.
  unfold endswith. rewrite rev_app_distr. cbn [rev app starts_with].
  apply andb_true_r.
Qed.

(** X14: [parse_block_header] reads the header of every block
    [#<D><L-digits>...] with one to nine length digits, whatever follows:
    the data starts after the digits, the declared length is the value of
    the digits, and the actual length is counted from the bytes that
    follow, less one newline at the end.  The two lengths are not compared
    here; a block without its terminator whose data ends in a newline byte
    is counted one byte short. *)
Theorem parse_block_header_reads_header (ldigits payload : bytes) :
  1 <= len ldigits <= 9 ->
  all_digits ldigits = true ->
  M34465a.parse_block_header (block_header ldigits ++ payload ++ [nl]) =
    Ok (len ldigits + 2, decimal ldigits, len payload) /\
  M34465a.parse_block_header (block_header ldigits ++ payload) =
    Ok (len ldigits + 2, decimal ldigits,
        if endswith payload [nl] then len payload - 1 else len payload).
Proof.
  intros Hd Hdig.
  assert (Hne : ldigits <> []) by (intros ->; cbn in Hd; lia).
  assert (Hlen : len ldigits + 2 = len (block_header ldigits))
    by (unfold block_header; rewrite !len_cons; lia).
  split.
  - unfold M34465a.parse_block_header.
    rewrite header_count, (digit_count_byte _ Hd), header_field,
      (int_of_bytes_digits _ Hne Hdig).
    rewrite (app_assoc (block_header ldigits)), py_slice_last.
    change (eqs [nl] [nl]) with true. cbv iota.
    rewrite <- app_assoc, Hlen, py_slice_app_mid_last. reflexivity.
  - unfold M34465a.parse_block_header.
    rewrite header_count, (digit_count_byte _ Hd), header_field,
      (int_of_bytes_digits _ Hne Hdig).
    destruct payload as [|c p _] using rev_ind.
    + change (endswith [] [nl]) with false. cbv iota.
      rewrite app_nil_r.
      destruct (exists_last Hne) as (l' & c & Hl).
      assert (Hc : is_digit c = true).
      { unfold all_digits in Hdig. rewrite Hl, forallb_app in Hdig.
        apply andb_true_iff in Hdig as [_ Hdig]. cbn [forallb] in Hdig.
        apply andb_true_iff in Hdig as [Hdig _]. exact Hdig. }
      assert (Hb : block_header ldigits = ("#"%char :: chr (48 + len ldigits) :: l') ++ [c])
        by (unfold block_header; rewrite Hl at 2; reflexivity).
      rewrite Hb at 1. rewrite py_slice_last.
      assert (Hnl : eqs [c] [nl] = false).
      { cbn [eqs]. destruct (Ascii.eqb c nl) eqn:E; [| reflexivity].
        apply Ascii.eqb_eq in E. subst c. discriminate Hc. }
      rewrite Hnl. cbv iota. rewrite <- (app_nil_r (block_header ldigits)) at 1.
      rewrite Hlen, py_slice_app_from. reflexivity.
    + rewrite endswith_last.
      rewrite (app_assoc (block_header ldigits)), py_slice_last. cbn [eqs].
      rewrite andb_true_r, Ascii.eqb_sym.
      destruct (Ascii.eqb nl c) eqn:E; rewrite <- app_assoc, Hlen.
      * rewrite py_slice_app_mid_last, len_app. change (len [c]) with 1.
        replace (len p + 1 - 1) with (len p) by lia. reflexivity.
      * rewrite py_slice_app_from. reflexivity.
Qed.

Lemma parse_block_header_reads_header_witness :
  M34465a.parse_block_header (txt "#15+1.0,+2.0" ++ [nl]) = Ok (3, 5, 9).
Proof.
  exact (proj1 (parse_block_header_reads_header (txt "5") (txt "+1.0,+2.0")
                  ltac:(change (len (txt "5")) with 1; lia) eq_refl)).
Defined.

(** ** More of [send_commands] *)

(** X15: a checked sequence whose error queries are all answered by the
    sentinel returns normally: every command has been written, in order,
    each followed by its error query (and preceded, in the DMM6500 driver,
    by the clearing of the queue), and exactly the replies have been read.
    An empty sequence sends nothing. *)
Theorem send_commands_clean_run (drv : driver) (cmds : list str) (replies : list bytes)
    (s : Session) (fd : nat) (rest : list recv_outcome) :
  sock (dev s) = Some fd ->
  sends_succeed (world s) ->
  inbound (world s) = map RecvData replies ++ rest ->
  length replies = length cmds ->
  forallb (clean_reply drv (buffersize (dev s))) replies = true ->
  let s' := fst (drv_send_commands drv cmds s) in
  snd (drv_send_commands drv cmds s) = Ok tt /\
  written (trace (world s')) = written (trace (world s)) ++ flat_map (command_writes drv) cmds /\
  inbound (world s') = rest.
Proof.
  cbv zeta. revert replies s.
  induction cmds as [|c cmds IH]; intros replies s Hfd Hs Hin Hlen Hclean;
    destruct replies as [|r replies]; try discriminate Hlen.
  - cbn [map app] in Hin. cbn [flat_map]. rewrite app_nil_r.
    destruct drv; cbn; auto.
  - cbn [app map] in Hin. cbn [forallb] in Hclean.
    apply andb_true_iff in Hclean as [Hr Hclean]. unfold clean_reply in Hr.
    apply andb_true_iff in Hr as [Hrfit Hrtext]. apply Z.leb_le in Hrfit.
    destruct (error_text r) as [e |] eqn:He; [| discriminate].
    rewrite (send_commands_step drv c cmds s fd r (map RecvData replies ++ rest) e
               Hfd Hs Hin Hrfit He), Hrtext.
    destruct (checked_facts drv fd c s r _ Hfd Hs Hin Hrfit) as (Hfd' & Hb' & Hs' & Hi' & Hw').
    cbv zeta in Hb'.
    assert (Hlen' : length replies = length cmds) by (injection Hlen; auto).
    destruct (IH replies (checked drv fd c s) Hfd' Hs' Hi' Hlen' Hclean)
      as (Hres & Hwr & Hrest).
    split; [exact Hres | split; [| exact Hrest]].
    rewrite Hwr, Hw'. cbn [flat_map]. rewrite <- app_assoc. reflexivity.
Qed.

Lemma send_commands_clean_run_witness :
  snd (drv_send_commands KeithleyDMM6500 [txt "*RST"; txt ":DISP:CLE"]
         (mkSession bench_device (arriving [RecvData reply_no_error; RecvData reply_no_error]))) =
    Ok tt /\
  written (trace (world (fst (drv_send_commands KeithleyDMM6500 [txt "*RST"; txt ":DISP:CLE"]
         (mkSession bench_device
            (arriving [RecvData reply_no_error; RecvData reply_no_error])))))) =
    [txt ":SYSTem:CLEar" ++ [nl]; txt "*RST" ++ [nl]; txt ":SYSTem:ERRor:NEXT?" ++ [nl];
     txt ":SYSTem:CLEar" ++ [nl]; txt ":DISP:CLE" ++ [nl]; txt ":SYSTem:ERRor:NEXT?" ++ [nl]].
Proof.
  pose proof (send_commands_clean_run KeithleyDMM6500 [txt "*RST"; txt ":DISP:CLE"]
                [reply_no_error; reply_no_error]
                (mkSession bench_device
                   (arriving [RecvData reply_no_error; RecvData reply_no_error]))
                2%nat [] eq_refl (Forall_nil _) eq_refl eq_refl eq_refl) as (H1 & H2 & _).
  split; [exact H1 | exact H2].
Defined.

(** X16: when the command itself cannot be sent, [send_commands] raises
    CommandError at once: the error queue is not queried, nothing is read
    and the rest of the sequence is not sent.  The 34465a driver raises a
    fixed text; the DMM6500 driver raises the error text that the failed
    send left on the device. *)
Theorem send_commands_write_failure (drv : driver) (cmd : str) (cmds : list str)
    (s : Session) (fd : nat) (err : str) :
  sock (dev s) = Some fd ->
  command_send drv (world s) = SendError err ->
  let s' := fst (drv_send_commands drv (cmd :: cmds) s) in
  snd (drv_send_commands drv (cmd :: cmds) s) =
    Raise (CommandError (write_failure_text drv err)) /\
  written (trace (world s')) = written (trace (world s)) ++ command_only drv cmd /\
  inbound (world s') = inbound (world s).
Proof.
  intros Hfd Herr. cbv zeta.
  assert (Hgo : exists s' : Session,
    drv_send_commands drv (cmd :: cmds) s =
      (s', Raise (CommandError (write_failure_text drv err))) /\
    written (trace (world s')) = written (trace (world s)) ++ command_only drv cmd /\
    inbound (world s') = inbound (world s)).
  { destruct drv; unfold command_send in Herr; unfold drv_send_commands.
    - unfold M34465a.send_commands. cbn [for_each].
      unfold bind at 1. unfold bind at 1.
      pose proof (write_run Keysight34465a cmd s fd Hfd) as Hw. unfold drv_write in Hw.
      rewrite Hw, Herr. cbv zeta. cbn [negb]. unfold bind, raise.
      eexists. split; [reflexivity |]. simp_world.
      unfold sent. simp_world. rewrite written_app. split; reflexivity.
    - unfold DMM6500.send_commands. cbn [for_each].
      unfold bind at 1. unfold bind at 1. unfold io at 1, logger at 1, say at 1.
      cbv beta iota. unfold bind at 1.
      set (s0 := mkSession (dev s)
                   (add_out (Log INFO (txt "Sending command: " ++ cmd)) (world s))).
      pose proof (write_run KeithleyDMM6500 (txt ":SYSTem:CLEar") s0 fd Hfd) as Hc.
      unfold drv_write in Hc. cbv zeta in Hc.
      assert (Hclear : exists s1 b,
        DMM6500._write (txt ":SYSTem:CLEar") s0 = (s1, Ok b) /\
        sock (dev s1) = Some fd /\
        world s1 = sent fd (encode (txt ":SYSTem:CLEar") ++ [nl]) (world s0)).
      { rewrite Hc. destruct (next_send (world s0)); eexists _, _; repeat split; exact Hfd. }
      destruct Hclear as (s1 & b & Hc1 & Hfd1 & Hw1).
      rewrite Hc1. cbv beta iota. unfold bind at 1.
      pose proof (write_run KeithleyDMM6500 cmd s1 fd Hfd1) as Hw.
      unfold drv_write in Hw. cbv zeta in Hw.
      assert (Hn : next_send (world s1) = SendError err)
        by (rewrite Hw1; unfold next_send, sent, s0; simp_world; exact Herr).
      rewrite Hw, Hn. cbn [negb]. unfold bind, self, raise.
      eexists. split; [reflexivity |]. simp_world.
      rewrite Hw1. unfold sent, s0. simp_world. rewrite !written_app, <- app_assoc.
      split; reflexivity. }
  destruct Hgo as (s' & Hrun & Hw & Hi). rewrite Hrun. cbn [fst snd]. auto.
Qed.

Lemma send_commands_write_failure_witness :
  snd (drv_send_commands KeithleyDMM6500 [txt "*RST"; txt ":DISP:CLE"]
         (mkSession bench_device
            (mkWorld [] [SendOk; SendError (txt "[Errno 32] Broken pipe")] [] [] [] 3 [] []))) =
    Raise (CommandError (txt "ERROR: Socket send error: [Errno 32] Broken pipe")).
Proof.
  exact (proj1 (send_commands_write_failure KeithleyDMM6500 (txt "*RST") [txt ":DISP:CLE"]
                  (mkSession bench_device
                     (mkWorld [] [SendOk; SendError (txt "[Errno 32] Broken pipe")] [] [] [] 3 [] []))
                  2%nat (txt "[Errno 32] Broken pipe") eq_refl eq_refl)).
Defined.

Lemma py_index_single_1 {A} (x : A) : py_index [x] 1 = None.
Proof. reflexivity. Qed.

(** The error query of a checked command, when the sends succeed: what
    [get_error] returns is what the next read meets. *)
Lemma get_error_reply (drv : driver) (s : Session) (fd : nat) :
  sock (dev s) = Some fd -> sends_succeed (world s) ->
  exists s' : Session,
    drv_get drv (error_query drv) s =
      (s', Ok (reply_of SendOk (next_recv (buffersize (dev s)) (world s)))).
Proof.
  intros Hfd Hs.
  destruct (get_summary drv (error_query drv) s fd Hfd) as (s' & Hget & _).
  rewrite (next_send_ok _ Hs) in Hget. exists s'. exact Hget.
Qed.

(** X17: [send_commands] turns only the instrument's error text into a
    CommandError.  When the reply to the error query is not read (a
    timeout, a socket error) the sequence stops with AttributeError; when
    the reply has no comma, with IndexError; when it is not well-formed
    UTF-8, with UnicodeDecodeError. *)
Theorem send_commands_unreadable_reply (drv : driver) (cmd : str) (cmds : list str)
    (s : Session) (fd : nat) :
  sock (dev s) = Some fd ->
  sends_succeed (world s) ->
  match next_recv (buffersize (dev s)) (world s) with
  | RecvData reply =>
      (forall t : str, decode reply = Some t -> free_of "," t = true ->
         snd (drv_send_commands drv (cmd :: cmds) s) = Raise IndexError) /\
      (utf8_ok reply = false ->
         snd (drv_send_commands drv (cmd :: cmds) s) = Raise UnicodeDecodeError)
  | _ => snd (drv_send_commands drv (cmd :: cmds) s) = Raise AttributeError
  end.
Proof.
  intros Hfd Hs.
  assert (Hgo : exists s' : Session,
    drv_send_commands drv (cmd :: cmds) s =
      (reply <- ret (reply_of SendOk (next_recv (buffersize (dev s)) (world s))) ;;
       t <- decode_reply (snd reply) ;;
       field <- of_option IndexError (py_index (split "," t) 1) ;;
       let error := strip field in
       (if negb (no_error drv error) then
          raise (CommandError (txt "Command Error in send_commands: " ++ cmd
                               ++ txt "," ++ error))
        else ret tt) ;;
       drv_send_commands drv cmds) s').
  { destruct drv; unfold drv_send_commands.
    - unfold M34465a.send_commands. cbn [for_each].
      unfold bind at 1. unfold bind at 1.
      pose proof (write_ok Keysight34465a cmd s fd Hfd Hs) as Hw. unfold drv_write in Hw.
      rewrite Hw. cbn [negb]. unfold bind at 1. unfold ret at 1. unfold bind at 1.
      unfold M34465a.get_error.
      destruct (get_error_reply Keysight34465a
                  (mkSession (with_error None (dev s)) (sent fd (encode cmd ++ [nl]) (world s)))
                  fd Hfd (sends_succeed_sent fd _ _ Hs)) as (s' & Hg).
      unfold drv_get, error_query in Hg. simp_world in Hg. rewrite next_recv_sent in Hg.
      rewrite Hg. exists s'. unfold no_error.
      destruct (next_recv (buffersize (dev s)) (world s)) as [reply| |e];
        cbn [reply_of snd]; run; cbn [snd]; try reflexivity.
      destruct (decode reply) as [t|]; [| reflexivity].
      destruct (py_index (split "," t) 1) as [field|]; [| reflexivity].
      destruct (eqs (strip field) (dq :: txt "No error" ++ [dq])); reflexivity.
    - unfold DMM6500.send_commands. cbn [for_each].
      unfold bind at 1. unfold bind at 1. unfold io at 1, logger at 1, say at 1.
      cbv beta iota. unfold bind at 1.
      assert (Hs0 : sends_succeed (add_out (Log INFO (txt "Sending command: " ++ cmd)) (world s)))
        by auto with script.
      pose proof (write_ok KeithleyDMM6500 (txt ":SYSTem:CLEar")
                    (mkSession (dev s)
                       (add_out (Log INFO (txt "Sending command: " ++ cmd)) (world s)))
                    fd Hfd Hs0) as Hc.
      unfold drv_write in Hc. simp_world. rewrite Hc. cbv beta iota. simp_world.
      unfold bind at 1.
      pose proof (write_ok KeithleyDMM6500 cmd
                    (mkSession (with_error None (dev s))
                       (sent fd (encode (txt ":SYSTem:CLEar") ++ [nl])
                          (add_out (Log INFO (txt "Sending command: " ++ cmd)) (world s))))
                    fd Hfd (sends_succeed_sent fd _ _ Hs0)) as Hw.
      unfold drv_write in Hw. rewrite Hw. cbn [negb]. simp_world.
      unfold bind at 1. unfold ret at 1. unfold bind at 1.
      unfold DMM6500.get_error.
      destruct (get_error_reply KeithleyDMM6500
                  (mkSession (with_error None (with_error None (dev s)))
                     (sent fd (encode cmd ++ [nl])
                        (sent fd (encode (txt ":SYSTem:CLEar") ++ [nl])
                           (add_out (Log INFO (txt "Sending command: " ++ cmd)) (world s)))))
                  fd Hfd (sends_succeed_sent fd _ _ (sends_succeed_sent fd _ _ Hs0)))
        as (s' & Hg).
      unfold drv_get, error_query in Hg. simp_world in Hg. rewrite !next_recv_sent in Hg.
      change (next_recv (buffersize (dev s))
                (add_out (Log INFO (txt "Sending command: " ++ cmd)) (world s)))
        with (next_recv (buffersize (dev s)) (world s)) in Hg.
      rewrite Hg. exists s'. unfold no_error.
      destruct (next_recv (buffersize (dev s)) (world s)) as [reply| |e];
        cbn [reply_of snd]; run; cbn [snd]; try reflexivity.
      destruct (decode reply) as [t|]; [| reflexivity].
      destruct (py_index (split "," t) 1) as [field|]; [| reflexivity].
      destruct (contains (txt "No error") (strip field)); reflexivity. }
  destruct Hgo as (s' & Hgo).
  destruct (next_recv (buffersize (dev s)) (world s)) as [reply| |err];
    [| rewrite Hgo; reflexivity ..].
  split.
  - intros t Ht Hfree. rewrite Hgo. cbn [reply_of]. unfold bind, ret, decode_reply. cbn [snd].
    rewrite Ht. cbn [of_option]. unfold ret. rewrite (split_free _ _ Hfree).
    rewrite py_index_single_1. reflexivity.
  - intros Hbad. rewrite Hgo. cbn [reply_of]. unfold bind, ret, decode_reply. cbn [snd].
    rewrite (decode_garbled reply Hbad). reflexivity.
Qed.

Lemma send_commands_unreadable_reply_witness :
  snd (drv_send_commands Keysight34465a [txt "*RST"; txt "INIT"]
         (mkSession bench_device (arriving [RecvTimeout]))) = Raise AttributeError /\
  snd (drv_send_commands Keysight34465a [txt "*RST"; txt "INIT"]
         (mkSession bench_device (arriving [RecvData measuring_reply]))) = Raise IndexError /\
  snd (drv_send_commands KeithleyDMM6500 [txt "*RST"; txt "INIT"]
         (mkSession bench_device (arriving [RecvData [chr 255; nl]]))) =
    Raise UnicodeDecodeError.
Proof.
  split; [| split].
  - exact (send_commands_unreadable_reply Keysight34465a (txt "*RST") [txt "INIT"]
             (mkSession bench_device (arriving [RecvTimeout])) 2%nat eq_refl (Forall_nil _)).
  - exact (proj1 (send_commands_unreadable_reply Keysight34465a (txt "*RST") [txt "INIT"]
                    (mkSession bench_device (arriving [RecvData measuring_reply]))
                    2%nat eq_refl (Forall_nil _)) _ eq_refl eq_refl).
  - exact (proj2 (send_commands_unreadable_reply KeithleyDMM6500 (txt "*RST") [txt "INIT"]
                    (mkSession bench_device (arriving [RecvData [chr 255; nl]]))
                    2%nat eq_refl (Forall_nil _)) eq_refl).
Defined.

(** ** More of [get_screen_dump] *)

Lemma py_index_short {A} (d : list A) : len d < 2 -> py_index d 1 = None.
Proof.
  intros H. unfold py_index. change (1 <? 0) with false. cbv iota.
  replace (1 <? len d) with false by (symmetry; apply Z.ltb_ge; lia).
  reflexivity.
Qed.

(** X18: the failures of [get_screen_dump].  When the query cannot be sent
    the result is [False] and nothing is read.  The reads themselves are
    not guarded: a timeout or a socket error at the first read goes up to
    the caller, and a first read of fewer than two bytes fails with
    IndexError.  In none of these cases is a file written. *)
Theorem get_screen_dump_failures (fuel : nat) (filename : str) (s : Session) (fd : nat) :
  sock (dev s) = Some fd ->
  let r := snd (M34465a.get_screen_dump fuel filename s) in
  let s' := fst (M34465a.get_screen_dump fuel filename s) in
  match next_send (world s) with
  | SendError _ =>
      r = Ok false /\ inbound (world s') = inbound (world s) /\
      files (world s') = files (world s)
  | SendOk =>
      match next_recv 256 (world s) with
      | RecvTimeout => r = Raise SocketTimeout /\ files (world s') = files (world s)
      | RecvError err => r = Raise (SocketError err) /\ files (world s') = files (world s)
      | RecvData d => len d < 2 -> r = Raise IndexError /\ files (world s') = files (world s)
      end
  end.
Proof.
  intros Hfd. cbv zeta.
  pose proof (write_run Keysight34465a (txt "HCOPy:SDUMp:DATA?") s fd Hfd) as Hw.
  unfold drv_write in Hw. cbv zeta in Hw.
  destruct (next_send (world s)) as [|err] eqn:Hsend.
  - set (s0 := mkSession (with_error None (dev s))
                 (sent fd (encode (txt "HCOPy:SDUMp:DATA?") ++ [nl]) (world s))) in *.
    assert (Hn : next_recv 256 (world s0) = next_recv 256 (world s)) by reflexivity.
    assert (Hgo : M34465a.get_screen_dump fuel filename s =
      match next_recv 256 (world s) with
      | RecvData d =>
          (b1 <- of_option IndexError (py_index d 1) ;;
           num_digits <- of_option ValueError (int_of_str [chr (code b1)]) ;;
           file_size <- of_option ValueError
                          (int_of_bytes (py_slice d (Some 2) (Some (num_digits + 2)))) ;;
           let buff := py_slice d (Some (2 + num_digits)) None in
           buff <- M34465a.recv_rest fuel file_size buff ;;
           io (file_write filename (py_slice buff (Some 0) (Some (-1)))) ;;
           ret true) (mkSession (dev s0) (received fd 256 (world s0)))
      | RecvTimeout => (mkSession (dev s0) (received fd 256 (world s0)), Raise SocketTimeout)
      | RecvError err =>
          (mkSession (dev s0) (received fd 256 (world s0)), Raise (SocketError err))
      end).
    { unfold M34465a.get_screen_dump. rewrite (bind_ok _ _ _ _ _ Hw). cbv beta iota.
      rewrite (bind_ok _ _ _ _ _ (the_sock_run s0 fd Hfd)). cbv beta.
      unfold bind at 1. unfold io at 1, sock_recv at 1. cbv beta iota zeta.
      fold (received fd 256 (world s0)). rewrite Hn.
      destruct (next_recv 256 (world s)); reflexivity. }
    rewrite Hgo.
    destruct (next_recv 256 (world s)) as [d| |err]; [| split; reflexivity ..].
    intros Hd. rewrite (py_index_short d Hd). split; reflexivity.
  - unfold M34465a.get_screen_dump. rewrite (bind_ok _ _ _ _ _ Hw). cbv beta iota.
    repeat split.
Qed.

Lemma get_screen_dump_failures_witness :
  snd (M34465a.get_screen_dump 5 (txt "screen.png")
         (mkSession bench_device (arriving [RecvData []]))) = Raise IndexError /\
  files (world (fst (M34465a.get_screen_dump 5 (txt "screen.png")
         (mkSession bench_device (arriving [RecvData []]))))) = [].
Proof.
  refine (get_screen_dump_failures 5 (txt "screen.png")
            (mkSession bench_device (arriving [RecvData []])) 2%nat eq_refl _).
  reflexivity.
Defined.

Lemma py_slice_removelast {A} (s : list A) : py_slice s (Some 0) (Some (-1)) = removelast s.
Proof.
  destruct s as [|c p _] using rev_ind; [reflexivity |].
  rewrite py_slice_drop_last, removelast_last. reflexivity.
Qed.

(** The loop of [get_screen_dump] over the reads that bring the rest of
    the declared bytes and no more. *)
Lemma recv_rest_exact (fd : nat) (file_size : Z) (q : list recv_outcome) (cs : list bytes)
      (buff : bytes) (s : Session) (fuel : nat) :
  sock (dev s) = Some fd ->
  inbound (world s) = map RecvData cs ++ q ->
  forallb (fits 256) cs = true ->
  len buff + len (concat cs) = file_size ->
  (length cs < fuel)%nat ->
  exists s' : Session,
    M34465a.recv_rest fuel file_size buff s = (s', Ok (buff ++ concat cs)) /\
    inbound (world s') = q /\ files (world s') = files (world s).
Proof.
  intros Hfd Hin Hfits Hlen Hfuel.
  destruct cs as [|c2 cs' _] using rev_ind.
  - cbn [concat] in *. rewrite app_nil_r. change (len []) with 0 in Hlen.
    destruct fuel as [|fuel]; [cbn in Hfuel; lia |].
    exists s. rewrite recv_rest_done by lia. auto.
  - rewrite concat_app in *. cbn [concat] in *. rewrite app_nil_r in *.
    rewrite forallb_app in Hfits. apply andb_true_iff in Hfits as [Hinit Hc2].
    cbn [forallb] in Hc2. rewrite andb_true_r in Hc2.
    unfold fits in Hc2. apply andb_true_iff in Hc2 as [Hc21 Hc22].
    apply Z.leb_le in Hc21, Hc22.
    rewrite len_app in Hlen.
    rewrite map_app, <- app_assoc in Hin. cbn [map app] in Hin.
    rewrite length_app in Hfuel. cbn [length] in Hfuel.
    destruct (recv_rest_more fd file_size (RecvData c2 :: q) cs' buff s
                (fuel - length cs')) as (s2 & Hrun & Hfd2 & Hi2 & Hf2);
      [exact Hfd | exact Hin | exact Hinit | lia |].
    replace (length cs' + (fuel - length cs'))%nat with fuel in Hrun by lia.
    destruct (recv_whole (world s2) 256 c2 q Hi2 Hc22) as [Hn2 Ha2].
    exists (mkSession (dev s2) (received fd 256 (world s2))).
    rewrite Hrun.
    destruct (fuel - length cs')%nat as [|[|f]] eqn:Hfl; [lia | lia |].
    cbn [M34465a.recv_rest].
    replace (len (buff ++ concat cs') <? file_size) with true
      by (symmetry; apply Z.ltb_lt; rewrite len_app; lia).
    run. rewrite Hfd2. cbv beta iota. fold (received fd 256 (world s2)). rewrite Hn2.
    replace (len ((buff ++ concat cs') ++ c2) <? file_size) with false
      by (symmetry; apply Z.ltb_ge; rewrite !len_app; lia).
    rewrite <- app_assoc. simp_world. auto.
Qed.

(** X19: [get_screen_dump] stops reading as soon as it holds the declared
    number of bytes and then drops the last byte it holds.  So when the
    reads that bring the data do not bring the terminator along, the file
    is short of the last byte of the data, and the terminator is left on
    the socket. *)
Theorem get_screen_dump_drops_last_byte (fuel : nat) (filename : str)
    (ldigits payload : bytes) (chunks : list bytes) (rest : list recv_outcome)
    (s : Session) (fd : nat) :
  sock (dev s) = Some fd ->
  sends_succeed (world s) ->
  well_framed ldigits payload = true ->
  concat chunks = block_header ldigits ++ payload ->
  forallb (fits 256) chunks = true ->
  2 + len ldigits <= len (hd [] chunks) ->
  inbound (world s) = map RecvData chunks ++ rest ->
  (length chunks < fuel)%nat ->
  snd (M34465a.get_screen_dump fuel filename s) = Ok true /\
  files (world (fst (M34465a.get_screen_dump fuel filename s))) =
    fs_store filename (removelast payload) (files (world s)) /\
  inbound (world (fst (M34465a.get_screen_dump fuel filename s))) = rest.
Proof.
  intros Hfd Hs Hwf Hcat Hfits Hhd Hin Hfuel.
  destruct (well_framed_facts _ _ Hwf) as (Hd & Hne & Hdig & Hval & Hhlen).
  destruct chunks as [|c1 cs].
  { cbn [hd] in Hhd. change (len []) with 0 in Hhd. lia. }
  cbn [hd] in Hhd. cbn [concat] in Hcat.
  destruct (app_prefix_split (block_header ldigits) c1 (concat cs) payload Hcat)
    as (x & Hc1 & Hx).
  { unfold len in Hhlen, Hhd. lia. }
  cbn [forallb] in Hfits. apply andb_true_iff in Hfits as [Hf1 Hfits].
  unfold fits in Hf1. apply andb_true_iff in Hf1 as [_ Hf1]. apply Z.leb_le in Hf1.
  cbn [map app] in Hin.
  set (s0 := mkSession (with_error None (dev s))
               (sent fd (encode (txt "HCOPy:SDUMp:DATA?") ++ [nl]) (world s))).
  assert (Hin0 : inbound (world s0) = RecvData c1 :: map RecvData cs ++ rest) by exact Hin.
  destruct (recv_whole (world s0) 256 c1 _ Hin0 Hf1) as [Hn Ha].
  set (s1 := mkSession (dev s0) (received fd 256 (world s0))).
  destruct (recv_rest_exact fd (len payload) rest cs x s1 fuel) as (s2 & Hrun & Hi2 & Hf2).
  { exact Hfd. }
  { exact Ha. }
  { exact Hfits. }
  { rewrite <- len_app, <- Hx. reflexivity. }
  { cbn [length] in Hfuel. lia. }
  rewrite <- Hx in Hrun.
  assert (Hgo : M34465a.get_screen_dump fuel filename s =
    (mkSession (dev s2)
       (set_files (fs_store filename (removelast payload) (files (world s2))) (world s2)),
     Ok true)).
  { unfold M34465a.get_screen_dump.
    pose proof (write_ok Keysight34465a (txt "HCOPy:SDUMp:DATA?") s fd Hfd Hs) as Hw.
    unfold drv_write in Hw. fold s0 in Hw. step Hw. cbv iota.
    step (the_sock_run s0 fd Hfd). step (recv_run s0 fd 256 c1 Hn). fold s1.
    rewrite Hc1, header_index.
    step (of_option_some (S := Session) IndexError (chr (48 + len ldigits)) s1).
    rewrite (digit_count_char (len ldigits) Hd).
    step (of_option_some (S := Session) ValueError (len ldigits) s1).
    rewrite header_field, (int_of_bytes_digits ldigits Hne Hdig), Hval.
    step (of_option_some (S := Session) ValueError (len payload) s1).
    rewrite header_rest. step Hrun.
    rewrite py_slice_removelast. reflexivity. }
  rewrite Hgo. simp_world. rewrite Hf2. auto.
Qed.

Lemma get_screen_dump_drops_last_byte_witness :
  files (world (fst (M34465a.get_screen_dump 5 (txt "screen.png")
         (mkSession bench_device (arriving [RecvData (txt "#15he"); RecvData (txt "llo");
                                            RecvData [nl]]))))) =
    [(txt "screen.png", txt "hell")] /\
  inbound (world (fst (M34465a.get_screen_dump 5 (txt "screen.png")
         (mkSession bench_device (arriving [RecvData (txt "#15he"); RecvData (txt "llo");
                                            RecvData [nl]]))))) = [RecvData [nl]].
Proof.
  refine (proj2 (get_screen_dump_drops_last_byte 5 (txt "screen.png") (txt "5") (txt "hello")
            [txt "#15he"; txt "llo"] [RecvData [nl]]
            (mkSession bench_device (arriving [RecvData (txt "#15he"); RecvData (txt "llo");
                                               RecvData [nl]]))
            2%nat eq_refl (Forall_nil _) eq_refl eq_refl eq_refl _ eq_refl _)).
  - vm_compute. discriminate.
  - cbn. lia.
Defined.

(** ** More of [read_data] *)

Lemma parse_framed (ldigits body : bytes) :
  1 <= len ldigits <= 9 -> all_digits ldigits = true ->
  M34465a.parse_block_header (framed ldigits body) =
    Ok (len ldigits + 2, decimal ldigits, len body).
Proof.
  intros Hd Hdig.
  assert (Hne : ldigits <> []) by (intros ->; cbn in Hd; lia).
  unfold framed, M34465a.parse_block_header.
  rewrite header_count, (digit_count_byte _ Hd), header_field,
    (int_of_bytes_digits _ Hne Hdig).
  rewrite (app_assoc (block_header ldigits)), py_slice_last.
  change (eqs [nl] [nl]) with true. cbv iota.
  rewrite <- app_assoc.
  replace (len ldigits + 2) with (len (block_header ldigits))
    by (unfold block_header; rewrite !len_cons; lia).
  rewrite py_slice_app_mid_last. reflexivity.
Qed.

(** X20: a block that declares zero bytes is skipped by [read_data],
    whatever it carries: the count stays as it was and nothing is written
    to the file, so the loop asks again. *)
Theorem read_chunk_skips_empty_block (fuel : nat) (filename : str) (data_count : Z)
    (s : Session) (fd : nat) (ldigits body : bytes) (rest : list recv_outcome) :
  sock (dev s) = Some fd ->
  sends_succeed (world s) ->
  1 <= len ldigits <= 9 ->
  all_digits ldigits = true ->
  decimal ldigits = 0 ->
  inbound (world s) = RecvData (framed ldigits body) :: rest ->
  len (framed ldigits body) <= M34465a.buff_len ->
  (2 <= fuel)%nat ->
  let s' := fst (M34465a.read_chunk fuel filename data_count s) in
  snd (M34465a.read_chunk fuel filename data_count s) = Ok data_count /\
  files (world s') = files (world s) /\
  inbound (world s') = rest.
Proof.
  intros Hfd Hs Hd Hdig Hzero Hin Hfit Hfuel. cbv zeta.
  assert (Hend : endswith (framed ldigits body) [nl] = true)
    by (unfold framed; rewrite app_assoc; apply endswith_nl).
  set (s0 := mkSession (with_error None (dev s)) (sent fd chunk_request (world s))).
  set (s1 := mkSession (dev s0) (received fd M34465a.buff_len (world s0))).
  assert (Hr : after_recv M34465a.buff_len (world s0) = rest)
    by (apply (recv_whole (world s0) _ (framed ldigits body) rest Hin Hfit)).
  assert (Hgo : exists w' : World,
    M34465a.read_chunk fuel filename data_count s = (mkSession (dev s1) w', Ok data_count) /\
    files w' = files (world s) /\ inbound w' = rest).
  { unfold M34465a.read_chunk. rewrite request_text.
    pose proof (write_ok Keysight34465a (txt "R? 160256") s fd Hfd Hs) as Hw.
    unfold drv_write in Hw. fold chunk_request in Hw. step Hw. fold s0.
    assert (Hrecv : try_except (M34465a.recv_block fuel M34465a.buff_len [])
              (fun e => match e with
                        | SocketTimeout =>
                            Some (io (print (txt "Socket timeout waiting for block data."));;
                                  M34465a.connect;; ret [])
                        | _ => None
                        end) s0 = (s1, Ok (framed ldigits body))).
    { unfold try_except.
      rewrite (recv_block_whole fuel s0 fd _ rest Hfd Hin Hfit Hend Hfuel). reflexivity. }
    step Hrecv.
    replace (eqs (framed ldigits body) []) with false by reflexivity. cbv iota.
    rewrite (parse_framed _ body Hd Hdig), Hzero.
    step (eq_refl : of_result (Ok (len ldigits + 2, 0, len body)) s1 = (s1, Ok _)). cbv iota.
    change (negb (0 =? 0)) with false. cbv iota.
    destruct (0 =? len body); cbn [negb].
    - eexists. split; [reflexivity |]. split; [reflexivity | exact Hr].
    - unfold bind, io, logger, say, ret. eexists. split; [reflexivity |].
      split; [reflexivity | exact Hr]. }
  destruct Hgo as (w' & Hrun & Hf & Hi). rewrite Hrun. simp_world. auto.
Qed.

Lemma read_chunk_skips_empty_block_witness :
  snd (M34465a.read_chunk 2 (txt "/tmp/junk.txt") 7
         (mkSession bench_device (arriving [RecvData (txt "#10" ++ [nl])]))) = Ok 7 /\
  files (world (fst (M34465a.read_chunk 2 (txt "/tmp/junk.txt") 7
         (mkSession bench_device (arriving [RecvData (txt "#10" ++ [nl])]))))) = [].
Proof.
  assert (H : 1 <= len (txt "0") <= 9) by (change (len (txt "0")) with 1; lia).
  assert (F : len (framed (txt "0") []) <= M34465a.buff_len) by (vm_compute; discriminate).
  pose proof (read_chunk_skips_empty_block 2 (txt "/tmp/junk.txt") 7
                (mkSession bench_device (arriving [RecvData (txt "#10" ++ [nl])]))
                2%nat (txt "0") [] [] eq_refl (Forall_nil _) H
                eq_refl eq_refl eq_refl F (le_n 2)) as (H1 & H2 & _).
  split; [exact H1 | exact H2].
Defined.

(** The inner loop of [read_data] over reads that do not end a block,
    followed by one that does: the loop returns the last read alone. *)
Lemma recv_block_fragments (fd : nat) (rest : list recv_outcome) (last_read : bytes)
      (fragments : list bytes) :
  len last_read <= M34465a.buff_len ->
  endswith last_read [nl] = true ->
  forall (block : bytes) (s : Session) (fuel : nat),
    sock (dev s) = Some fd ->
    endswith block [nl] = false ->
    inbound (world s) = map RecvData fragments ++ RecvData last_read :: rest ->
    arrival_ok (TimedOut fragments) = true ->
    (S (length fragments) < fuel)%nat ->
    exists w' : World,
      M34465a.recv_block fuel M34465a.buff_len block s = (mkSession (dev s) w', Ok last_read) /\
      inbound w' = rest /\ sends w' = sends (world s) /\
      files w' = files (world s) /\ console w' = console (world s) /\
      written (trace w') = written (trace (world s)).
Proof.
  intros Hfit Hlast.
  induction fragments as [|f fragments IH]; intros block s fuel Hfd Hend Hin Hok Hfuel;
    (destruct fuel as [|fuel]; [cbn in Hfuel; lia |]);
    cbn [M34465a.recv_block]; rewrite Hend; cbn [negb]; cbn [map app] in Hin.
  - destruct (recv_whole (world s) _ last_read _ Hin Hfit) as [Hn Ha].
    step (the_sock_run s fd Hfd). step (recv_run s fd M34465a.buff_len last_read Hn).
    destruct fuel as [|fuel]; [cbn in Hfuel; lia |].
    cbn [M34465a.recv_block]. rewrite Hlast. cbn [negb].
    exists (received fd M34465a.buff_len (world s)).
    split; [reflexivity |]. unfold received. simp_world. rewrite written_app. cbn [written flat_map].
    rewrite app_nil_r. repeat split. exact Ha.
  - cbn [arrival_ok forallb] in Hok. apply andb_true_iff in Hok as [Hf Hok].
    apply andb_true_iff in Hf as [Hfend Hffit].
    apply negb_true_iff in Hfend. apply Z.leb_le in Hffit.
    destruct (recv_whole (world s) _ f _ Hin Hffit) as [Hn Ha].
    step (the_sock_run s fd Hfd). step (recv_run s fd M34465a.buff_len f Hn).
    destruct (IH f (mkSession (dev s) (received fd M34465a.buff_len (world s))) fuel)
      as (w' & Hrun & Hi & Hs & Hfs & Hco & Hwr); try assumption.
    + cbn [length] in Hfuel. lia.
    + exists w'. split; [exact Hrun |]. simp_world in *.
      unfold received in Hwr. simp_world in Hwr. rewrite written_app in Hwr.
      cbn [written flat_map] in Hwr. rewrite app_nil_r in Hwr.
      repeat split; assumption.
Qed.

(** What [read_data] does with a block of readings, once it has it. *)
Lemma read_chunk_from_recv (fuel : nat) (filename : str) (data_count : Z)
      (s s0 s1 : Session) (b0 : bool) (ldigits : bytes) (samples : list str) :
  M34465a.write (txt "R? 160256") s = (s0, Ok b0) ->
  try_except (M34465a.recv_block fuel M34465a.buff_len [])
    (fun e => match e with
              | SocketTimeout =>
                  Some (io (print (txt "Socket timeout waiting for block data."));;
                        M34465a.connect;; ret [])
              | _ => None
              end) s0 = (s1, Ok (readings_block ldigits samples)) ->
  readings_ok ldigits samples = true ->
  exists w' : World,
    M34465a.read_chunk fuel filename data_count s =
      (mkSession (dev s1) w', Ok (data_count + len samples)) /\
    files w' = stored_lines filename samples (files (world s1)) /\
    inbound w' = inbound (world s1) /\
    written (trace w') = written (trace (world s1)).
Proof.
  intros Hw Hrecv Hok.
  destruct (readings_ok_facts _ _ Hok) as (_ & _ & _ & Hnz & _ & _ & Hfit).
  destruct (readings_block_parsed _ _ Hok) as (Hend & Hnonempty & Hparse & t & Hdec & Hsplit).
  cbv zeta in Hend, Hnonempty, Hparse, Hdec.
  unfold M34465a.read_chunk. rewrite request_text.
  step Hw. step Hrecv. rewrite Hnonempty. cbv iota.
  assert (Hp : of_result (M34465a.parse_block_header (readings_block ldigits samples)) s1 =
               (s1, Ok (len ldigits + 2, decimal ldigits, len (join "," samples))))
    by (rewrite Hparse; reflexivity).
  step Hp. cbv iota.
  replace (negb (decimal ldigits =? 0)) with true
    by (symmetry; apply negb_true_iff, Z.eqb_neq; exact Hnz).
  destruct (decimal ldigits =? len (join "," samples)); cbn [negb].
  - step (eq_refl : ret tt s1 = (_, Ok tt)).
    rewrite Hdec. step (of_option_some (S := Session) UnicodeDecodeError t s1).
    rewrite Hsplit, store_lines_then.
    eexists. split; [reflexivity |]. simp_world. repeat split.
  - unfold bind at 1. unfold io at 1, logger at 1, say at 1. cbv beta iota.
    rewrite Hdec. unfold bind at 1, of_option at 1, ret at 1.
    rewrite Hsplit, store_lines_then.
    eexists. split; [reflexivity |]. simp_world. repeat split.
Qed.

(** X21: the inner loop of [read_data] keeps only its last read (it
    assigns where [read_data_with_fetch] appends): what is read before the
    read that ends in a newline is dropped, silently.  Here reads that do
    not end in a newline come before a whole block of readings; only the
    readings of that block are counted and stored. *)
Theorem read_chunk_drops_earlier_reads (fuel : nat) (filename : str) (data_count : Z)
    (s : Session) (fd : nat) (fragments : list bytes) (ldigits : bytes)
    (samples : list str) (rest : list recv_outcome) :
  sock (dev s) = Some fd ->
  sends_succeed (world s) ->
  inbound (world s) =
    map RecvData fragments ++ RecvData (readings_block ldigits samples) :: rest ->
  forallb (fun f => negb (endswith f [nl]) && (len f <=? M34465a.buff_len)) fragments = true ->
  readings_ok ldigits samples = true ->
  (S (length fragments) < fuel)%nat ->
  let s' := fst (M34465a.read_chunk fuel filename data_count s) in
  snd (M34465a.read_chunk fuel filename data_count s) = Ok (data_count + len samples) /\
  file_text filename (files (world s')) = file_text filename (files (world s)) ++ lines samples /\
  written (trace (world s')) = written (trace (world s)) ++ [chunk_request] /\
  inbound (world s') = rest.
Proof.
  intros Hfd Hs Hin Hfrag Hok Hfuel. cbv zeta.
  change (arrival_ok (TimedOut fragments) = true) in Hfrag.
  destruct (readings_ok_facts _ _ Hok) as (_ & _ & _ & _ & _ & _ & Hfit).
  destruct (readings_block_parsed _ _ Hok) as (Hend & _). cbv zeta in Hend.
  pose proof (write_ok Keysight34465a (txt "R? 160256") s fd Hfd Hs) as Hw.
  unfold drv_write in Hw. fold chunk_request in Hw.
  set (s0 := mkSession (with_error None (dev s)) (sent fd chunk_request (world s))) in *.
  destruct (recv_block_fragments fd rest (readings_block ldigits samples) fragments Hfit Hend
              [] s0 fuel Hfd eq_refl Hin Hfrag Hfuel)
    as (w1 & Hrun & Hi1 & _ & Hf1 & _ & Hw1).
  assert (Hrecv : try_except (M34465a.recv_block fuel M34465a.buff_len [])
            (fun e => match e with
                      | SocketTimeout =>
                          Some (io (print (txt "Socket timeout waiting for block data."));;
                                M34465a.connect;; ret [])
                      | _ => None
                      end) s0 = (mkSession (dev s0) w1, Ok (readings_block ldigits samples)))
    by (unfold try_except; rewrite Hrun; reflexivity).
  destruct (read_chunk_from_recv fuel filename data_count s s0 _ true ldigits samples
              Hw Hrecv Hok) as (w' & Hgo & Hf & Hi & Hwr).
  rewrite Hgo. simp_world in *. rewrite Hf, Hi, Hwr, Hf1, Hi1, Hw1.
  split; [reflexivity |]. split; [apply file_text_stored |]. split; [| reflexivity].
  unfold s0, sent. simp_world. rewrite written_app. reflexivity.
Qed.

Lemma read_chunk_drops_earlier_reads_witness :
  snd (M34465a.read_chunk 3 (txt "/tmp/junk.txt") 0
         (mkSession bench_device
            (arriving [RecvData (txt "#14+1.0"); RecvData (txt "#14+2.0" ++ [nl])]))) = Ok 1 /\
  file_text (txt "/tmp/junk.txt")
    (files (world (fst (M34465a.read_chunk 3 (txt "/tmp/junk.txt") 0
         (mkSession bench_device
            (arriving [RecvData (txt "#14+1.0"); RecvData (txt "#14+2.0" ++ [nl])])))))) =
    txt "+2.0" ++ [nl].
Proof.
  assert (F : forallb (fun f => negb (endswith f [nl]) && (len f <=? M34465a.buff_len))
                [txt "#14+1.0"] = true) by (vm_compute; reflexivity).
  assert (R : readings_ok (txt "4") [txt "+2.0"] = true) by (vm_compute; reflexivity).
  pose proof (read_chunk_drops_earlier_reads 3 (txt "/tmp/junk.txt") 0
                (mkSession bench_device
                   (arriving [RecvData (txt "#14+1.0"); RecvData (txt "#14+2.0" ++ [nl])]))
                2%nat [txt "#14+1.0"] (txt "4") [txt "+2.0"] []
                eq_refl (Forall_nil _) eq_refl F R (le_n 3)) as (H1 & H2 & _).
  split; [exact H1 | exact H2].
Defined.

(** ** The DMM6500 driver: a current measurement *)

(** X22: [MultimeterDMM6500.get_meas_curr] checks its arguments before it
    touches the socket: a range outside the eight accepted texts, or a
    mode other than [AC] and [DC], raises ValueError and nothing is sent.
    With accepted arguments it sets the range as a checked command and
    then queries the measurement, returning the reply. *)
Theorem get_meas_curr_validates (m_ac_dc m_range : str) (s : Session) :
  (existsb (eqs m_range) DMM6500.curr_ranges && existsb (eqs m_ac_dc) DMM6500.curr_modes = false ->
   DMM6500.get_meas_curr m_ac_dc m_range s = (s, Raise ValueError)) /\
  (forall (fd : nat) (reply reading : bytes) (rest : list recv_outcome),
     existsb (eqs m_range) DMM6500.curr_ranges = true ->
     existsb (eqs m_ac_dc) DMM6500.curr_modes = true ->
     sock (dev s) = Some fd ->
     sends_succeed (world s) ->
     inbound (world s) = RecvData reply :: RecvData reading :: rest ->
     clean_reply KeithleyDMM6500 (buffersize (dev s)) reply = true ->
     len reading <= buffersize (dev s) ->
     snd (DMM6500.get_meas_curr m_ac_dc m_range s) = Ok (true, Some reading) /\
     written (trace (world (fst (DMM6500.get_meas_curr m_ac_dc m_range s)))) =
       written (trace (world s)) ++
       [encode (txt ":SYSTem:CLEar") ++ [nl];
        encode (txt ":SENS:CURR:RANG " ++ m_range) ++ [nl];
        encode (txt ":SYSTem:ERRor:NEXT?") ++ [nl];
        encode (txt "MEAS:CURR:" ++ m_ac_dc ++ txt "?") ++ [nl]]).
Proof.
  split.
  - intros H. unfold DMM6500.get_meas_curr.
    destruct (existsb (eqs m_range) DMM6500.curr_ranges); [| reflexivity].
    cbn [andb] in H. rewrite H. reflexivity.
  - intros fd reply reading rest Hr Hm Hfd Hs Hin Hclean Hfit.
    unfold clean_reply in Hclean.
    apply andb_true_iff in Hclean as [Hrfit Hrtext]. apply Z.leb_le in Hrfit.
    destruct (error_text reply) as [e |] eqn:He; [| discriminate].
    set (cmd := txt ":SENS:CURR:RANG " ++ m_range).
    pose proof (send_commands_step KeithleyDMM6500 cmd [] s fd reply _ e
                  Hfd Hs Hin Hrfit He) as Hstep.
    rewrite Hrtext in Hstep. unfold drv_send_commands in Hstep.
    change (DMM6500.send_commands (inr []) (checked KeithleyDMM6500 fd cmd s))
      with (checked KeithleyDMM6500 fd cmd s, @Ok unit tt) in Hstep.
    destruct (checked_facts KeithleyDMM6500 fd cmd s reply _ Hfd Hs Hin Hrfit)
      as (Hfd' & Hb' & Hs' & Hi' & Hw'). cbv zeta in Hb'.
    pose proof (get_ok KeithleyDMM6500 (txt "MEAS:CURR:" ++ m_ac_dc ++ txt "?")
                  (checked KeithleyDMM6500 fd cmd s) fd reading rest Hfd' Hs' Hi') as Hget.
    rewrite Hb' in Hget. specialize (Hget Hfit). unfold drv_get in Hget.
    assert (Hgo : DMM6500.get_meas_curr m_ac_dc m_range s =
      (mkSession (with_error None (dev (checked KeithleyDMM6500 fd cmd s)))
         (received fd (buffersize (dev s))
            (sent fd (encode (txt "MEAS:CURR:" ++ m_ac_dc ++ txt "?") ++ [nl])
               (world (checked KeithleyDMM6500 fd cmd s)))),
       Ok (true, Some reading))).
    { unfold DMM6500.get_meas_curr. rewrite Hr, Hm. cbn [negb].
      unfold bind at 1. unfold ret at 1. unfold bind at 1. unfold ret at 1.
      change (DMM6500.send_commands (inl (txt ":SENS:CURR:RANG " ++ m_range)))
        with (DMM6500.send_commands (inr [cmd])).
      rewrite (bind_ok _ _ _ _ _ Hstep). exact Hget. }
    rewrite Hgo. cbn [fst snd]. split; [reflexivity |]. simp_world.
    unfold received, sent. simp_world. rewrite !written_app.
    fold (sent fd (encode (txt ":SYSTem:CLEar") ++ [nl])
            (add_out (Log INFO (txt "Sending command: " ++ cmd)) (world s))).
    rewrite Hw'. unfold command_writes, error_query. cbn [written flat_map app].
    rewrite <- !app_assoc. reflexivity.
Qed.

Lemma get_meas_curr_validates_witness :
  DMM6500.get_meas_curr (txt "DC") (txt "2") idle_session = (idle_session, Raise ValueError).
Proof.
  exact (proj1 (get_meas_curr_validates (txt "DC") (txt "2") idle_session) eq_refl).
Defined.

(** ** Starting a measurement *)

(** [show_op_reg] when the register is read. *)
Lemma show_op_reg_run (s : Session) (fd : nat) (reply : bytes) (rest : list recv_outcome)
      (t : str) (v : Z) :
  sock (dev s) = Some fd -> sends_succeed (world s) ->
  inbound (world s) = RecvData reply :: rest -> len reply <= buffersize (dev s) ->
  decode reply = Some t -> int_of_str t = Some v ->
  exists w' : World,
    M34465a.show_op_reg s = (mkSession (with_error None (dev s)) w', Ok tt) /\
    sends_succeed w' /\ inbound w' = rest /\ files w' = files (world s) /\
    written (trace w') = written (trace (world s)) ++ [status_query].
Proof.
  intros Hfd Hs Hin Hfit Ht Hv.
  pose proof (get_ok Keysight34465a (txt "STAT:OPER:COND?") s fd reply rest Hfd Hs Hin Hfit)
    as Hget.
  unfold drv_get in Hget.
  unfold M34465a.show_op_reg, M34465a.get_std_op_reg.
  rewrite (bind_ok _ _ _ _ _ Hget). cbv beta. cbn [snd decode_reply]. rewrite Ht.
  cbn [of_option].
  match goal with |- context [bind (ret t) _ ?s1] =>
    rewrite (bind_ok _ _ _ _ _ (of_option_some (S := Session) UnicodeDecodeError t s1));
    cbv beta; rewrite Hv;
    rewrite (bind_ok _ _ _ _ _ (of_option_some (S := Session) ValueError v s1)); cbv beta;
    rewrite (bind_ok _ _ _ _ _ (io_logger_run DEBUG _ s1)); cbv beta
  end.
  rewrite show_op_reg_lines by (unfold M34465a.reg_vals; repeat constructor; cbn; lia).
  eexists. split; [reflexivity |]. simp_world.
  assert (Hr : after_recv (buffersize (dev s)) (world s) = rest)
    by (apply (recv_whole _ _ reply); assumption).
  unfold received, sent. simp_world. rewrite !written_app. cbn [written flat_map app].
  rewrite app_nil_r.
  repeat split.
  - unfold sends_succeed in *. simp_world. destruct (sends (world s)); [constructor |].
    inversion Hs; assumption.
  - exact Hr.
Qed.



(** ** The file that is written, and the two versions of the header parser *)

Lemma split_lines (data : list str) :
  forallb (free_of nl) data = true -> split nl (lines data) = data ++ [[]].
Proof.
  induction data as [|d data IH]; intros H; [reflexivity |].
  cbn [forallb] in H. apply andb_true_iff in H as [Hd H].
  unfold lines. cbn [map concat]. fold (lines data).
  rewrite <- app_assoc. cbn [app].
  rewrite (split_free_app nl d (lines data) Hd), (IH H). reflexivity.
Qed.

(** X24: the file that [write_data_to_file] makes reads back as the data:
    when the file is new and no data point holds a newline, the text of
    the file split at the newlines is the data points, in order, followed
    by the empty text after the last newline. *)
Theorem write_data_to_file_round_trip (name : str) (data : list str) (w : World) :
  fs_lookup name (files w) = None ->
  forallb (free_of nl) data = true ->
  exists content : list ascii,
    fs_lookup name (files (fst (M34465a.write_data_to_file name data w))) = Some content /\
    split nl content = data ++ [[]].
Proof.
  intros Hnew Hfree. exists (lines data). split; [| apply split_lines; exact Hfree].
  rewrite write_data_to_file_run. simp_world. rewrite fs_lookup_stored.
  unfold file_text. rewrite Hnew. reflexivity.
Qed.

Lemma write_data_to_file_round_trip_witness :
  exists content : list ascii,
    fs_lookup (txt "/tmp/junk.txt")
      (files (fst (M34465a.write_data_to_file (txt "/tmp/junk.txt")
                     [txt "+1.0E-03"; txt "+2.0E-03"] (arriving [])))) = Some content /\
    split nl content = [txt "+1.0E-03"; txt "+2.0E-03"; []].
Proof.
  exact (write_data_to_file_round_trip (txt "/tmp/junk.txt") [txt "+1.0E-03"; txt "+2.0E-03"]
           (arriving []) eq_refl eq_refl).
Defined.

(** X25: the older driver's [parse_block_header] and the current one
    return the same result on every block, and neither touches the world.
    The older handler, which prints the block and leaves the process, is
    never entered. *)
Theorem parse_block_header_versions_agree (block : bytes) (w : World) :
  Old34465a.parse_block_header block w = (w, M34465a.parse_block_header block).
Proof.
  unfold Old34465a.parse_block_header, M34465a.parse_block_header, try_except, bind,
    of_option, ret, raise.
  destruct (int_of_bytes (py_slice block (Some 1) (Some 2))) as [num_digits|]; [| reflexivity].
  destruct (int_of_bytes (py_slice block (Some 2) (Some (num_digits + 2)))); reflexivity.
Qed.

(** ** A register that is never read *)

Lemma poll_unanswered (s : Session) (fd : nat) :
  sock (dev s) = Some fd -> sends_succeed (world s) -> inbound (world s) = [] ->
  M34465a.get_std_op_reg_bit 4 s = (polled fd s, Ok None) /\
  sock (dev (polled fd s)) = Some fd /\ sends_succeed (world (polled fd s)) /\
  inbound (world (polled fd s)) = [] /\
  polls (trace (world (polled fd s))) = S (polls (trace (world s))).
Proof.
  intros Hfd Hs Hin.
  assert (Ho : next_recv (buffersize (dev s)) (world s) = RecvTimeout)
    by (unfold next_recv; rewrite Hin; reflexivity).
  split; [| split; [exact Hfd | split; [apply sends_succeed_polled; exact Hs | split]]].
  - unfold M34465a.get_std_op_reg_bit. change (4 <? 0) with false. cbv iota.
    unfold bind at 1. unfold ret at 1. unfold try_except. unfold bind at 1.
    unfold M34465a.get_std_op_reg.
    rewrite (get_run_34465a _ s fd Hfd), (next_send_ok _ Hs).
    rewrite (read_run_34465a _ fd) by exact Hfd. cbv zeta. simp_world.
    unfold polled. fold status_query. rewrite next_recv_sent, Ho. reflexivity.
  - unfold polled, received, sent, after_recv. simp_world. rewrite Hin. reflexivity.
  - rewrite (trace_polled fd s RecvTimeout Hs Ho), polls_app.
    assert (H1 : polls (poll_events fd (buffersize (dev s)) RecvTimeout) = 1%nat)
      by (unfold polls, poll_events; cbn [filter]; rewrite eqs_refl; reflexivity).
    rewrite H1. lia.
Qed.

(** X26: the polling loop of [trigger_and_fetch] has no limit of its own.
    When no reply to the status query is ever read, the Measuring bit
    stays indeterminate and the loop polls again after every second: it
    has not returned after any number of polls. *)
Theorem wait_measuring_has_no_limit (fuel : nat) (s : Session) (fd : nat) :
  sock (dev s) = Some fd ->
  sends_succeed (world s) ->
  inbound (world s) = [] ->
  snd (M34465a.wait_measuring fuel 4 s) = Diverge /\
  polls (trace (world (fst (M34465a.wait_measuring fuel 4 s)))) =
    (polls (trace (world s)) + fuel)%nat.
Proof.
  revert s. induction fuel as [|fuel IH]; intros s Hfd Hs Hin.
  - cbn. split; [reflexivity | lia].
  - destruct (poll_unanswered s fd Hfd Hs Hin) as (Hrun & Hfd' & Hs' & Hi' & Hp).
    set (s1 := mkSession (dev (polled fd s)) (add_event (EvSleep 1) (world (polled fd s)))).
    assert (Hgo : M34465a.wait_measuring (S fuel) 4 s = M34465a.wait_measuring fuel 4 s1).
    { cbn [M34465a.wait_measuring]. rewrite (bind_ok _ _ _ _ _ Hrun). cbv beta iota.
      reflexivity. }
    rewrite Hgo.
    destruct (IH s1) as (Hd & Hn).
    + exact Hfd'.
    + unfold s1. simp_world. auto with script.
    + exact Hi'.
    + split; [exact Hd |]. rewrite Hn. unfold s1. simp_world.
      rewrite polls_app. change (polls [EvSleep 1]) with 0%nat. lia.
Qed.

Lemma wait_measuring_has_no_limit_witness :
  snd (M34465a.wait_measuring 1000 4 idle_session) = Diverge /\
  polls (trace (world (fst (M34465a.wait_measuring 1000 4 idle_session)))) = 1000%nat.
Proof.
  exact (wait_measuring_has_no_limit 1000 idle_session 2 eq_refl (Forall_nil _) eq_refl).
Defined.
